(** * rave-latent-to-ds: latent-space export pipeline and its OSC control plane

    A shallow embedding of [rave-latent-to-ds.py].

    - Python values that travel over OSC are the inductive [pyval].
    - numpy arrays are a shape together with a row-major buffer ([ndarray]).
      The element type and its arithmetic are the class [Num], with two
      instances: [Qnum], exact rational arithmetic, and [binary prec emax],
      IEEE 754 binary floating point ([binary32] is numpy's float32, the
      type of the t-SNE and UMAP embeddings).  Sums follow the order of the
      buffer.
    - strings are byte strings; [lower()] changes the ASCII letters.
    - Python dicts are association lists in insertion order ([dict]), because
      the code enumerates [latent_data.keys()] against matrix rows.
    - Exceptions are the [Raise] results of the monads [result] (pure code) and
      [M] (code with effects on the [World]: console, written files, sent OSC
      messages, started threads).
    - torch, librosa, sklearn, umap and the file system are the fields of the
      class [Env]. *)

From Stdlib Require Import String Ascii List Bool Arith ZArith QArith Qabs Lia.
From Stdlib Require Import Floats.SpecFloat.
From Stdlib Require Import DecimalString.
Import ListNotations.

#[local] Set Warnings "-abstract-large-number".

Local Close Scope Q_scope.
Local Open Scope string_scope.
Local Open Scope list_scope.
Local Open Scope nat_scope.

(** ** Python strings and [os.path] *)

Module PyStr.

(** [c.lower()] on one character; only A-Z change. *)
Definition lower_ascii (c : ascii) : ascii :=
  let n := nat_of_ascii c in
  if andb (65 <=? n) (n <=? 90) then ascii_of_nat (n + 32) else c.

(** [s.lower()] *)
Fixpoint lower (s : string) : string :=
  match s with
  | EmptyString => EmptyString
  | String c s' => String (lower_ascii c) (lower s')
  end.

(** [s.startswith(p)] *)
Definition startswith (s p : string) : bool := String.prefix p s.

(** [s[n:]] *)
Fixpoint drop (n : nat) (s : string) : string :=
  match n, s with
  | O, _ => s
  | S n', String _ s' => drop n' s'
  | S _, EmptyString => EmptyString
  end.

(** [s.endswith(suf)] *)
Definition endswith (s suf : string) : bool :=
  let n := String.length s in
  let m := String.length suf in
  if m <=? n then String.eqb (drop (n - m) s) suf else false.

(** [s.replace(old, new, 1)]: the leftmost occurrence only. *)
Fixpoint replace_first (old new s : string) : string :=
  if String.prefix old s then new ++ drop (String.length old) s
  else match s with
       | EmptyString => EmptyString
       | String c s' => String c (replace_first old new s')
       end.

(** [c in s] *)
Fixpoint contains (c : ascii) (s : string) : bool :=
  match s with
  | EmptyString => false
  | String d s' => if Ascii.eqb c d then true else contains c s'
  end.

(** [os.path.basename(p)]: what follows the last slash. *)
Fixpoint basename (p : string) : string :=
  match p with
  | EmptyString => EmptyString
  | String c p' =>
      if contains "/" p' then basename p'
      else if Ascii.eqb c "/" then p' else p
  end.

(** [s.rfind(c)], with -1 when [c] does not occur. *)
Fixpoint rfind_from (c : ascii) (s : string) (i : Z) (last : Z) : Z :=
  match s with
  | EmptyString => last
  | String d s' => rfind_from c s' (i + 1) (if Ascii.eqb c d then i else last)
  end.

Definition rfind (c : ascii) (s : string) : Z := rfind_from c s 0 (-1).

(** The [while filenameIndex < dotIndex] loop of [genericpath._splitext]:
    is there a character other than a dot in [p[from:to]]? *)
Definition has_non_dot (p : string) (from to : Z) : bool :=
  existsb (fun c => negb (Ascii.eqb c "."))
          (list_ascii_of_string
             (String.substring (Z.to_nat from) (Z.to_nat (to - from)) p)).

(** [os.path.splitext(p)] (posixpath). *)
Definition splitext (p : string) : string * string :=
  let sepIndex := rfind "/" p in
  let dotIndex := rfind "." p in
  if andb (sepIndex <? dotIndex)%Z (has_non_dot p (sepIndex + 1) dotIndex)
  then (String.substring 0 (Z.to_nat dotIndex) p, drop (Z.to_nat dotIndex) p)
  else (p, EmptyString).

(** [s.split('.')[0]] *)
Fixpoint before_first_dot (s : string) : string :=
  match s with
  | EmptyString => EmptyString
  | String c s' => if Ascii.eqb c "." then EmptyString
                   else String c (before_first_dot s')
  end.

(** [os.path.join(a, b)] (posixpath, two arguments). *)
Definition join (a b : string) : string :=
  if startswith b "/" then b
  else if orb (String.eqb a "") (endswith a "/") then a ++ b
  else a ++ "/" ++ b.

(** [os.path.isabs(p)] *)
Definition isabs (p : string) : bool := startswith p "/".

(** [str(n)] for a non-negative integer. *)
Definition of_nat (n : nat) : string := NilEmpty.string_of_uint (Nat.to_uint n).

End PyStr.

(** ** Python values, exceptions *)

(** The values python-osc hands to a handler, and Python's [None]. *)
Inductive pyval : Type :=
| PNone
| PBool (b : bool)
| PInt (z : Z)
| PFloat (q : Q)
| PStr (s : string)
| PBytes (b : string).

(** [bool(v)] *)
Definition py_bool (v : pyval) : bool :=
  match v with
  | PNone => false
  | PBool b => b
  | PInt z => negb (Z.eqb z 0)
  | PFloat q => negb (Qeq_bool q 0)
  | PStr s => negb (String.eqb s "")
  | PBytes b => negb (String.eqb b "")
  end.

(** [v == s] for a string literal [s]. *)
Definition py_eq_str (v : pyval) (s : string) : bool :=
  match v with
  | PStr t => String.eqb t s
  | _ => false
  end.

Inductive exn_kind : Type :=
| AttributeError | TypeError | IndexError | AxisError | ValueError
| RuntimeError | OSError.

(** An exception: its class and [str(e)]. *)
Record exn : Type := Exn { exn_kind_of : exn_kind; exn_msg : string }.

Inductive result (A : Type) : Type :=
| Ok (a : A)
| Raise (e : exn).
Arguments Ok {A} a.
Arguments Raise {A} e.

Definition rbind {A B} (r : result A) (f : A -> result B) : result B :=
  match r with
  | Ok a => f a
  | Raise e => Raise e
  end.

Declare Scope py_scope.
Delimit Scope py_scope with py.
Notation "'let?' x ':=' r 'in' k" := (rbind r (fun x => k))
  (at level 10, x name, r at level 100, k at level 200) : py_scope.

(** ** Numbers *)

(** The element type of the arrays and the operations the code applies to
    it. *)
Class Num : Type := {
  num : Type;
  (** [0.0] and [5.0] *)
  nzero : num;
  nfive : num;
  nadd : num -> num -> num;
  nmul : num -> num -> num;
  ndiv : num -> num -> num;
  (** [abs(x)] and [max(x, y)] *)
  nabs : num -> num;
  nmax : num -> num -> num;
  (** [x == 0] *)
  nis_zero : num -> bool;
  (** the count a sum is divided by *)
  nof_nat : nat -> num
}.

Definition Q_max (x y : Q) : Q := if Qle_bool x y then y else x.

(** Exact arithmetic. *)
Definition Qnum : Num := {|
  num := Q;
  nzero := 0%Q;
  nfive := 5%Q;
  nadd := Qplus;
  nmul := Qmult;
  ndiv := Qdiv;
  nabs := Qabs;
  nmax := Q_max;
  nis_zero := fun q => Qeq_bool q 0;
  nof_nat := fun n => inject_Z (Z.of_nat n)
|}.

(** [max] of two floats; a nan operand gives nan. *)
Definition SFmax (x y : spec_float) : spec_float :=
  match SFcompare x y with
  | Some Lt => y
  | Some _ => x
  | None => S754_nan
  end.

(** IEEE 754 binary arithmetic with round-to-nearest-even. *)
Definition binary (prec emax : Z) : Num := {|
  num := spec_float;
  nzero := S754_zero false;
  nfive := binary_normalize prec emax 5 0 false;
  nadd := SFadd prec emax;
  nmul := SFmul prec emax;
  ndiv := SFdiv prec emax;
  nabs := SFabs;
  nmax := SFmax;
  nis_zero := fun x => SFeqb x (S754_zero false);
  nof_nat := fun n => binary_normalize prec emax (Z.of_nat n) 0 false
|}.

(** float32 and float64 *)
Definition binary32 : Num := binary 24 128.
Definition binary64 : Num := binary 53 1024.

(** ** numpy arrays *)

(** An array is its shape and its elements in row-major (C) order. *)
Record ndarray {N : Num} : Type :=
  NdArray { shape : list nat; flat : list num }.
Arguments NdArray {N} shape flat.

Module Np.

Definition size (sh : list nat) : nat := fold_right Nat.mul 1 sh.

(** [a.ndim] *)
Definition ndim {N : Num} (a : ndarray) : nat := length (shape a).

(** [a.squeeze()]: every axis of length 1 is dropped. *)
Definition squeeze {N : Num} (a : ndarray) : ndarray :=
  NdArray (filter (fun d => negb (d =? 1)) (shape a)) (flat a).

(** The first [n] consecutive runs of [k] elements. *)
Fixpoint chunks {A} (n k : nat) (l : list A) : list (list A) :=
  match n with
  | O => []
  | S n' => firstn k l :: chunks n' k (skipn k l)
  end.

(** Element-wise sum of two buffers of one length. *)
Fixpoint vadd {N : Num} (u v : list num) : list num :=
  match u, v with
  | x :: u', y :: v' => nadd x y :: vadd u' v'
  | _, _ => []
  end.

(** [np.mean(a, axis=1)]: for shape (d0, d1, rest...) the result has shape
    (d0, rest...); each element is the sum over the second axis divided by
    d1.  An array of rank below 2 has no axis 1. *)
Definition mean_axis1 {N : Num} (a : ndarray) : result ndarray :=
  match shape a with
  | d0 :: d1 :: rest =>
      let r := size rest in
      let block_mean (block : list num) : list num :=
        map (fun x => ndiv x (nof_nat d1))
            (fold_left vadd (chunks d1 r block) (repeat nzero r)) in
      Ok (NdArray (d0 :: rest)
                  (concat (map block_mean (chunks d0 (d1 * r) (flat a)))))
  | _ => Raise (Exn AxisError "axis 1 is out of bounds for array")
  end.

(** [np.array(l)] for a list of arrays: they are stacked along a new first
    axis; arrays of different shapes do not form a matrix (numpy 1.24 and
    later raise here; earlier versions build an object array that every
    reducer rejects). *)
Definition shape_eqb (s t : list nat) : bool :=
  if list_eq_dec Nat.eq_dec s t then true else false.

Definition array {N : Num} (l : list ndarray) : result ndarray :=
  match l with
  | [] => Ok (NdArray [0] [])
  | a :: l' =>
      if forallb (fun b => shape_eqb (shape b) (shape a)) l'
      then Ok (NdArray (length l :: shape a) (concat (map flat l)))
      else Raise (Exn ValueError "inhomogeneous shape")
  end.

(** [np.abs(a).max()]; an empty array has no maximum. *)
Definition abs_max {N : Num} (a : ndarray) : result num :=
  match flat a with
  | [] => Raise (Exn ValueError "zero-size array to reduction operation maximum")
  | x :: xs => Ok (fold_left (fun acc y => nmax acc (nabs y)) xs (nabs x))
  end.

(** [a * s] for a scalar [s]. *)
Definition mul {N : Num} (a : ndarray) (s : num) : ndarray :=
  NdArray (shape a) (map (fun x => nmul x s) (flat a)).

(** [a[i]] for a non-negative [i]. *)
Definition getitem {N : Num} (a : ndarray) (i : nat) : result ndarray :=
  match shape a with
  | [] => Raise (Exn IndexError "too many indices for array")
  | d0 :: rest =>
      if i <? d0
      then Ok (NdArray rest (firstn (size rest) (skipn (i * size rest) (flat a))))
      else Raise (Exn IndexError "index is out of bounds for axis 0")
  end.

(** [a[i, j]] read from the buffer of a matrix with [ncols] columns. *)
Definition at2 {N : Num} (a : ndarray) (ncols i j : nat) : num :=
  nth (i * ncols + j) (flat a) nzero.

(** [torch.from_numpy(x).reshape(1, 1, -1)]: the last axis cannot be
    inferred for an empty buffer. *)
Definition reshape_1_1_n {N : Num} (x : ndarray) : result ndarray :=
  match flat x with
  | [] => Raise (Exn RuntimeError "cannot reshape tensor of 0 elements")
  | _ => Ok (NdArray [1; 1; length (flat x)] (flat x))
  end.

(** [torch.zeros(1, 1, n)] *)
Definition zeros_1_1_n {N : Num} (n : nat) : ndarray :=
  NdArray [1; 1; n] (repeat nzero n).

End Np.

#[local] Set Warnings "-register-all".

(** What [tolist()] returns: a number for rank 0, nested lists otherwise. *)
Inductive pylist {N : Num} : Type :=
| PyNum (x : num)
| PyList (l : list pylist).
Arguments PyNum {N} x.
Arguments PyList {N} l.

Fixpoint tolist_aux {N : Num} (sh : list nat) (buf : list num) : pylist :=
  match sh with
  | [] => PyNum (hd nzero buf)
  | d :: rest => PyList (map (tolist_aux rest) (Np.chunks d (Np.size rest) buf))
  end.

(** [a.tolist()] *)
Definition tolist {N : Num} (a : ndarray) : pylist := tolist_aux (shape a) (flat a).

(** [len(v)] of a list *)
Definition py_len {N : Num} (v : pylist) : option nat :=
  match v with
  | PyNum _ => None
  | PyList l => Some (length l)
  end.

(** ** Python dicts *)

Definition dict (V : Type) : Type := list (string * V).

Module Dict.

(** [d[k] = v]: an existing key keeps its position. *)
Fixpoint set {V} (k : string) (v : V) (d : dict V) : dict V :=
  match d with
  | [] => [(k, v)]
  | (k', v') :: d' =>
      if String.eqb k k' then (k, v) :: d' else (k', v') :: set k v d'
  end.

(** [d.get(k)] *)
Fixpoint get {V} (k : string) (d : dict V) : option V :=
  match d with
  | [] => None
  | (k', v') :: d' => if String.eqb k k' then Some v' else get k d'
  end.

(** [list(d.keys())] *)
Definition keys {V} (d : dict V) : list string := map fst d.

End Dict.

(** ** The world a job runs in *)

(** The JSON document [output_data]. *)
Record Artifact {N : Num} : Type := MkArtifact {
  cols : option nat;
  data : dict pylist;
  reduced_data : option (dict pylist)
}.
Arguments MkArtifact {N} cols data reduced_data.

(** The arguments a worker thread closes over. *)
Record Job : Type := MkJob {
  job_model_path : string;
  job_audio_dir : string;
  job_output_json : pyval;
  job_method : pyval;
  job_skip_dim_reduction : bool
}.

(** The two [process_thread] closures. *)
Inductive thread : Type :=
| ProcessThread (j : Job)
| ModelInfoThread (model_path : pyval).

Inductive udp_client : Type := SimpleUDPClient (ip : string) (port : nat).

(** Everything observable from outside; each list has its latest entry
    first. *)
Record World {N : Num} : Type := MkWorld {
  console : list string;
  files : list (string * Artifact);
  osc_sent : list (string * pyval);
  threads : list thread
}.
Arguments MkWorld {N} console files osc_sent threads.

(** Computations with effects on the world that may raise. *)
Definition M {N : Num} (A : Type) : Type := World -> result A * World.

Definition ret {N : Num} {A} (a : A) : M A := fun w => (Ok a, w).

Definition bind {N : Num} {A B} (m : M A) (f : A -> M B) : M B :=
  fun w => match m w with
           | (Ok a, w') => f a w'
           | (Raise e, w') => (Raise e, w')
           end.

Definition lift {N : Num} {A} (r : result A) : M A := fun w => (r, w).

(** [try: body except Exception as e: handler(e)] *)
Definition try_except {N : Num} {A} (body : M A) (handler : exn -> M A)
  : M A :=
  fun w => match body w with
           | (Ok a, w') => (Ok a, w')
           | (Raise e, w') => handler e w'
           end.

Notation "'let!' x ':=' m 'in' k" := (bind m (fun x => k))
  (at level 10, x name, m at level 100, k at level 200) : py_scope.
Notation "m ';;' k" := (bind m (fun _ => k))
  (at level 61, right associativity) : py_scope.

Local Open Scope py_scope.

(** [print(s)] *)
Definition print {N : Num} (s : string) : M unit :=
  fun w => (Ok tt, MkWorld (s :: console w) (files w) (osc_sent w) (threads w)).

(** [osc_client.send_message(address, value)] *)
Definition send_message {N : Num} (c : udp_client) (address : string)
  (value : pyval)
  : M unit :=
  fun w => (Ok tt, MkWorld (console w) (files w)
                           ((address, value) :: osc_sent w) (threads w)).

(** [threading.Thread(target=t).start()] *)
Definition start_thread {N : Num} (t : thread) : M unit :=
  fun w => (Ok tt, MkWorld (console w) (files w) (osc_sent w) (t :: threads w)).

(** ** External collaborators *)

Class Env {N : Num} : Type := {
  (** a loaded TorchScript module *)
  Model : Type;
  (** [torch.jit.load(path).to(device)] followed by [eval()] *)
  torch_jit_load : string -> result Model;
  (** [os.listdir(d)] *)
  os_listdir : string -> result (list string);
  (** the samples of [librosa.load(path, sr=sr, mono=True)] *)
  li_load : string -> nat -> result ndarray;
  (** [rave.encode(x)] *)
  rave_encode : Model -> ndarray -> result ndarray;
  (** [TSNE(n_components, random_state=42).fit_transform(m)] *)
  TSNE_fit_transform : nat -> ndarray -> result ndarray;
  (** [UMAP(n_components, random_state=42).fit_transform(m)] *)
  UMAP_fit_transform : nat -> ndarray -> result ndarray;
  (** [PCA(n_components).fit_transform(m)] *)
  PCA_fit_transform : nat -> ndarray -> result ndarray;
  (** [os.path.abspath(p)] *)
  os_path_abspath : string -> string;
  (** can [open(path, "w")] succeed *)
  open_w : string -> result unit;
  (** [str(x)] for a float and for a bytes object *)
  str_float : Q -> string;
  str_bytes : string -> string
}.

(** [str(v)], as an f-string formats it. *)
Definition py_str {N : Num} {E : Env} (v : pyval) : string :=
  match v with
  | PNone => "None"
  | PBool true => "True"
  | PBool false => "False"
  | PInt z => NilEmpty.string_of_int (Z.to_int z)
  | PFloat q => str_float q
  | PStr s => s
  | PBytes b => str_bytes b
  end.

(** [if osc_client and osc_address] *)
Definition client_and_address (osc_client : option udp_client)
  (osc_address : option string) : option (udp_client * string) :=
  match osc_client, osc_address with
  | Some c, Some a => if String.eqb a "" then None else Some (c, a)
  | _, _ => None
  end.

(** [json.dump(output_data, open(output_json, "w"))] *)
Definition write_json {N : Num} {E : Env} (path : string) (a : Artifact)
  : M unit :=
  let! _ := lift (open_w path) in
  fun w => (Ok tt, MkWorld (console w) ((path, a) :: files w)
                           (osc_sent w) (threads w)).

(** ** [process_audio_files] *)

Section Pipeline.
Context {N : Num} {E : Env}.

(** [f.lower().endswith('.wav')] *)
Definition is_wav (f : string) : bool := PyStr.endswith (PyStr.lower f) ".wav".

(** The list comprehension over [os.listdir(audio_dir)]. *)
Definition list_audio_files (audio_dir : string) : result (list string) :=
  let? names := os_listdir audio_dir in
  Ok (map (PyStr.join audio_dir) (filter is_wav names)).

(** [os.path.splitext(os.path.basename(audio_file))[0]] *)
Definition file_key (audio_file : string) : string :=
  fst (PyStr.splitext (PyStr.basename audio_file)).

(** The three variables the encoding loop updates. *)
Record enc_state : Type := MkEnc {
  latent_data : dict pylist;
  latent_vectors_all : list ndarray;
  num_dimensions : option nat
}.

Definition enc_init : enc_state := MkEnc [] [] None.

(** [z = rave.encode(x); z = z.cpu().numpy().squeeze()] for one file. *)
Definition encode_file (rave : Model) (sr : nat) (audio_file : string)
  : result ndarray :=
  let? x := li_load audio_file sr in
  let? x := Np.reshape_1_1_n x in
  let? z := rave_encode rave x in
  Ok (Np.squeeze z).

(** The [if z.ndim == 1: ... else: ...] of the loop body: the vector to
    store and the new [num_dimensions]. *)
Definition mean_vector (z : ndarray) (num_dimensions : option nat)
  : result (ndarray * option nat) :=
  if Np.ndim z =? 1 then
    Ok (z, match num_dimensions with
           | None => Some 1
           | Some n => Some n
           end)
  else
    let? nd := match num_dimensions with
               | None => match shape z with
                         | d0 :: _ => Ok (Some d0)
                         | [] => Raise (Exn IndexError "tuple index out of range")
                         end
               | Some n => Ok (Some n)
               end in
    let? z_mean := Np.mean_axis1 z in
    Ok (z_mean, nd).

(** One iteration of the loop over [audio_files]. *)
Definition encode_step (rave : Model) (sr : nat) (st : enc_state)
  (audio_file : string) : result enc_state :=
  let? z := encode_file rave sr audio_file in
  let? zn := mean_vector z (num_dimensions st) in
  Ok (MkEnc (Dict.set (file_key audio_file) (tolist (fst zn)) (latent_data st))
            (latent_vectors_all st ++ [fst zn])
            (snd zn)).

Fixpoint encode_loop (rave : Model) (sr : nat) (audio_files : list string)
  (st : enc_state) : result enc_state :=
  match audio_files with
  | [] => Ok st
  | f :: rest =>
      let? st' := encode_step rave sr st f in
      encode_loop rave sr rest st'
  end.

(** [max_val = np.abs(r).max(); if max_val != 0: r = r * (5.0 / max_val)] *)
Definition scale_to_5 (latent_reduced : ndarray) : result ndarray :=
  let? max_val := Np.abs_max latent_reduced in
  if negb (nis_zero max_val)
  then Ok (Np.mul latent_reduced (ndiv nfive max_val))
  else Ok latent_reduced.

(** [for i, file_key in enumerate(latent_data.keys()):
       reduced[file_key] = latent_reduced[i].tolist()], from index [i]. *)
Fixpoint fill_reduced (i : nat) (keys : list string) (latent_reduced : ndarray)
  (reduced : dict pylist) : result (dict pylist) :=
  match keys with
  | [] => Ok reduced
  | k :: rest =>
      let? row := Np.getitem latent_reduced i in
      fill_reduced (S i) rest latent_reduced (Dict.set k (tolist row) reduced)
  end.

(** The body of [if not skip_dim_reduction:]; the requested [n_components]
    is overwritten with 2 before any method is chosen. *)
Definition reduce_stage (n_components : nat) (method : pyval)
  (latent_data : dict pylist) (latent_vectors_all : list ndarray)
  : M (dict pylist) :=
  let! latent_matrix := lift (Np.array latent_vectors_all) in
  let n_components := 2 in
  if py_eq_str method "tsne" then
    print "Performing T-SNE on latent vectors (2 components)..." ;;
    let! latent_reduced := lift (TSNE_fit_transform n_components latent_matrix) in
    let! latent_reduced := lift (scale_to_5 latent_reduced) in
    lift (fill_reduced 0 (Dict.keys latent_data) latent_reduced [])
  else if py_eq_str method "umap" then
    print "Performing UMAP on latent vectors (2 components)..." ;;
    let! latent_reduced := lift (UMAP_fit_transform n_components latent_matrix) in
    let! latent_reduced := lift (scale_to_5 latent_reduced) in
    lift (fill_reduced 0 (Dict.keys latent_data) latent_reduced [])
  else
    print "Performing PCA on latent vectors (2 components)..." ;;
    let! latent_reduced := lift (PCA_fit_transform n_components latent_matrix) in
    lift (fill_reduced 0 (Dict.keys latent_data) latent_reduced []).

(** "Determine the output JSON filename" and "Convert to absolute path". *)
Definition resolve_output_json (output_json : pyval) (model_path : string)
  (method : pyval) (skip_dim_reduction : bool) : result string :=
  let? name :=
    match output_json with
    | PNone =>
        let base_name := PyStr.before_first_dot (PyStr.basename model_path) in
        if skip_dim_reduction
        then Ok ("latent_vectors_" ++ base_name ++ ".json")%string
        else Ok ("2D_" ++ py_str method ++ "_latent_mapping_" ++ base_name
                   ++ ".json")%string
    | PStr s =>
        if negb (PyStr.endswith (PyStr.lower s) ".json")
        then Ok (s ++ ".json")%string else Ok s
    | PBytes _ =>
        Raise (Exn TypeError "endswith first arg must be bytes")
    | _ => Raise (Exn AttributeError "object has no attribute 'lower'")
    end in
  if negb (PyStr.isabs name) then Ok (os_path_abspath name) else Ok name.

Definition process_audio_files (model_path audio_dir : string)
  (output_json : pyval) (n_components : nat) (sr : nat) (method : pyval)
  (skip_dim_reduction : bool) (osc_client : option udp_client)
  (osc_address : option string) : M (option string) :=
  print ("Loading RAVE model from " ++ model_path ++ "...")%string ;;
  let! rave := lift (torch_jit_load model_path) in
  let! audio_files := lift (list_audio_files audio_dir) in
  match audio_files with
  | [] =>
      print ("No audio files found in directory: " ++ audio_dir)%string ;;
      ret None
  | _ :: _ =>
      print "Encoding audio files to latent space..." ;;
      let! st := lift (encode_loop rave sr audio_files enc_init) in
      let! reduced :=
        (if negb skip_dim_reduction
         then let! r := reduce_stage n_components method (latent_data st)
                                     (latent_vectors_all st) in
              ret (Some r)
         else ret None) in
      let output_data := MkArtifact (num_dimensions st) (latent_data st) reduced in
      let! output_json :=
        lift (resolve_output_json output_json model_path method
                                  skip_dim_reduction) in
      write_json output_json output_data ;;
      print ("Latent mapping data saved to " ++ output_json)%string ;;
      match client_and_address osc_client osc_address with
      | Some (c, a) =>
          send_message c a (PStr output_json) ;;
          print ("Sent OSC message to " ++ a ++ " with output path: "
                   ++ output_json)%string
      | None => ret tt
      end ;;
      ret (Some output_json)
  end.

End Pipeline.

(** ** Model introspection and the OSC handlers *)

Section ControlPlane.
Context {N : Num} {E : Env}.

(** [if p.startswith("Macintosh HD:"): p = p.replace("Macintosh HD:", "", 1)]
    on an OSC argument; only a [str] has this [startswith]. *)
Definition strip_volume (p : pyval) : result string :=
  match p with
  | PStr s =>
      if PyStr.startswith s "Macintosh HD:"
      then Ok (PyStr.replace_first "Macintosh HD:" "" s)
      else Ok s
  | PBytes _ =>
      Raise (Exn TypeError "startswith first arg must be bytes")
  | _ => Raise (Exn AttributeError "object has no attribute 'startswith'")
  end.

(** [z.shape[1]] *)
Definition shape_1 (z : ndarray) : result nat :=
  match nth_error (shape z) 1 with
  | Some d => Ok d
  | None => Raise (Exn IndexError "tuple index out of range")
  end.

(** The [try] block of [get_model_dimensions]. *)
Definition get_model_dimensions_body (model_path : pyval)
  (osc_client : option udp_client) (osc_address : option string)
  : M (option nat) :=
  let! model_path := lift (strip_volume model_path) in
  print ("Loading model to determine latent dimensions: " ++ model_path)%string ;;
  let! rave := lift (torch_jit_load model_path) in
  let test_signal := Np.zeros_1_1_n 48000 in
  let! z := lift (rave_encode rave test_signal) in
  let! latent_dim := lift (shape_1 z) in
  print ("Model has " ++ PyStr.of_nat latent_dim ++ " latent dimensions")%string ;;
  match client_and_address osc_client osc_address with
  | Some (c, a) =>
      send_message c a (PInt (Z.of_nat latent_dim)) ;;
      print ("Sent OSC message to " ++ a ++ " with dimensions: "
               ++ PyStr.of_nat latent_dim)%string
  | None => ret tt
  end ;;
  ret (Some latent_dim).

Definition get_model_dimensions (model_path : pyval)
  (osc_client : option udp_client) (osc_address : option string)
  : M (option nat) :=
  try_except
    (get_model_dimensions_body model_path osc_client osc_address)
    (fun e =>
       print ("Error determining model dimensions: " ++ exn_msg e)%string ;;
       match client_and_address osc_client osc_address with
       | Some (c, a) => send_message c a (PInt (-1))
       | None => ret tt
       end ;;
       ret None).

(** [handle_process_request(address, *args)] *)
Definition handle_process_request (address : string) (args : list pyval)
  : M unit :=
  if length args <? 2 then
    print ("Not enough arguments received at " ++ address
             ++ ". Expected audio_dir and model_path.")%string
  else
    let audio_dir := nth 0 args PNone in
    let model_path := nth 1 args PNone in
    let! audio_dir := lift (strip_volume audio_dir) in
    let! model_path := lift (strip_volume model_path) in
    let output_json := if 2 <? length args then nth 2 args PNone else PNone in
    let method := if 3 <? length args then nth 3 args PNone else PStr "pca" in
    let skip_dim_reduction :=
      if 4 <? length args then py_bool (nth 4 args PNone) else false in
    print ("Processing audio files in " ++ audio_dir ++ " with model "
             ++ model_path)%string ;;
    start_thread
      (ProcessThread
         (MkJob model_path audio_dir output_json method skip_dim_reduction)).

(** [handle_model_info_request(address, *args)] *)
Definition handle_model_info_request (address : string) (args : list pyval)
  : M unit :=
  match args with
  | [] => print ("No model path received at " ++ address)%string
  | model_path :: _ =>
      print ("Received request for model info: " ++ py_str model_path)%string ;;
      start_thread (ModelInfoThread model_path)
  end.

(** What a started thread runs; [osc_client] is the module-level client that
    [main] creates before the server starts.  An exception that leaves
    [process_thread] ends that thread only: [threading] prints it. *)
Definition run_thread (osc_client : udp_client) (t : thread) : M unit :=
  match t with
  | ProcessThread j =>
      try_except
        (process_audio_files (job_model_path j) (job_audio_dir j)
           (job_output_json j) 2 48000 (job_method j)
           (job_skip_dim_reduction j)
           (Some osc_client) (Some "/rave/processing/done") ;;
         ret tt)
        (fun e => print ("Exception in thread: " ++ exn_msg e)%string)
  | ModelInfoThread model_path =>
      try_except
        (get_model_dimensions model_path (Some osc_client)
           (Some "/rave/model/dimensions") ;;
         ret tt)
        (fun e => print ("Exception in thread: " ++ exn_msg e)%string)
  end.

(** The dispatcher of [main]: the two mapped addresses; a message to any
    other address has no handler. *)
Definition dispatch (address : string) (args : list pyval) : M unit :=
  if String.eqb address "/rave/process" then
    handle_process_request address args
  else if String.eqb address "/rave/model/info" then
    handle_model_info_request address args
  else ret tt.

(** One datagram handled by the server: [socketserver] reports an exception
    raised by a handler and goes on serving. *)
Definition serve_message (msg : string * list pyval) : M unit :=
  try_except (dispatch (fst msg) (snd msg))
             (fun e => print ("Exception occurred during processing of request: "
                                ++ exn_msg e)%string).

(** [server.serve_forever()] over the messages that arrive. *)
Fixpoint serve (msgs : list (string * list pyval)) : M unit :=
  match msgs with
  | [] => ret tt
  | m :: rest => serve_message m ;; serve rest
  end.

End ControlPlane.

(** ** A small concrete environment

    Exact arithmetic, a model of latent width 3, three directories and
    deterministic toy reducers; the closed examples below run the pipeline
    on it. *)

Module Demo.

#[local] Existing Instance Qnum.

Definition not_found : exn := Exn OSError "No such file or directory".

Definition samples (l : list Z) : ndarray :=
  NdArray [length l] (map inject_Z l).

(** Width 3; one timestep for a one-sample input, two otherwise. *)
Definition encode (_ : unit) (x : ndarray) : result ndarray :=
  match flat x with
  | [] => Raise (Exn RuntimeError "empty input")
  | [a] => Ok (NdArray [1; 3; 1] [a; Qplus a 1; Qplus a 2])
  | a :: b :: _ =>
      Ok (NdArray [1; 3; 2] [a; b; b; Qplus a b; Qminus a b; a])
  end.

(** The first [n] entries of a row, padded with zeros. *)
Definition take_padded (n : nat) (row : list Q) : list Q :=
  firstn n (row ++ repeat 0%Q n).

(** Keep the first [n] columns of a matrix. *)
Definition project (n : nat) (m : ndarray) : result ndarray :=
  match shape m with
  | [rows; width] =>
      if n <=? width
      then Ok (NdArray [rows; n]
                 (concat (map (take_padded n)
                              (Np.chunks rows width (flat m)))))
      else Raise (Exn ValueError "n_components too large")
  | _ => Raise (Exn ValueError "expected a 2D array")
  end.

Definition zero_embedding (n : nat) (m : ndarray) : result ndarray :=
  match shape m with
  | rows :: _ => Ok (NdArray [rows; n] (repeat 0%Q (rows * n)))
  | [] => Raise (Exn ValueError "expected a 2D array")
  end.

#[local] Instance env : @Env Qnum := {|
  Model := unit;
  torch_jit_load := fun p =>
    if String.eqb p "/models/rave.ts" then Ok tt else Raise not_found;
  os_listdir := fun d =>
    if String.eqb d "/audio"
    then Ok ["kick.wav"; "notes.txt"; "Snare.WAV"; "hat.wav"]
    else if String.eqb d "/short" then Ok ["blip.wav"]
    else if String.eqb d "/empty" then Ok ["readme.md"; "wav"]
    else Raise not_found;
  li_load := fun p _ =>
    if String.eqb p "/audio/kick.wav" then Ok (samples [3; 1; 4; 1]%Z)
    else if String.eqb p "/audio/Snare.WAV" then Ok (samples [-2; 7]%Z)
    else if String.eqb p "/audio/hat.wav" then Ok (samples [5; 0; 9]%Z)
    else if String.eqb p "/short/blip.wav" then Ok (samples [6]%Z)
    else Raise not_found;
  rave_encode := encode;
  TSNE_fit_transform := project;
  UMAP_fit_transform := zero_embedding;
  PCA_fit_transform := project;
  os_path_abspath := fun p => ("/cwd/" ++ p)%string;
  open_w := fun _ => Ok tt;
  str_float := fun _ => "0.0";
  str_bytes := fun b => ("b'" ++ b ++ "'")%string
|}.

Definition w0 : World := MkWorld [] [] [] [].

Definition client : udp_client := SimpleUDPClient "127.0.0.1" 9002.


(** A latent dataset of two files and its vectors. *)
Definition lv0 : list ndarray :=
  [NdArray [3] [1; 2; 3]%Q; NdArray [3] [4; 0; -8]%Q].

Definition ld0 : dict pylist :=
  [("a", tolist (NdArray [3] [1; 2; 3]%Q));
   ("b", tolist (NdArray [3] [4; 0; -8]%Q))].

(** One job on the demo model, notified on the reply address. *)
Definition run (audio_dir : string) (output_json : pyval) (n_components : nat)
  (method : pyval) (skip : bool) : result (option string) * World :=
  process_audio_files "/models/rave.ts" audio_dir output_json n_components
    48000 method skip (Some client) (Some "/rave/processing/done") w0.

End Demo.

(** ** A floating-point environment

    Two files and reducers that return one fixed 2 x 2 embedding whose
    largest magnitude is 19.9375, in the binary format given by [prec] and
    [emax]. *)

Module DemoFloat.

Section Precision.
Variables prec emax : Z.

(** The float [m * 2^e]. *)
Definition fl (m e : Z) : @num (binary prec emax) :=
  binary_normalize prec emax m e false.

(** [[19.9375, 1.0], [-0.5, 0.25]] *)
Definition embedding : @ndarray (binary prec emax) :=
  NdArray [2; 2] [fl 319 (-4); fl 1 0; SFopp (fl 1 (-1)); fl 1 (-2)].

Definition env : @Env (binary prec emax) := {|
  Model := unit;
  torch_jit_load := fun _ => Ok tt;
  os_listdir := fun _ => Ok ["a.wav"; "b.wav"];
  li_load := fun _ _ => Ok (NdArray [2] [fl 1 0; fl 1 (-1)]);
  rave_encode := fun _ x => Ok (NdArray [1; 2; 2] (flat x ++ flat x));
  TSNE_fit_transform := fun _ _ => Ok embedding;
  UMAP_fit_transform := fun _ _ => Ok embedding;
  PCA_fit_transform := fun _ _ => Ok embedding;
  os_path_abspath := fun p => ("/cwd/" ++ p)%string;
  open_w := fun _ => Ok tt;
  str_float := fun _ => "0.0";
  str_bytes := fun b => ("b'" ++ b ++ "'")%string
|}.

(** A t-SNE job on the two files. *)
Definition run : result (option string) * @World (binary prec emax) :=
  process_audio_files (E := env) "/models/rave.ts" "/audio" (PStr "out") 2
    48000 (PStr "tsne") false None None (MkWorld [] [] [] []).

End Precision.

End DemoFloat.

(** ** An environment with an unreadable file

    Every directory lists three files; "bad.wav" cannot be decoded. *)

Module DemoBroken.

Definition cannot_decode : exn := Exn OSError "cannot decode".

Definition env : @Env Qnum := {|
  Model := unit;
  torch_jit_load := fun _ => Ok tt;
  os_listdir := fun _ => Ok ["a.wav"; "bad.wav"; "c.wav"];
  li_load := fun p _ =>
    if PyStr.endswith p "bad.wav" then Raise cannot_decode
    else Ok (Demo.samples [1; 2]%Z);
  rave_encode := Demo.encode;
  TSNE_fit_transform := Demo.project;
  UMAP_fit_transform := Demo.project;
  PCA_fit_transform := Demo.project;
  os_path_abspath := fun p => ("/cwd/" ++ p)%string;
  open_w := fun _ => Ok tt;
  str_float := fun _ => "0.0";
  str_bytes := fun b => ("b'" ++ b ++ "'")%string
|}.

End DemoBroken.

(** ** A model of latent width 1

    One file; the encoder returns an array of shape (1, 1, 3): batch 1, one
    latent dimension, three timesteps with the values 4, 5, 6. *)

Module DemoNarrow.

Definition encoding : @ndarray Qnum :=
  NdArray (N := Qnum) [1; 1; 3] [4; 5; 6]%Q.

Definition env : @Env Qnum := {|
  Model := unit;
  torch_jit_load := fun _ => Ok tt;
  os_listdir := fun _ => Ok ["tone.wav"];
  li_load := fun _ _ => Ok (Demo.samples [1; 2; 3]%Z);
  rave_encode := fun _ _ => Ok encoding;
  TSNE_fit_transform := Demo.project;
  UMAP_fit_transform := Demo.project;
  PCA_fit_transform := Demo.project;
  os_path_abspath := fun p => ("/cwd/" ++ p)%string;
  open_w := fun _ => Ok tt;
  str_float := fun _ => "0.0";
  str_bytes := fun b => ("b'" ++ b ++ "'")%string
|}.

(** A job that skips the reduction. *)
Definition run : result (option string) * @World Qnum :=
  process_audio_files (E := env) "/models/narrow.ts" "/audio" PNone 2 48000
    (PStr "pca") true None None (MkWorld [] [] [] []).

End DemoNarrow.

(** ** Vocabulary of the statements *)

(** [(x_1 + ... + x_T) / T] *)
Definition arithmetic_mean {N : Num} (l : list num) : num :=
  ndiv (fold_left nadd l nzero) (nof_nat (length l)).

(** Row [d] of a matrix with [T] columns: [z[d, 0], ..., z[d, T-1]]. *)
Definition matrix_row {N : Num} (z : ndarray) (T d : nat) : list num :=
  map (fun t => Np.at2 z T d t) (seq 0 T).

(** The pure part of the [try] block of [get_model_dimensions]: normalise the
    path, load the model, encode the probe signal, read [z.shape[1]]. *)
Definition probe_latent_dim {N : Num} {E : Env} (model_path : pyval)
  : result nat :=
  let? path := strip_volume model_path in
  let? rave := torch_jit_load path in
  let? z := rave_encode rave (Np.zeros_1_1_n 48000) in
  shape_1 z.

(** The ways the [try] block of [get_model_dimensions] fails: the argument is
    not a string, the model does not load from the normalised path, the
    encoder raises on the probe signal, or the encoding has no second
    axis. *)
Definition introspection_fails {N : Num} {E : Env} (model_path : pyval)
  : Prop :=
  (forall s, model_path <> PStr s) \/
  (exists path e,
      strip_volume model_path = Ok path /\ torch_jit_load path = Raise e) \/
  (exists path rave e,
      strip_volume model_path = Ok path /\ torch_jit_load path = Ok rave /\
      rave_encode rave (Np.zeros_1_1_n 48000) = Raise e) \/
  (exists path rave z,
      strip_volume model_path = Ok path /\ torch_jit_load path = Ok rave /\
      rave_encode rave (Np.zeros_1_1_n 48000) = Ok z /\
      length (shape z) < 2).

(** The line [handle_process_request] prints for a short message. *)
Definition not_enough_arguments (address : string) : string :=
  ("Not enough arguments received at " ++ address
     ++ ". Expected audio_dir and model_path.")%string.

(** The artifact a run wrote last, and its reduced coordinates. *)
Definition written {N : Num} (r : result (option string) * World) : Artifact :=
  match files (snd r) with
  | (_, a) :: _ => a
  | [] => MkArtifact None [] None
  end.

Definition reduced_of {N : Num} (a : Artifact) : dict pylist :=
  match reduced_data a with
  | Some rd => rd
  | None => []
  end.

(** Effects that leave written files, sent messages and started threads
    as they are. *)
Definition quiet {N : Num} {A} (m : M A) : Prop :=
  forall w r w', m w = (r, w') ->
    files w' = files w /\ osc_sent w' = osc_sent w /\ threads w' = threads w.

(** What the code relies on from sklearn and umap: [fit_transform] with
    [n_components = n] returns a well-formed matrix with [n] columns. *)
Definition reducer_contract {N : Num}
  (fit_transform : nat -> ndarray -> result ndarray) : Prop :=
  forall n m r, fit_transform n m = Ok r ->
    exists rows, shape r = [rows; n] /\ length (flat r) = rows * n.

(** The vector the loop body keeps for a squeezed encoding [z]: [z] itself
    for rank 1, [np.mean(z, axis=1)] otherwise. *)
Definition latent_vector_of {N : Num} (z : ndarray) : result ndarray :=
  if Np.ndim z =? 1 then Ok z else Np.mean_axis1 z.

(** The [fit_transform] that the [if]/[elif]/[else] on [method] selects. *)
Definition reducer_for {N : Num} {E : Env} (method : pyval)
  : nat -> ndarray -> result ndarray :=
  if py_eq_str method "tsne" then TSNE_fit_transform
  else if py_eq_str method "umap" then UMAP_fit_transform
  else PCA_fit_transform.

(** The eligible files of a listing, as the job iterates over them. *)
Definition eligible_files (audio_dir : string) (names : list string)
  : list string :=
  map (PyStr.join audio_dir) (filter is_wav names).

(** * Properties *)

(** ** Reading a run of the monads backwards *)

Lemma rbind_Ok {A B} (r : result A) (f : A -> result B) (b : B) :
  rbind r f = Ok b -> exists a, r = Ok a /\ f a = Ok b.
Proof.
  destruct r as [a|e]; simpl; intros H; [eauto | discriminate].
Qed.

Section MonadFacts.
Context {N : Num}.


Lemma bind_Ok {A B} (m : M A) (f : A -> M B) (w w' : World) (b : B) :
  bind m f w = (Ok b, w') ->
  exists a w1, m w = (Ok a, w1) /\ f a w1 = (Ok b, w').
Proof.
  unfold bind. destruct (m w) as [[a|e] w1]; intros H.
  - eauto.
  - inversion H.
Qed.

Lemma lift_Ok {A} (r : result A) (w w' : World) (a : A) :
  lift r w = (Ok a, w') -> r = Ok a /\ w' = w.
Proof. unfold lift. intros H. inversion H. auto. Qed.

Lemma ret_Ok {A} (a b : A) (w w' : World) :
  ret a w = (Ok b, w') -> b = a /\ w' = w.
Proof. unfold ret. intros H. inversion H. auto. Qed.

Lemma print_run (s : string) (w : World) :
  print s w = (Ok tt, MkWorld (s :: console w) (files w) (osc_sent w) (threads w)).
Proof. reflexivity. Qed.

Lemma quiet_ret {A} (a : A) : quiet (ret a).
Proof. intros w r w' H. inversion H. auto. Qed.

Lemma quiet_lift {A} (r : result A) : quiet (lift r).
Proof. intros w r' w' H. inversion H. auto. Qed.

Lemma quiet_print (s : string) : quiet (print s).
Proof. intros w r w' H. inversion H. simpl. auto. Qed.

Lemma quiet_bind {A B} (m : M A) (f : A -> M B) :
  quiet m -> (forall a, quiet (f a)) -> quiet (bind m f).
Proof.
  intros Hm Hf w r w'. unfold bind.
  destruct (m w) as [[a|e] w1] eqn:Em; intros H.
  - destruct (Hm _ _ _ Em) as (F & O & T).
    destruct (Hf a _ _ _ H) as (F' & O' & T'). repeat split; congruence.
  - inversion H; subst. eapply Hm; eauto.
Qed.

End MonadFacts.

Create HintDb quiet.
#[local] Hint Resolve quiet_ret quiet_lift quiet_print quiet_bind : quiet.

(** ** Strings *)

Lemma replace_first_prefix (p s : string) :
  PyStr.startswith s p = true ->
  PyStr.replace_first p "" s = PyStr.drop (String.length p) s.
Proof.
  unfold PyStr.startswith. intros H.
  destruct s; cbn [PyStr.replace_first]; rewrite H; reflexivity.
Qed.

Lemma drop_append (p s : string) :
  PyStr.drop (String.length p) (p ++ s) = s.
Proof. induction p as [|c p IH]; simpl; [reflexivity | exact IH]. Qed.

Lemma prefix_append (p s : string) : String.prefix p (p ++ s) = true.
Proof.
  induction p as [|c p IH]; simpl.
  - now destruct s.
  - destruct (ascii_dec c c) as [_|Hne]; [exact IH | contradiction].
Qed.

(** The volume prefix is removed from a path that starts with it. *)
Lemma strip_volume_prefixed (s : string) :
  strip_volume (PStr ("Macintosh HD:" ++ s)) = Ok s.
Proof.
  unfold strip_volume, PyStr.startswith.
  rewrite prefix_append.
  rewrite replace_first_prefix by apply prefix_append.
  now rewrite drop_append.
Qed.

Example is_wav_upper_case : is_wav "Snare.WAV" = true.
Proof. reflexivity. Qed.

Example is_wav_needs_the_dot : is_wav "wav" = false.
Proof. reflexivity. Qed.

Example is_wav_other_extension : is_wav "notes.txt" = false.
Proof. reflexivity. Qed.

Example file_key_keeps_inner_dots :
  file_key "/audio/kick.01.WAV" = "kick.01".
Proof. reflexivity. Qed.

Example file_key_of_dot_wav : file_key "/audio/.wav" = ".wav".
Proof. reflexivity. Qed.

(** ** Dictionaries *)

Section DictFacts.
Context {V : Type}.
Implicit Types (d : dict V) (k : string) (v : V).

Lemma keys_set_in k v d x :
  In x (Dict.keys (Dict.set k v d)) <-> x = k \/ In x (Dict.keys d).
Proof.
  induction d as [|[k' v'] d IH]; simpl.
  - intuition.
  - destruct (String.eqb_spec k k') as [->|Hne]; simpl.
    + intuition.
    + rewrite IH. intuition.
Qed.

Lemma keys_set_fresh k v d :
  ~ In k (Dict.keys d) -> Dict.keys (Dict.set k v d) = Dict.keys d ++ [k].
Proof.
  induction d as [|[k' v'] d IH]; simpl; intros Hn.
  - reflexivity.
  - destruct (String.eqb_spec k k') as [->|Hne].
    + exfalso. apply Hn. now left.
    + simpl. f_equal. apply IH. intros Hin. apply Hn. now right.
Qed.

Lemma keys_set_present k v d :
  In k (Dict.keys d) -> Dict.keys (Dict.set k v d) = Dict.keys d.
Proof.
  induction d as [|[k' v'] d IH]; simpl; intros Hin.
  - contradiction.
  - destruct (String.eqb_spec k k') as [->|Hne]; simpl.
    + reflexivity.
    + f_equal. apply IH. destruct Hin as [Heq|Hin]; [congruence | exact Hin].
Qed.

Lemma NoDup_keys_set k v d :
  NoDup (Dict.keys d) -> NoDup (Dict.keys (Dict.set k v d)).
Proof.
  intros Hnd. destruct (in_dec string_dec k (Dict.keys d)) as [Hin|Hout].
  - rewrite keys_set_present; assumption.
  - rewrite keys_set_fresh by assumption.
    apply NoDup_app; [assumption | constructor; [intros []|constructor] |].
    intros x Hx [<-|[]]. contradiction.
Qed.

Lemma get_set_same k v d : Dict.get k (Dict.set k v d) = Some v.
Proof.
  induction d as [|[k' v'] d IH]; simpl.
  - now rewrite String.eqb_refl.
  - destruct (String.eqb_spec k k') as [->|Hne]; simpl.
    + now rewrite String.eqb_refl.
    + destruct (String.eqb_spec k k'); [contradiction | exact IH].
Qed.

Lemma get_set_other k k' v d :
  k' <> k -> Dict.get k' (Dict.set k v d) = Dict.get k' d.
Proof.
  intros Hne. induction d as [|[k2 v2] d IH]; simpl.
  - destruct (String.eqb_spec k' k); [contradiction | reflexivity].
  - destruct (String.eqb_spec k k2) as [->|Hne2]; simpl.
    + destruct (String.eqb_spec k' k2); [contradiction | reflexivity].
    + destruct (String.eqb_spec k' k2); [reflexivity | exact IH].
Qed.

Lemma get_in k v d : Dict.get k d = Some v -> In (k, v) d.
Proof.
  induction d as [|[k' v'] d IH]; simpl; [discriminate|].
  destruct (String.eqb_spec k k') as [->|Hne]; intros H.
  - inversion H. now left.
  - right. auto.
Qed.

Lemma in_set k v d x y :
  In (x, y) (Dict.set k v d) -> (x = k /\ y = v) \/ In (x, y) d.
Proof.
  induction d as [|[k' v'] d IH]; simpl.
  - intros [H|[]]. inversion H. auto.
  - destruct (String.eqb_spec k k') as [->|Hne]; simpl.
    + intros [H|H]; [inversion H; auto | auto].
    + intros [H|H]; [auto | destruct (IH H); auto].
Qed.

End DictFacts.

Section PipelineFacts.
Context {N : Num} {E : Env}.

(** ** A completed job *)

Lemma quiet_reduce_stage n method ld lv : quiet (reduce_stage n method ld lv).
Proof.
  unfold reduce_stage.
  apply quiet_bind; [auto with quiet|]. intros m.
  destruct (py_eq_str method "tsne"); [|destruct (py_eq_str method "umap")];
    repeat (apply quiet_bind; [auto with quiet|]; intros ?); auto with quiet.
Qed.

(** What is known when [process_audio_files] returns a path. *)
Lemma process_audio_files_Some :
  forall model_path audio_dir output_json n_components sr method skip
         osc_client osc_address w p w',
    process_audio_files model_path audio_dir output_json n_components sr method
      skip osc_client osc_address w = (Ok (Some p), w') ->
    exists rave names st reduced,
      torch_jit_load model_path = Ok rave /\
      os_listdir audio_dir = Ok names /\
      filter is_wav names <> [] /\
      encode_loop rave sr (map (PyStr.join audio_dir) (filter is_wav names))
        enc_init = Ok st /\
      (if skip then reduced = None
       else exists rd w1 w2,
           reduce_stage n_components method (latent_data st)
             (latent_vectors_all st) w1 = (Ok rd, w2) /\
           reduced = Some rd) /\
      resolve_output_json output_json model_path method skip = Ok p /\
      files w' = (p, MkArtifact (num_dimensions st) (latent_data st) reduced)
                   :: files w /\
      osc_sent w' = match client_and_address osc_client osc_address with
                    | Some (_, a) => (a, PStr p) :: osc_sent w
                    | None => osc_sent w
                    end.
Proof.
  intros model_path audio_dir output_json n_components sr method skip
         osc_client osc_address w p w' H.
  unfold process_audio_files in H.
  apply bind_Ok in H as (u & w1 & Hpr & H).
  rewrite print_run in Hpr. inversion Hpr; subst u w1; clear Hpr.
  apply bind_Ok in H as (rave & w2 & Hl & H).
  apply lift_Ok in Hl as [Hl ->].
  apply bind_Ok in H as (audio_files & w3 & Ha & H).
  apply lift_Ok in Ha as [Ha ->].
  unfold list_audio_files in Ha.
  apply rbind_Ok in Ha as (names & Hn & Ha). inversion Ha; subst audio_files; clear Ha.
  destruct (map (PyStr.join audio_dir) (filter is_wav names)) as [|f fs] eqn:Efiles.
  { apply bind_Ok in H as (u & w4 & _ & H). apply ret_Ok in H as [H _]. discriminate. }
  apply bind_Ok in H as (u & w4 & Hpr & H).
  rewrite print_run in Hpr. inversion Hpr; subst u w4; clear Hpr.
  apply bind_Ok in H as (st & w5 & Hst & H).
  apply lift_Ok in Hst as [Hst ->].
  apply bind_Ok in H as (reduced & w6 & Hred & H).
  apply bind_Ok in H as (path & w7 & Hpath & H).
  apply lift_Ok in Hpath as [Hpath ->].
  apply bind_Ok in H as (u & w8 & Hwr & H).
  unfold write_json in Hwr.
  apply bind_Ok in Hwr as (u' & w9 & Hopen & Hwr).
  apply lift_Ok in Hopen as [Hopen ->].
  inversion Hwr; subst u w8; clear Hwr.
  apply bind_Ok in H as (u & w10 & Hpr & H).
  rewrite print_run in Hpr. inversion Hpr; subst u w10; clear Hpr.
  apply bind_Ok in H as (u & w11 & Hsend & H).
  apply ret_Ok in H as [Hp ->]. inversion Hp; subst path; clear Hp.
  assert (Hw6 : files w6 = files w /\ osc_sent w6 = osc_sent w /\
                (if skip then reduced = None
                 else exists rd w1 w2,
                     reduce_stage n_components method (latent_data st)
                       (latent_vectors_all st) w1 = (Ok rd, w2) /\
                     reduced = Some rd)).
  { destruct skip; simpl in Hred.
    - apply ret_Ok in Hred as [-> ->]. simpl. auto.
    - apply bind_Ok in Hred as (rd & wr & Hrs & Hret).
      apply ret_Ok in Hret as [-> ->].
      destruct (quiet_reduce_stage _ _ _ _ _ _ _ Hrs) as (F & O & _).
      simpl in F, O. repeat split; auto. exists rd. eauto. }
  destruct Hw6 as (F6 & O6 & Hreduced).
  exists rave, names, st, reduced.
  repeat split; auto.
  - intros Hnil. rewrite Hnil in Efiles. discriminate.
  - rewrite <- Efiles in Hst. exact Hst.
  - destruct (client_and_address osc_client osc_address) as [[c a]|].
    + apply bind_Ok in Hsend as (u2 & w12 & Hs & Hpr).
      inversion Hs; subst. inversion Hpr; subst. simpl. congruence.
    + apply ret_Ok in Hsend as [_ ->]. simpl. congruence.
  - destruct (client_and_address osc_client osc_address) as [[c a]|].
    + apply bind_Ok in Hsend as (u2 & w12 & Hs & Hpr).
      inversion Hs; subst. inversion Hpr; subst. simpl. congruence.
    + apply ret_Ok in Hsend as [_ ->]. simpl. congruence.
Qed.

(** ** Empty input *)

Lemma list_audio_files_empty (audio_dir : string) :
  (forall names, os_listdir audio_dir = Ok names -> filter is_wav names = []) ->
  list_audio_files audio_dir = Ok [] \/
  exists e, list_audio_files audio_dir = Raise e.
Proof.
  intros H. unfold list_audio_files.
  destruct (os_listdir audio_dir) as [names|e] eqn:L; simpl.
  - left. rewrite (H names eq_refl). reflexivity.
  - right. eauto.
Qed.

(** C4. When the audio directory lists no name ending in ".wav" (compared
    after lower-casing), [process_audio_files] does not complete with a path:
    it returns [None] (or the model load or the listing raised), no file is
    written and no OSC message is sent; the same holds for the worker thread
    that runs the job. *)
Theorem C4_no_wav_files_no_artifact_no_notification :
  forall (model_path audio_dir : string) (output_json : pyval) (n_components sr : nat)
         (method : pyval) (skip : bool) (osc_client : udp_client)
         (w : World),
    (forall names, os_listdir audio_dir = Ok names -> filter is_wav names = []) ->
    (forall r w',
        process_audio_files model_path audio_dir output_json n_components sr
          method skip (Some osc_client) (Some "/rave/processing/done") w
        = (r, w') ->
        (forall p, r <> Ok (Some p)) /\
        (forall rave names, torch_jit_load model_path = Ok rave ->
                            os_listdir audio_dir = Ok names -> r = Ok None) /\
        files w' = files w /\ osc_sent w' = osc_sent w) /\
    (forall r w',
        run_thread osc_client
          (ProcessThread (MkJob model_path audio_dir output_json method skip)) w
        = (r, w') ->
        files w' = files w /\ osc_sent w' = osc_sent w).
Proof.
  intros model_path audio_dir output_json n_components sr method skip c w Hnone.
  assert (Hp : forall n s r w',
             process_audio_files model_path audio_dir output_json n s
               method skip (Some c) (Some "/rave/processing/done") w = (r, w') ->
             (forall p, r <> Ok (Some p)) /\
             (forall rave names, torch_jit_load model_path = Ok rave ->
                                 os_listdir audio_dir = Ok names -> r = Ok None) /\
             files w' = files w /\ osc_sent w' = osc_sent w).
  { intros n s r w'. unfold process_audio_files, bind at 1 2 3. simpl.
    destruct (torch_jit_load model_path) as [rave|e] eqn:L; simpl.
    - destruct (list_audio_files_empty audio_dir Hnone) as [H0 | [e H0]];
        rewrite H0; simpl.
      + unfold bind, print, ret; simpl. intros H; inversion H; subst; simpl.
        repeat split; auto; discriminate.
      + intros H; inversion H; subst; simpl. repeat split; auto.
        * discriminate.
        * intros rave' names _ Hl. unfold list_audio_files in H0.
          rewrite Hl in H0. discriminate.
    - intros H; inversion H; subst; simpl. repeat split; auto.
      + discriminate.
      + intros rave names Hr. discriminate. }
  split.
  - intros r w'. apply Hp.
  - intros r w'. unfold run_thread, try_except. simpl.
    unfold bind at 1.
    destruct (process_audio_files _ _ _ _ _ _ _ _ _ w) as [[o|e] w1] eqn:Run.
    + destruct (Hp _ _ _ _ Run) as (_ & _ & F & O).
      unfold ret. intros H; inversion H; subst. auto.
    + destruct (Hp _ _ _ _ Run) as (_ & _ & F & O).
      unfold print. intros H; inversion H; subst. simpl. auto.
Qed.

(** ** Keys of the two mappings *)

Lemma encode_step_keys rave sr st f st' :
  encode_step rave sr st f = Ok st' ->
  exists v, latent_data st' = Dict.set (file_key f) v (latent_data st).
Proof.
  unfold encode_step. intros H.
  apply rbind_Ok in H as (z & _ & H).
  apply rbind_Ok in H as (zn & _ & H).
  inversion H; subst; simpl. eauto.
Qed.

Lemma encode_loop_keys rave sr audio_files :
  forall st st',
    encode_loop rave sr audio_files st = Ok st' ->
    NoDup (Dict.keys (latent_data st)) ->
    NoDup (Dict.keys (latent_data st')) /\
    (forall k, In k (Dict.keys (latent_data st')) <->
               In k (Dict.keys (latent_data st)) \/
               In k (map file_key audio_files)).
Proof.
  induction audio_files as [|f rest IH]; simpl; intros st st' H Hnd.
  - inversion H; subst. split; [assumption | intuition].
  - apply rbind_Ok in H as (st1 & Hstep & Hloop).
    destruct (encode_step_keys _ _ _ _ _ Hstep) as [v Hv].
    destruct (IH _ _ Hloop) as [Hnd' Hin].
    { rewrite Hv. now apply NoDup_keys_set. }
    split; [assumption|].
    intros k. rewrite Hin, Hv, keys_set_in. intuition.
Qed.

Lemma fill_reduced_keys latent_reduced :
  forall keys i reduced rd,
    fill_reduced i keys latent_reduced reduced = Ok rd ->
    NoDup keys ->
    (forall k, In k keys -> ~ In k (Dict.keys reduced)) ->
    Dict.keys rd = Dict.keys reduced ++ keys.
Proof.
  induction keys as [|k rest IH]; simpl; intros i reduced rd H Hnd Hfresh.
  - inversion H; subst. now rewrite app_nil_r.
  - apply rbind_Ok in H as (row & _ & H).
    inversion Hnd as [|? ? Hk Hrest]; subst.
    rewrite (IH _ _ _ H Hrest).
    + rewrite keys_set_fresh by (apply Hfresh; now left).
      now rewrite <- app_assoc.
    + intros k' Hk' Hin. apply keys_set_in in Hin as [->|Hin].
      * contradiction.
      * apply (Hfresh k'); [now right | assumption].
Qed.

(** Every entry written by the loop is a row of the reduced matrix. *)
Lemma fill_reduced_values latent_reduced :
  forall keys i reduced rd,
    fill_reduced i keys latent_reduced reduced = Ok rd ->
    forall k v, In (k, v) rd ->
      In (k, v) reduced \/
      exists j row, Np.getitem latent_reduced j = Ok row /\ v = tolist row.
Proof.
  induction keys as [|k rest IH]; simpl; intros i reduced rd H k0 v Hin.
  - inversion H; subst. now left.
  - apply rbind_Ok in H as (row & Hrow & H).
    destruct (IH _ _ _ H _ _ Hin) as [Hold | Hnew].
    + apply in_set in Hold as [[-> ->] | Hold]; [right; eauto | now left].
    + now right.
Qed.

(** The three branches of the reduction, read from a successful run. *)
Lemma reduce_stage_Ok n_components method ld lv w rd w' :
  reduce_stage n_components method ld lv w = (Ok rd, w') ->
  exists latent_matrix fitted latent_reduced,
    Np.array lv = Ok latent_matrix /\
    ((py_eq_str method "tsne" = true /\
      TSNE_fit_transform 2 latent_matrix = Ok fitted /\
      scale_to_5 fitted = Ok latent_reduced) \/
     (py_eq_str method "tsne" = false /\ py_eq_str method "umap" = true /\
      UMAP_fit_transform 2 latent_matrix = Ok fitted /\
      scale_to_5 fitted = Ok latent_reduced) \/
     (py_eq_str method "tsne" = false /\ py_eq_str method "umap" = false /\
      PCA_fit_transform 2 latent_matrix = Ok fitted /\
      latent_reduced = fitted)) /\
    fill_reduced 0 (Dict.keys ld) latent_reduced [] = Ok rd.
Proof.
  unfold reduce_stage. intros H.
  apply bind_Ok in H as (m & w1 & Hm & H). apply lift_Ok in Hm as [Hm ->].
  destruct (py_eq_str method "tsne") eqn:Et;
    [|destruct (py_eq_str method "umap") eqn:Eu].
  - apply bind_Ok in H as (u & w2 & _ & H).
    apply bind_Ok in H as (fitted & w3 & Hf & H). apply lift_Ok in Hf as [Hf ->].
    apply bind_Ok in H as (lr & w4 & Hs & H). apply lift_Ok in Hs as [Hs ->].
    apply lift_Ok in H as [H _].
    exists m, fitted, lr. auto 10.
  - apply bind_Ok in H as (u & w2 & _ & H).
    apply bind_Ok in H as (fitted & w3 & Hf & H). apply lift_Ok in Hf as [Hf ->].
    apply bind_Ok in H as (lr & w4 & Hs & H). apply lift_Ok in Hs as [Hs ->].
    apply lift_Ok in H as [H _].
    exists m, fitted, lr. auto 10.
  - apply bind_Ok in H as (u & w2 & _ & H).
    apply bind_Ok in H as (fitted & w3 & Hf & H). apply lift_Ok in Hf as [Hf ->].
    apply lift_Ok in H as [H _].
    exists m, fitted, fitted. auto 10.
Qed.

(** C5. In the artifact written by a completed job, [reduced_data] is
    present exactly when [skip_dim_reduction] is false, and when present it
    has the keys of [data], in the same order. *)
Theorem C5_reduced_data_iff_not_skipped_same_keys :
  forall (model_path audio_dir : string) (output_json : pyval)
         (n_components sr : nat) (method : pyval) (skip : bool)
         (osc_client : option udp_client) (osc_address : option string)
         (w w' : World) (p : string),
    process_audio_files model_path audio_dir output_json n_components sr method
      skip osc_client osc_address w = (Ok (Some p), w') ->
    exists a,
      files w' = (p, a) :: files w /\
      ((exists rd, reduced_data a = Some rd) <-> skip = false) /\
      (forall rd, reduced_data a = Some rd ->
                  Dict.keys rd = Dict.keys (data a)).
Proof.
  intros model_path audio_dir output_json n_components sr method skip
         osc_client osc_address w w' p H.
  apply process_audio_files_Some in H
    as (rave & names & st & reduced & _ & _ & _ & Hloop & Hred & _ & Hfiles & _).
  eexists. split; [exact Hfiles|]. simpl.
  destruct skip.
  - subst reduced. split.
    + split; [intros [rd Hrd]; discriminate | discriminate].
    + discriminate.
  - destruct Hred as (rd & w1 & w2 & Hrs & ->). split.
    + split; eauto.
    + intros rd' Hrd'. inversion Hrd'; subst rd'; clear Hrd'.
      apply reduce_stage_Ok in Hrs as (m & fitted & lr & _ & _ & Hfill).
      destruct (encode_loop_keys _ _ _ _ _ Hloop) as [Hnd _];
        [constructor|].
      apply fill_reduced_keys in Hfill; auto.
Qed.

(** ** Width of the reduced coordinates *)

Lemma scale_to_5_shape a b :
  scale_to_5 a = Ok b ->
  shape b = shape a /\ length (flat b) = length (flat a).
Proof.
  unfold scale_to_5. intros H. apply rbind_Ok in H as (m & _ & H).
  destruct (negb (nis_zero m)); inversion H; subst; simpl; auto.
  now rewrite length_map.
Qed.

Lemma chunks_singletons {A} (buf : list A) :
  Np.chunks (length buf) 1 buf = map (fun x => [x]) buf.
Proof.
  induction buf as [|x buf IH]; simpl; [reflexivity | now rewrite IH].
Qed.

Lemma tolist_vector (n : nat) (buf : list num) :
  length buf = n -> tolist (NdArray [n] buf) = PyList (map PyNum buf).
Proof.
  intros <-. unfold tolist; simpl. unfold Np.size; simpl.
  rewrite chunks_singletons, map_map. reflexivity.
Qed.

Lemma getitem_matrix_row a rows n j row :
  shape a = [rows; n] -> length (flat a) = rows * n ->
  Np.getitem a j = Ok row ->
  shape row = [n] /\ length (flat row) = n /\
  flat row = firstn n (skipn (j * n) (flat a)).
Proof.
  unfold Np.getitem. intros -> Hlen.
  destruct (Nat.ltb_spec j rows) as [Hj|Hj]; [|discriminate].
  intros H; inversion H; subst; simpl. unfold Np.size; simpl.
  rewrite Nat.mul_1_r. repeat split.
  rewrite length_firstn, length_skipn, Hlen. nia.
Qed.

Lemma pair_of_length_2 (l : list num) :
  length l = 2 -> exists x y, l = [x; y].
Proof.
  destruct l as [|x [|y [|z l]]]; simpl; try discriminate. eauto.
Qed.

(** C6. Whatever [n_components] the caller passes, each entry of
    [reduced_data] in the artifact of a completed job that did not skip the
    reduction is a list of exactly two numbers, given reducers that return
    as many columns as they are asked for. *)
Theorem C6_reduced_coordinates_have_length_2 :
  forall (model_path audio_dir : string) (output_json : pyval)
         (n_components sr : nat) (method : pyval)
         (osc_client : option udp_client) (osc_address : option string)
         (w w' : World) (p : string),
    reducer_contract TSNE_fit_transform ->
    reducer_contract UMAP_fit_transform ->
    reducer_contract PCA_fit_transform ->
    process_audio_files model_path audio_dir output_json n_components sr method
      false osc_client osc_address w = (Ok (Some p), w') ->
    exists a rd,
      files w' = (p, a) :: files w /\
      reduced_data a = Some rd /\
      forall k v, In (k, v) rd ->
        py_len v = Some 2 /\ exists x y, v = PyList [PyNum x; PyNum y].
Proof.
  intros model_path audio_dir output_json n_components sr method
         osc_client osc_address w w' p Ct Cu Cp H.
  apply process_audio_files_Some in H
    as (rave & names & st & reduced & _ & _ & _ & _ & Hred & _ & Hfiles & _).
  destruct Hred as (rd & w1 & w2 & Hrs & ->).
  eexists; exists rd. split; [exact Hfiles|]. split; [reflexivity|].
  intros k v Hin.
  apply reduce_stage_Ok in Hrs as (m & fitted & lr & _ & Hfit & Hfill).
  assert (Hshape : exists rows, shape lr = [rows; 2] /\
                                length (flat lr) = rows * 2).
  { destruct Hfit as [(_ & Hf & Hs) | [(_ & _ & Hf & Hs) | (_ & _ & Hf & ->)]].
    - apply Ct in Hf as (rows & Hsh & Hlen).
      apply scale_to_5_shape in Hs as [Hs1 Hs2]. exists rows.
      split; congruence.
    - apply Cu in Hf as (rows & Hsh & Hlen).
      apply scale_to_5_shape in Hs as [Hs1 Hs2]. exists rows.
      split; congruence.
    - apply Cp in Hf. exact Hf. }
  destruct Hshape as (rows & Hsh & Hlen).
  destruct (fill_reduced_values _ _ _ _ _ Hfill _ _ Hin)
    as [[] | (j & row & Hrow & ->)].
  destruct (getitem_matrix_row _ _ _ _ _ Hsh Hlen Hrow) as (Hrs & Hrl & _).
  destruct row as [rsh rbuf]; simpl in *. subst rsh.
  rewrite (tolist_vector 2 rbuf Hrl).
  destruct (pair_of_length_2 rbuf Hrl) as (x & y & ->). simpl.
  split; [reflexivity | eauto].
Qed.

(** ** Scaling of the t-SNE and UMAP embeddings *)

Lemma py_eq_str_true (v : pyval) (s : string) :
  py_eq_str v s = true <-> v = PStr s.
Proof.
  destruct v; simpl; try (split; [discriminate | intros H; inversion H]).
  - rewrite String.eqb_eq. split; [now intros -> | now intros [= ->]].
Qed.

(** The two outcomes of the scaling step, in any arithmetic. *)
Lemma scale_to_5_cases (fitted latent_reduced : ndarray) :
  scale_to_5 fitted = Ok latent_reduced ->
  exists max_val,
    Np.abs_max fitted = Ok max_val /\
    (nis_zero max_val = true -> latent_reduced = fitted) /\
    (nis_zero max_val = false ->
     latent_reduced = Np.mul fitted (ndiv nfive max_val)).
Proof.
  unfold scale_to_5. intros H. apply rbind_Ok in H as (m & Hm & H).
  exists m. split; [exact Hm|].
  destruct (nis_zero m); simpl in H; inversion H; subst; clear H.
  - split; [reflexivity | discriminate].
  - split; [discriminate | reflexivity].
Qed.

(** ** The method selector *)

(** C1 (as the code has it). A selector other than "tsne" and "umap",
    recognised or not, runs the PCA branch: the reduction stage does exactly
    what it does for "pca", and raises nothing on account of the selector. *)
Theorem C1_other_selectors_run_pca :
  forall (n_components : nat) (method : pyval) (ld : dict pylist)
         (lv : list ndarray) (w : World),
    method <> PStr "tsne" -> method <> PStr "umap" ->
    reduce_stage n_components method ld lv w
    = reduce_stage n_components (PStr "pca") ld lv w /\
    forall latent_matrix,
      Np.array lv = Ok latent_matrix ->
      reduce_stage n_components method ld lv w
      = (rbind (PCA_fit_transform 2 latent_matrix)
               (fun r => fill_reduced 0 (Dict.keys ld) r []),
         MkWorld ("Performing PCA on latent vectors (2 components)..."
                    :: console w) (files w) (osc_sent w) (threads w)).
Proof.
  intros n_components method ld lv w Ht Hu.
  assert (Et : py_eq_str method "tsne" = false).
  { destruct (py_eq_str method "tsne") eqn:Eq; [|reflexivity].
    apply py_eq_str_true in Eq. contradiction. }
  assert (Eu : py_eq_str method "umap" = false).
  { destruct (py_eq_str method "umap") eqn:Eq; [|reflexivity].
    apply py_eq_str_true in Eq. contradiction. }
  unfold reduce_stage. split.
  - unfold bind at 1 4. unfold lift at 1 4.
    destruct (Np.array lv); [|reflexivity].
    rewrite Et, Eu. reflexivity.
  - intros m Hm. rewrite Hm. unfold bind at 1. unfold lift at 1.
    rewrite Et, Eu. unfold bind, print, lift; simpl.
    destruct (PCA_fit_transform 2 m); reflexivity.
Qed.

(** ** The stored latent vector *)

Lemma chunks_as_slices {A} (k : nat) :
  forall (n : nat) (l : list A),
    Np.chunks n k l = map (fun d => firstn k (skipn (d * k) l)) (seq 0 n).
Proof.
  induction n as [|n IH]; intros l; simpl; [reflexivity|].
  f_equal. rewrite IH, <- seq_shift, map_map.
  apply map_ext. intros d. simpl. rewrite skipn_skipn.
  do 2 f_equal. lia.
Qed.

Lemma slice_as_row (l : list num) (i k : nat) :
  i + k <= length l ->
  firstn k (skipn i l) = map (fun t => nth (i + t) l nzero) (seq 0 k).
Proof.
  intros Hlen. apply nth_ext with (d := nzero) (d' := nzero).
  - rewrite length_firstn, length_skipn, length_map, length_seq. lia.
  - intros t Ht. rewrite length_firstn, length_skipn in Ht.
    assert (Htk : t < k) by lia.
    rewrite nth_firstn. destruct (Nat.ltb_spec t k) as [_|]; [|lia].
    rewrite nth_skipn.
    rewrite (nth_indep (map (fun t => nth (i + t) l nzero) (seq 0 k))
               nzero (nth (i + 0) l nzero))
      by (rewrite length_map, length_seq; exact Htk).
    rewrite (map_nth (fun t => nth (i + t) l nzero)), seq_nth by exact Htk.
    reflexivity.
Qed.

Lemma fold_vadd_singletons (block : list num) :
  forall acc,
    fold_left Np.vadd (map (fun x => [x]) block) [acc]
    = [fold_left nadd block acc].
Proof.
  induction block as [|x block IH]; intros acc; simpl; [reflexivity|].
  apply IH.
Qed.

Lemma concat_singletons {A B} (g : A -> B) (l : list A) :
  concat (map (fun x => [g x]) l) = map g l.
Proof.
  induction l as [|x l IH]; simpl; [reflexivity | now rewrite IH].
Qed.

(** [np.mean(z, axis=1)] of a well-formed [n] x [T] matrix: one arithmetic
    mean per row. *)
Lemma mean_axis1_matrix (z : ndarray) (n T : nat) :
  shape z = [n; T] -> length (flat z) = n * T ->
  Np.mean_axis1 z
  = Ok (NdArray [n] (map (fun d => arithmetic_mean (matrix_row z T d))
                         (seq 0 n))).
Proof.
  intros Hsh Hlen. unfold Np.mean_axis1. rewrite Hsh.
  unfold Np.size; simpl. rewrite Nat.mul_1_r. do 2 f_equal.
  rewrite chunks_as_slices, map_map.
  rewrite <- (concat_singletons
                (fun d => arithmetic_mean (matrix_row z T d)) (seq 0 n)).
  f_equal. apply map_ext_in. intros d Hd. apply in_seq in Hd.
  assert (Hfit : d * T + T <= length (flat z)) by nia.
  set (block := firstn T (skipn (d * T) (flat z))).
  assert (Hbl : length block = T).
  { unfold block. rewrite length_firstn, length_skipn. lia. }
  rewrite <- Hbl at 1. rewrite chunks_singletons.
  change (repeat nzero 1) with [nzero]. rewrite fold_vadd_singletons. simpl.
  unfold arithmetic_mean, matrix_row, Np.at2.
  rewrite length_map, length_seq.
  unfold block. rewrite (slice_as_row _ _ _ Hfit). reflexivity.
Qed.

Lemma encode_loop_app rave sr (l1 l2 : list string) :
  forall st,
    encode_loop rave sr (l1 ++ l2) st
    = rbind (encode_loop rave sr l1 st) (encode_loop rave sr l2).
Proof.
  induction l1 as [|f l1 IH]; intros st; simpl; [reflexivity|].
  destruct (encode_step rave sr st f); simpl; [apply IH | reflexivity].
Qed.

Lemma encode_loop_get_other rave sr (l : list string) (k : string) :
  forall st st',
    encode_loop rave sr l st = Ok st' ->
    ~ In k (map file_key l) ->
    Dict.get k (latent_data st') = Dict.get k (latent_data st).
Proof.
  induction l as [|f l IH]; simpl; intros st st' H Hk.
  - inversion H; subst. reflexivity.
  - apply rbind_Ok in H as (st1 & Hstep & Hloop).
    rewrite (IH _ _ Hloop) by tauto.
    destruct (encode_step_keys _ _ _ _ _ Hstep) as [v ->].
    apply get_set_other. intros ->. apply Hk. now left.
Qed.

(** The vector stored for the last file that has a given key. *)
Lemma encode_loop_get rave sr (l1 l2 : list string) (f : string) :
  forall st0 st,
    encode_loop rave sr (l1 ++ f :: l2) st0 = Ok st ->
    ~ In (file_key f) (map file_key l2) ->
    exists z nd zn,
      encode_file rave sr f = Ok z /\
      mean_vector z nd = Ok zn /\
      Dict.get (file_key f) (latent_data st) = Some (tolist (fst zn)).
Proof.
  intros st0 st H Hlast. rewrite encode_loop_app in H.
  apply rbind_Ok in H as (st1 & _ & H). simpl in H.
  apply rbind_Ok in H as (st2 & Hstep & Hloop).
  rewrite (encode_loop_get_other _ _ _ _ _ _ Hloop Hlast).
  unfold encode_step in Hstep.
  apply rbind_Ok in Hstep as (z & Hz & Hstep).
  apply rbind_Ok in Hstep as (zn & Hzn & Hstep).
  inversion Hstep; subst; simpl.
  exists z, (num_dimensions st1), zn. repeat split; auto.
  apply get_set_same.
Qed.

(** In the artifact of a completed job, the vector stored under a file's
    identifier (for the last file carrying that identifier) is decided by
    the rank of the encoding after [squeeze()]:
    - the squeezed encoding itself when it has rank 1;
    - when it is an [n] x [T] matrix with at least one timestep, the list of
      [n] numbers whose element [d] is the arithmetic mean of row [d] over
      the [T] timesteps. *)
Lemma stored_vector_by_rank_after_squeeze :
  forall (model_path audio_dir : string) (output_json : pyval)
         (n_components sr : nat) (method : pyval) (skip : bool)
         (osc_client : option udp_client) (osc_address : option string)
         (w w' : World) (p : string),
    process_audio_files model_path audio_dir output_json n_components sr method
      skip osc_client osc_address w = (Ok (Some p), w') ->
    exists art rave names,
      files w' = (p, art) :: files w /\
      torch_jit_load model_path = Ok rave /\
      os_listdir audio_dir = Ok names /\
      forall l1 f l2,
        map (PyStr.join audio_dir) (filter is_wav names) = l1 ++ f :: l2 ->
        ~ In (file_key f) (map file_key l2) ->
        exists z,
          encode_file rave sr f = Ok z /\
          (Np.ndim z = 1 ->
           Dict.get (file_key f) (data art) = Some (tolist z)) /\
          (forall n T,
              shape z = [n; T] -> length (flat z) = n * T -> 0 < T ->
              Dict.get (file_key f) (data art)
              = Some (PyList
                        (map (fun d => PyNum (arithmetic_mean (matrix_row z T d)))
                             (seq 0 n)))).
Proof.
  intros model_path audio_dir output_json n_components sr method skip
         osc_client osc_address w w' p H.
  apply process_audio_files_Some in H
    as (rave & names & st & reduced & Hload & Hlist & _ & Hloop & _ & _
        & Hfiles & _).
  eexists; exists rave, names.
  split; [exact Hfiles|]. split; [exact Hload|]. split; [exact Hlist|].
  intros l1 f l2 Hsplit Hlast. rewrite Hsplit in Hloop.
  destruct (encode_loop_get _ _ _ _ _ _ _ Hloop Hlast)
    as (z & nd & zn & Hz & Hzn & Hget).
  exists z. split; [exact Hz|]. simpl. unfold mean_vector in Hzn. split.
  - intros Hrank. rewrite Hrank in Hzn. simpl in Hzn.
    inversion Hzn; subst zn. exact Hget.
  - intros n T Hsh Hlen _.
    unfold Np.ndim in Hzn. rewrite Hsh in Hzn. simpl in Hzn.
    apply rbind_Ok in Hzn as (nd' & _ & Hzn).
    apply rbind_Ok in Hzn as (z_mean & Hmean & Hzn).
    inversion Hzn; subst zn; clear Hzn. simpl in Hget.
    rewrite (mean_axis1_matrix z n T Hsh Hlen) in Hmean.
    inversion Hmean; subst z_mean; clear Hmean.
    rewrite Hget. f_equal.
    rewrite tolist_vector by (rewrite length_map, length_seq; reflexivity).
    now rewrite map_map.
Qed.

(** ** The declared column count *)

(** The keys of [data] are the identifiers of the eligible files. *)
Lemma data_keys_are_file_identifiers :
  forall (model_path audio_dir : string) (output_json : pyval)
         (n_components sr : nat) (method : pyval) (skip : bool)
         (osc_client : option udp_client) (osc_address : option string)
         (w w' : World) (p : string),
    process_audio_files model_path audio_dir output_json n_components sr method
      skip osc_client osc_address w = (Ok (Some p), w') ->
    exists art names,
      files w' = (p, art) :: files w /\
      os_listdir audio_dir = Ok names /\
      NoDup (Dict.keys (data art)) /\
      forall k, In k (Dict.keys (data art)) <->
                In k (map file_key
                        (map (PyStr.join audio_dir) (filter is_wav names))).
Proof.
  intros model_path audio_dir output_json n_components sr method skip
         osc_client osc_address w w' p H.
  apply process_audio_files_Some in H
    as (rave & names & st & reduced & _ & Hlist & _ & Hloop & _ & _
        & Hfiles & _).
  eexists; exists names. split; [exact Hfiles|]. split; [exact Hlist|].
  simpl. destruct (encode_loop_keys _ _ _ _ _ Hloop) as [Hnd Hin];
    [constructor|].
  split; [exact Hnd|]. intros k. rewrite Hin. simpl. tauto.
Qed.

(** When every file encodes to a well-formed matrix with the same number
    [n] of rows, one loop iteration keeps [num_dimensions] at [n] and
    stores a vector of length [n]. *)
Lemma encode_step_matrix rave sr st f st' z n T :
  encode_file rave sr f = Ok z ->
  shape z = [n; T] -> length (flat z) = n * T ->
  encode_step rave sr st f = Ok st' ->
  num_dimensions st' = match num_dimensions st with
                       | None => Some n
                       | Some c => Some c
                       end /\
  exists v, py_len v = Some n /\
            latent_data st' = Dict.set (file_key f) v (latent_data st).
Proof.
  intros Hz Hsh Hlen Hstep. unfold encode_step in Hstep. rewrite Hz in Hstep.
  simpl in Hstep. unfold mean_vector, Np.ndim in Hstep. rewrite Hsh in Hstep.
  simpl in Hstep. rewrite (mean_axis1_matrix z n T Hsh Hlen) in Hstep.
  destruct (num_dimensions st) as [c|]; simpl in Hstep;
    inversion Hstep; subst; simpl; (split; [reflexivity|]);
    eexists; (split; [|reflexivity]);
    rewrite tolist_vector by (rewrite length_map, length_seq; reflexivity);
    simpl; now rewrite !length_map, length_seq.
Qed.

Lemma encode_loop_matrix rave sr n (audio_files : list string) :
  (forall f, In f audio_files ->
             exists z T, encode_file rave sr f = Ok z /\
                         shape z = [n; T] /\ length (flat z) = n * T) ->
  forall st st',
    encode_loop rave sr audio_files st = Ok st' ->
    (num_dimensions st = None \/ num_dimensions st = Some n) ->
    (forall k v, In (k, v) (latent_data st) -> py_len v = Some n) ->
    (audio_files <> [] -> num_dimensions st' = Some n) /\
    (forall k v, In (k, v) (latent_data st') -> py_len v = Some n).
Proof.
  induction audio_files as [|f rest IH]; simpl; intros Hall st st' H Hnd Hvals.
  - inversion H; subst. split; [congruence | exact Hvals].
  - apply rbind_Ok in H as (st1 & Hstep & Hloop).
    destruct (Hall f (or_introl eq_refl)) as (z & T & Hz & Hsh & Hlen).
    destruct (encode_step_matrix _ _ _ _ _ _ _ _ Hz Hsh Hlen Hstep)
      as (Hnd1 & v & Hv & Hld).
    assert (Hn1 : num_dimensions st1 = Some n).
    { rewrite Hnd1. destruct Hnd as [-> | ->]; reflexivity. }
    destruct (IH (fun g Hg => Hall g (or_intror Hg)) st1 st' Hloop) as [Hc Hv'].
    + now right.
    + rewrite Hld. intros k0 v0 Hin.
      apply in_set in Hin as [[-> ->] | Hin]; [exact Hv | eauto].
    + split; [|exact Hv']. intros _.
      destruct rest as [|g rest'].
      * simpl in Hloop. inversion Hloop; subst. exact Hn1.
      * apply Hc. discriminate.
Qed.

(** Where the column invariant does hold: every file encodes to a
    well-formed matrix with [n] rows (rank 2 after the squeeze). *)
Lemma data_vectors_have_cols_length_for_matrices :
  forall (model_path audio_dir : string) (output_json : pyval)
         (n_components sr : nat) (method : pyval) (skip : bool)
         (osc_client : option udp_client) (osc_address : option string)
         (w w' : World) (p : string) (n : nat),
    process_audio_files model_path audio_dir output_json n_components sr method
      skip osc_client osc_address w = (Ok (Some p), w') ->
    (forall rave names f,
        torch_jit_load model_path = Ok rave ->
        os_listdir audio_dir = Ok names ->
        In f (map (PyStr.join audio_dir) (filter is_wav names)) ->
        exists z T, encode_file rave sr f = Ok z /\
                    shape z = [n; T] /\ length (flat z) = n * T) ->
    exists art,
      files w' = (p, art) :: files w /\
      cols art = Some n /\
      forall k v, In (k, v) (data art) -> py_len v = Some n.
Proof.
  intros model_path audio_dir output_json n_components sr method skip
         osc_client osc_address w w' p n H Hall.
  apply process_audio_files_Some in H
    as (rave & names & st & reduced & Hload & Hlist & Hne & Hloop & _ & _
        & Hfiles & _).
  eexists. split; [exact Hfiles|]. simpl.
  destruct (encode_loop_matrix rave sr n _
              (fun f Hf => Hall rave names f Hload Hlist Hf)
              _ _ Hloop) as [Hc Hv].
  - now left.
  - intros k v [].
  - split; [|exact Hv]. apply Hc. intros Hnil.
    apply map_eq_nil in Hnil. contradiction.
Qed.

(** Once set, [num_dimensions] is never changed by the loop. *)
Lemma mean_vector_keeps_num_dimensions z c zn :
  mean_vector z (Some c) = Ok zn -> snd zn = Some c.
Proof.
  unfold mean_vector. destruct (Np.ndim z =? 1).
  - intros H; inversion H; reflexivity.
  - simpl. intros H. apply rbind_Ok in H as (z_mean & _ & H).
    inversion H; reflexivity.
Qed.

Lemma encode_loop_keeps_num_dimensions rave sr (audio_files : list string) :
  forall st st' c,
    encode_loop rave sr audio_files st = Ok st' ->
    num_dimensions st = Some c -> num_dimensions st' = Some c.
Proof.
  induction audio_files as [|f rest IH]; simpl; intros st st' c H Hc.
  - inversion H; subst. exact Hc.
  - apply rbind_Ok in H as (st1 & Hstep & Hloop).
    apply (IH _ _ _ Hloop).
    unfold encode_step in Hstep.
    apply rbind_Ok in Hstep as (z & _ & Hstep).
    apply rbind_Ok in Hstep as (zn & Hzn & Hstep).
    inversion Hstep; subst; simpl. rewrite Hc in Hzn.
    now apply mean_vector_keeps_num_dimensions in Hzn.
Qed.

(** The rank-1 branch on the first file: the artifact declares one column
    and stores the whole squeezed array, whatever its length. *)
Lemma cols_is_1_when_first_encoding_is_rank_1 :
  forall (model_path audio_dir : string) (output_json : pyval)
         (n_components sr : nat) (method : pyval) (skip : bool)
         (osc_client : option udp_client) (osc_address : option string)
         (w w' : World) (p : string),
    process_audio_files model_path audio_dir output_json n_components sr method
      skip osc_client osc_address w = (Ok (Some p), w') ->
    exists art,
      files w' = (p, art) :: files w /\
      forall rave names f rest z,
        torch_jit_load model_path = Ok rave ->
        os_listdir audio_dir = Ok names ->
        map (PyStr.join audio_dir) (filter is_wav names) = f :: rest ->
        encode_file rave sr f = Ok z ->
        Np.ndim z = 1 ->
        cols art = Some 1 /\
        (~ In (file_key f) (map file_key rest) ->
         Dict.get (file_key f) (data art) = Some (tolist z)).
Proof.
  intros model_path audio_dir output_json n_components sr method skip
         osc_client osc_address w w' p H.
  apply process_audio_files_Some in H
    as (rave & names & st & reduced & Hload & Hlist & _ & Hloop & _ & _
        & Hfiles & _).
  eexists. split; [exact Hfiles|]. simpl.
  intros rave' names' f rest z Hload' Hlist' Hsplit Hz Hrank.
  rewrite Hload in Hload'. inversion Hload'; subst rave'.
  rewrite Hlist in Hlist'. inversion Hlist'; subst names'.
  rewrite Hsplit in Hloop. split.
  - simpl in Hloop. apply rbind_Ok in Hloop as (st1 & Hstep & Hloop).
    apply (encode_loop_keeps_num_dimensions _ _ _ _ _ _ Hloop).
    unfold encode_step in Hstep. rewrite Hz in Hstep. simpl in Hstep.
    unfold mean_vector in Hstep. rewrite Hrank in Hstep. simpl in Hstep.
    inversion Hstep; subst; reflexivity.
  - intros Hlast.
    destruct (encode_loop_get rave sr [] rest f _ _ Hloop Hlast)
      as (z' & nd & zn & Hz' & Hzn & Hget).
    rewrite Hz in Hz'. inversion Hz'; subst z'.
    unfold mean_vector in Hzn. rewrite Hrank in Hzn. simpl in Hzn.
    inversion Hzn; subst zn. exact Hget.
Qed.

End PipelineFacts.

(** ** Scaling in exact arithmetic *)

Section ExactArithmetic.

Lemma Qmax_ub_l (x y : Q) : (x <= Q_max x y)%Q.
Proof.
  unfold Q_max. destruct (Qle_bool x y) eqn:L.
  - now apply Qle_bool_iff.
  - apply Qle_refl.
Qed.

Lemma Qmax_ub_r (x y : Q) : (y <= Q_max x y)%Q.
Proof.
  unfold Q_max. destruct (Qle_bool x y) eqn:L.
  - apply Qle_refl.
  - apply Qlt_le_weak, Qnot_le_lt. intros H.
    apply Qle_bool_iff in H. congruence.
Qed.

Lemma Qmax_cases (x y : Q) : Q_max x y = x \/ Q_max x y = y.
Proof. unfold Q_max. destruct (Qle_bool x y); auto. Qed.

Lemma fold_abs_max (xs : list Q) :
  forall acc,
    let r := fold_left (fun acc y => Q_max acc (Qabs y)) xs acc in
    (acc <= r)%Q /\
    (forall x, In x xs -> (Qabs x <= r)%Q) /\
    (r = acc \/ exists x, In x xs /\ r = Qabs x).
Proof.
  induction xs as [|y xs IH]; intros acc; cbv zeta; simpl.
  - split; [apply Qle_refl|]. split; [intros x []|now left].
  - destruct (IH (Q_max acc (Qabs y))) as (Hacc & Hall & Hwit).
    split; [|split].
    + eapply Qle_trans; [apply Qmax_ub_l | exact Hacc].
    + intros x [<-|Hx].
      * eapply Qle_trans; [apply Qmax_ub_r | exact Hacc].
      * auto.
    + destruct Hwit as [Heq | (x & Hx & Heq)].
      * destruct (Qmax_cases acc (Qabs y)) as [Hm|Hm].
        -- left. congruence.
        -- right. exists y. split; [now left | congruence].
      * right. exists x. auto.
Qed.

(** [np.abs(a).max()] bounds every element and is attained. *)
Lemma abs_max_spec (a : @ndarray Qnum) (m : Q) :
  Np.abs_max a = Ok m ->
  (forall x, In x (flat a) -> (Qabs x <= m)%Q) /\
  (exists x, In x (flat a) /\ m = Qabs x).
Proof.
  unfold Np.abs_max. destruct (flat a) as [|x xs]; [discriminate|].
  intros H; inversion H; subst; clear H.
  destruct (fold_abs_max xs (Qabs x)) as (Hacc & Hall & Hwit).
  split.
  - intros y [<-|Hy]; auto.
  - destruct Hwit as [Heq | (y & Hy & Heq)].
    + exists x. split; [now left | exact Heq].
    + exists y. split; [now right | exact Heq].
Qed.

Lemma abs_max_defined (a : @ndarray Qnum) :
  flat a <> [] -> exists m, Np.abs_max a = Ok m.
Proof.
  unfold Np.abs_max. destruct (flat a); [congruence | eauto].
Qed.

(** After multiplying by [5 / max_val] the largest magnitude is 5. *)
Lemma abs_max_after_scaling (a : @ndarray Qnum) (m : Q) :
  Np.abs_max a = Ok m -> ~ (m == 0)%Q ->
  exists m', Np.abs_max (Np.mul a (5 / m)%Q) = Ok m' /\ (m' == 5)%Q.
Proof.
  intros Hm Hnz.
  destruct (abs_max_spec a m Hm) as (Hub & x0 & Hx0 & Hx0m).
  assert (Hpos : (0 < m)%Q).
  { destruct (Qlt_le_dec 0 m) as [H|H]; [exact H|]. exfalso. apply Hnz.
    apply Qle_antisym; [exact H|]. rewrite Hx0m. apply Qabs_nonneg. }
  assert (Hs : (0 <= 5 / m)%Q).
  { apply Qlt_le_weak. apply Qlt_shift_div_l; [exact Hpos|].
    rewrite Qmult_0_l. reflexivity. }
  assert (Hscale : forall x, (Qabs (x * (5 / m)) == Qabs x * (5 / m))%Q).
  { intros x. rewrite Qabs_Qmult, (Qabs_pos (5 / m)) by exact Hs. reflexivity. }
  assert (Hfive : (m * (5 / m) == 5)%Q) by (field; exact Hnz).
  destruct (abs_max_defined (Np.mul a (5 / m)%Q)) as [m' Hm'].
  { simpl. destruct (flat a); [destruct Hx0 | discriminate]. }
  exists m'. split; [exact Hm'|].
  destruct (abs_max_spec _ _ Hm') as (Hub' & y & Hy & Hym).
  simpl in Hub', Hy. apply in_map_iff in Hy as (x & <- & Hx).
  apply Qle_antisym.
  - rewrite Hym, Hscale. apply Qle_trans with (m * (5 / m))%Q.
    + apply Qmult_le_compat_r; [apply Hub; exact Hx | exact Hs].
    + rewrite Hfive. apply Qle_refl.
  - apply Qle_trans with (Qabs (x0 * (5 / m)))%Q.
    + rewrite Hscale, <- Hx0m, Hfive. apply Qle_refl.
    + apply Hub'. apply in_map_iff. exists x0. auto.
Qed.

(** The two outcomes of the scaling step. *)
Lemma scale_to_5_Ok (fitted latent_reduced : @ndarray Qnum) :
  scale_to_5 fitted = Ok latent_reduced ->
  exists max_val : Q,
    Np.abs_max fitted = Ok max_val /\
    ((max_val == 0)%Q -> latent_reduced = fitted) /\
    (~ (max_val == 0)%Q ->
     latent_reduced = Np.mul fitted (5 / max_val)%Q /\
     exists m' : Q, Np.abs_max latent_reduced = Ok m' /\ (m' == 5)%Q).
Proof.
  intros H.
  destruct (scale_to_5_cases fitted latent_reduced H) as (m & Hm & Hz & Hnz).
  exists m. split; [exact Hm|].
  change (@nis_zero Qnum m) with (Qeq_bool m 0) in Hz, Hnz.
  destruct (Qeq_bool m 0) eqn:Ez.
  - apply Qeq_bool_iff in Ez.
    split; [intros _; now apply Hz | intros Hn; contradiction].
  - assert (Hne : ~ (m == 0)%Q).
    { intros Hq. apply Qeq_bool_iff in Hq. congruence. }
    split; [intros Hq; contradiction|]. intros _.
    specialize (Hnz eq_refl). subst latent_reduced.
    split; [reflexivity|]. now apply abs_max_after_scaling.
Qed.

(** After the multiplication every magnitude is at most 5, and 5 is
    attained. *)
Lemma magnitudes_after_scaling (a : @ndarray Qnum) (m : Q) :
  Np.abs_max a = Ok m -> ~ (m == 0)%Q ->
  (forall y, In y (flat (Np.mul a (5 / m)%Q)) -> (Qabs y <= 5)%Q) /\
  (exists y, In y (flat (Np.mul a (5 / m)%Q)) /\ (Qabs y == 5)%Q).
Proof.
  intros Hm Hnz.
  destruct (abs_max_after_scaling a m Hm Hnz) as (m' & Hm' & H5).
  destruct (abs_max_spec _ _ Hm') as (Hub & y & Hy & Hym).
  split.
  - intros x Hx. rewrite <- H5. now apply Hub.
  - exists y. split; [exact Hy|]. rewrite <- Hym. exact H5.
Qed.

End ExactArithmetic.

Section ControlFacts.
Context {N : Num} {E : Env}.

#[local] Arguments Np.zeros_1_1_n : simpl never.

(** ** Model introspection *)

(** The run of [get_model_dimensions] for any client and address. *)
Lemma get_model_dimensions_run (model_path : pyval)
  (osc_client : option udp_client) (osc_address : option string) (w : World) :
  exists w',
    get_model_dimensions model_path osc_client osc_address w
    = (Ok (match probe_latent_dim model_path with
           | Ok d => Some d
           | Raise _ => None
           end), w') /\
    files w' = files w /\ threads w' = threads w /\
    osc_sent w'
    = match client_and_address osc_client osc_address with
      | Some (_, a) =>
          (a, PInt (match probe_latent_dim model_path with
                    | Ok d => Z.of_nat d
                    | Raise _ => -1
                    end)) :: osc_sent w
      | None => osc_sent w
      end.
Proof.
  unfold probe_latent_dim, get_model_dimensions, get_model_dimensions_body.
  cbv [bind lift try_except rbind].
  destruct (strip_volume model_path) as [path|e].
  2:{ destruct (client_and_address osc_client osc_address) as [[c a]|];
      eexists; (split; [reflexivity|]); simpl; auto. }
  cbv [print]. cbv beta iota.
  destruct (torch_jit_load path) as [rave|e].
  2:{ destruct (client_and_address osc_client osc_address) as [[c a]|];
      eexists; (split; [reflexivity|]); simpl; auto. }
  destruct (rave_encode rave (Np.zeros_1_1_n 48000)) as [z|e].
  2:{ destruct (client_and_address osc_client osc_address) as [[c a]|];
      eexists; (split; [reflexivity|]); simpl; auto. }
  destruct (shape_1 z) as [d|e];
    destruct (client_and_address osc_client osc_address) as [[c a]|];
    eexists; (split; [reflexivity|]); simpl; auto.
Qed.

(** [z.shape[1]] is the length of the second axis, and fails without one. *)
Lemma shape_1_cases (z : ndarray) :
  (exists batch width rest,
      shape z = batch :: width :: rest /\ shape_1 z = Ok width) \/
  (length (shape z) < 2 /\ exists e, shape_1 z = Raise e).
Proof.
  unfold shape_1. destruct (shape z) as [|batch [|width rest]]; simpl.
  - right. split; [lia | eauto].
  - right. split; [lia | eauto].
  - left. eauto.
Qed.

(** The probe succeeds exactly when every step of the [try] block does, and
    then yields the length of the second axis of the encoding. *)
Lemma probe_latent_dim_cases (model_path : pyval) :
  (exists path rave z batch width rest,
      strip_volume model_path = Ok path /\
      torch_jit_load path = Ok rave /\
      rave_encode rave (Np.zeros_1_1_n 48000) = Ok z /\
      shape z = batch :: width :: rest /\
      probe_latent_dim model_path = Ok width) \/
  (introspection_fails model_path /\
   exists e, probe_latent_dim model_path = Raise e).
Proof.
  unfold probe_latent_dim, introspection_fails.
  destruct (strip_volume model_path) as [path|e] eqn:Hpath.
  2:{ right. split; [left | exists e; reflexivity].
      intros s ->. simpl in Hpath.
      destruct (PyStr.startswith s "Macintosh HD:"); discriminate. }
  cbn [rbind].
  destruct (torch_jit_load path) as [rave|e] eqn:Hload.
  2:{ right. split; [right; left; exists path, e; auto | exists e; reflexivity]. }
  cbn [rbind].
  destruct (rave_encode rave (Np.zeros_1_1_n 48000)) as [z|e] eqn:Hz.
  2:{ right. split; [right; right; left; exists path, rave, e; auto
                    | exists e; reflexivity]. }
  cbn [rbind].
  destruct (shape_1_cases z) as [(batch & width & rest & Hsh & H1) | (Hsh & H1)].
  - left. exists path, rave, z, batch, width, rest. auto.
  - right. split; [right; right; right; exists path, rave, z; auto | exact H1].
Qed.

Lemma probe_latent_dim_success (model_path : pyval) path rave z batch width rest :
  strip_volume model_path = Ok path ->
  torch_jit_load path = Ok rave ->
  rave_encode rave (Np.zeros_1_1_n 48000) = Ok z ->
  shape z = batch :: width :: rest ->
  probe_latent_dim model_path = Ok width.
Proof.
  intros Hpath Hload Hz Hsh. unfold probe_latent_dim.
  rewrite Hpath. cbn [rbind]. rewrite Hload. cbn [rbind]. rewrite Hz.
  cbn [rbind]. unfold shape_1. rewrite Hsh. reflexivity.
Qed.

Lemma strip_volume_not_a_string (p : pyval) :
  (forall s, p <> PStr s) -> exists e, strip_volume p = Raise e.
Proof.
  intros Hp. destruct p; simpl; eauto. exfalso. now apply (Hp s).
Qed.

Lemma probe_latent_dim_failure (model_path : pyval) :
  introspection_fails model_path ->
  exists e, probe_latent_dim model_path = Raise e.
Proof.
  unfold probe_latent_dim.
  intros [Hstr | [(path & e & Hpath & Hload)
          | [(path & rave & e & Hpath & Hload & Hz)
            | (path & rave & z & Hpath & Hload & Hz & Hsh)]]].
  - destruct (strip_volume_not_a_string _ Hstr) as [e ->]. cbn [rbind]. eauto.
  - rewrite Hpath. cbn [rbind]. rewrite Hload. cbn [rbind]. eauto.
  - rewrite Hpath. cbn [rbind]. rewrite Hload. cbn [rbind]. rewrite Hz.
    cbn [rbind]. eauto.
  - rewrite Hpath. cbn [rbind]. rewrite Hload. cbn [rbind]. rewrite Hz.
    cbn [rbind].
    destruct (shape_1_cases z) as [(batch & width & rest & Hsh' & _) | (_ & H1)].
    + rewrite Hsh' in Hsh. simpl in Hsh. lia.
    + exact H1.
Qed.

(** C8. [get_model_dimensions], called as the worker calls it, never raises
    and sends exactly one message on "/rave/model/dimensions".
    - Success: when the path normalises, the model loads and the probe (one
      second of silence) encodes to an array of shape (batch, width, ...),
      it returns [width] and sends [width], the length of the second axis
      of the encoding.
    - Failure: when the path is not a string, or the model does not load, or
      the encoder raises, or the encoding has fewer than two axes, it
      returns [None] and sends -1.
    - Every request is in one of the two cases.
    The worker thread and the request handler end normally as well. *)
Theorem C8_introspection_failure_is_reported_as_minus_1 :
  forall (model_path : pyval) (osc_client : udp_client) (w : World),
    (forall path rave z batch width rest,
        strip_volume model_path = Ok path ->
        torch_jit_load path = Ok rave ->
        rave_encode rave (Np.zeros_1_1_n 48000) = Ok z ->
        shape z = batch :: width :: rest ->
        exists w',
          get_model_dimensions model_path (Some osc_client)
            (Some "/rave/model/dimensions") w = (Ok (Some width), w') /\
          osc_sent w' = ("/rave/model/dimensions", PInt (Z.of_nat width))
                          :: osc_sent w) /\
    (introspection_fails model_path ->
     exists w',
       get_model_dimensions model_path (Some osc_client)
         (Some "/rave/model/dimensions") w = (Ok None, w') /\
       osc_sent w' = ("/rave/model/dimensions", PInt (-1)) :: osc_sent w) /\
    ((exists path rave z batch width rest,
         strip_volume model_path = Ok path /\
         torch_jit_load path = Ok rave /\
         rave_encode rave (Np.zeros_1_1_n 48000) = Ok z /\
         shape z = batch :: width :: rest) \/
     introspection_fails model_path) /\
    (exists w' reply,
        run_thread osc_client (ModelInfoThread model_path) w = (Ok tt, w') /\
        osc_sent w' = ("/rave/model/dimensions", reply) :: osc_sent w) /\
    (forall address args,
        exists w', handle_model_info_request address args w = (Ok tt, w')).
Proof.
  intros model_path c w.
  destruct (get_model_dimensions_run model_path (Some c)
              (Some "/rave/model/dimensions") w) as (w' & Hrun & _ & _ & Hsent).
  cbn [client_and_address String.eqb Ascii.eqb Bool.eqb] in Hsent.
  split; [|split; [|split; [|split]]].
  - intros path rave z batch width rest Hpath Hload Hz Hsh.
    rewrite (probe_latent_dim_success _ _ _ _ _ _ _ Hpath Hload Hz Hsh)
      in Hrun, Hsent.
    exists w'. split; assumption.
  - intros Hfail. destruct (probe_latent_dim_failure _ Hfail) as [e He].
    rewrite He in Hrun, Hsent. exists w'. split; assumption.
  - destruct (probe_latent_dim_cases model_path)
      as [(path & rave & z & batch & width & rest & Hpath & Hload & Hz & Hsh
           & _) | [Hfail _]].
    + left. exists path, rave, z, batch, width, rest. auto.
    + right. exact Hfail.
  - unfold run_thread, try_except. unfold bind at 1. rewrite Hrun.
    cbn [ret]. eauto.
  - intros address [|a args]; simpl; eexists; reflexivity.
Qed.

(** ** Requests to "/rave/process" *)

(** C9. A message to [handle_process_request] with fewer than two
    arguments only prints one line: the handler returns normally, starts no
    thread, writes no file and sends nothing; the server goes on with the
    following messages from that state. *)
Theorem C9_short_process_message_is_logged_and_dropped :
  forall (address : string) (args : list pyval) (w : World),
    length args < 2 ->
    handle_process_request address args w
    = (Ok tt, MkWorld (not_enough_arguments address :: console w)
                      (files w) (osc_sent w) (threads w)) /\
    forall rest,
      serve (("/rave/process", args) :: rest) w
      = serve rest (MkWorld (not_enough_arguments "/rave/process" :: console w)
                            (files w) (osc_sent w) (threads w)).
Proof.
  intros address args w Hlen.
  assert (Hh : forall addr,
             handle_process_request addr args w
             = (Ok tt, MkWorld (not_enough_arguments addr :: console w)
                               (files w) (osc_sent w) (threads w))).
  { intros addr. unfold handle_process_request.
    destruct (Nat.ltb_spec (length args) 2) as [_|Hge]; [reflexivity | lia]. }
  split; [apply Hh|].
  intros rest.
  change (serve (("/rave/process", args) :: rest) w)
    with (bind (serve_message ("/rave/process", args)) (fun _ => serve rest) w).
  unfold bind, serve_message, try_except, dispatch. cbn [fst snd].
  change (String.eqb "/rave/process" "/rave/process") with true. cbv iota.
  rewrite Hh. reflexivity.
Qed.



End ControlFacts.

(** * Further properties of the pipeline *)

Section JobOutcomes.
Context {N : Num} {E : Env}.

(** ** What a job leaves behind *)

Lemma write_json_run (path : string) (a : Artifact) (w : World) :
  write_json path a w
  = match open_w path with
    | Ok _ => (Ok tt, MkWorld (console w) ((path, a) :: files w) (osc_sent w)
                              (threads w))
    | Raise e => (Raise e, w)
    end.
Proof.
  unfold write_json, bind, lift. destruct (open_w path); reflexivity.
Qed.

(** The steps after the artifact is written do not raise. *)
Lemma notify_run (osc_client : option udp_client) (osc_address : option string)
  (p : string) (w : World) :
  exists w',
    ((match client_and_address osc_client osc_address with
      | Some (c, a) =>
          send_message c a (PStr p) ;;
          print ("Sent OSC message to " ++ a ++ " with output path: " ++ p)%string
      | None => ret tt
      end) ;; ret (Some p)) w = (Ok (Some p), w') /\
    files w' = files w /\ threads w' = threads w /\
    osc_sent w' = match client_and_address osc_client osc_address with
                  | Some (_, a) => (a, PStr p) :: osc_sent w
                  | None => osc_sent w
                  end.
Proof.
  destruct (client_and_address osc_client osc_address) as [[c a]|];
    eexists; (split; [reflexivity|]); simpl; auto.
Qed.

Lemma bind_quiet_raise {A B} (m : M A) (k : A -> M B) :
  quiet m ->
  (forall a w e w', k a w = (Raise e, w') ->
     files w' = files w /\ osc_sent w' = osc_sent w /\ threads w' = threads w) ->
  forall w e w', bind m k w = (Raise e, w') ->
    files w' = files w /\ osc_sent w' = osc_sent w /\ threads w' = threads w.
Proof.
  intros Hm Hk w e w'. unfold bind.
  destruct (m w) as [[a|e1] w1] eqn:Em; intros H.
  - destruct (Hm _ _ _ Em) as (F & O & T).
    destruct (Hk _ _ _ _ H) as (F' & O' & T'). repeat split; congruence.
  - inversion H; subst. eapply Hm; eauto.
Qed.

(** A raising run leaves files, messages and threads as they were. *)
Lemma process_audio_files_Raise :
  forall (model_path audio_dir : string) (output_json : pyval)
         (n_components sr : nat) (method : pyval) (skip : bool)
         (osc_client : option udp_client) (osc_address : option string)
         (w w' : World) (e : exn),
    process_audio_files model_path audio_dir output_json n_components sr method
      skip osc_client osc_address w = (Raise e, w') ->
    files w' = files w /\ osc_sent w' = osc_sent w /\ threads w' = threads w.
Proof.
  intros model_path audio_dir output_json n_components sr method skip
         osc_client osc_address w w' e.
  unfold process_audio_files.
  apply bind_quiet_raise; [auto with quiet|]. intros _.
  apply bind_quiet_raise; [auto with quiet|]. intros rave.
  apply bind_quiet_raise; [auto with quiet|]. intros [|f fs].
  { intros w0 e0 w0' H. unfold bind, print, ret in H. inversion H. }
  apply bind_quiet_raise; [auto with quiet|]. intros _.
  apply bind_quiet_raise; [auto with quiet|]. intros st.
  apply bind_quiet_raise.
  { destruct skip; simpl; [auto with quiet|].
    apply quiet_bind; [apply quiet_reduce_stage | auto with quiet]. }
  intros reduced.
  apply bind_quiet_raise; [auto with quiet|]. intros p.
  intros w0 e0 w0'. unfold bind at 1. rewrite write_json_run.
  destruct (open_w p); [|intros H; inversion H; subst; auto].
  unfold bind at 1. rewrite print_run.
  match goal with
  | |- context [bind ?m ?k ?w1] =>
      destruct (notify_run osc_client osc_address p w1) as (w2 & Hn & _)
  end.
  rewrite Hn. intros H; inversion H.
Qed.

(** X1. A job that raises has written no file, sent no OSC message and
    started no thread: every step that can fail comes before the artifact is
    written. *)
Theorem failed_job_leaves_nothing_behind :
  forall (model_path audio_dir : string) (output_json : pyval)
         (n_components sr : nat) (method : pyval) (skip : bool)
         (osc_client : option udp_client) (osc_address : option string)
         (w w' : World) (e : exn),
    process_audio_files model_path audio_dir output_json n_components sr method
      skip osc_client osc_address w = (Raise e, w') ->
    files w' = files w /\ osc_sent w' = osc_sent w /\ threads w' = threads w.
Proof.
  intros model_path audio_dir output_json n_components sr method skip
         osc_client osc_address w w' e H.
  exact (process_audio_files_Raise _ _ _ _ _ _ _ _ _ _ _ _ H).
Qed.

Lemma bind_keeps_threads {A B} (m : M A) (k : A -> M B) :
  (forall w r w', m w = (r, w') -> threads w' = threads w) ->
  (forall a w r w', k a w = (r, w') -> threads w' = threads w) ->
  forall w r w', bind m k w = (r, w') -> threads w' = threads w.
Proof.
  intros Hm Hk w r w'. unfold bind.
  destruct (m w) as [[a|e1] w1] eqn:Em; intros H.
  - rewrite (Hk _ _ _ _ H). eapply Hm; eauto.
  - inversion H; subst. eapply Hm; eauto.
Qed.

Lemma quiet_keeps_threads {A} (m : M A) :
  quiet m -> forall w r w', m w = (r, w') -> threads w' = threads w.
Proof. intros Hq w r w' H. now destruct (Hq _ _ _ H) as (_ & _ & T). Qed.

(** A job starts no thread, whatever its outcome. *)
Lemma process_audio_files_keeps_threads :
  forall model_path audio_dir output_json n_components sr method skip
         osc_client osc_address w r w',
    process_audio_files model_path audio_dir output_json n_components sr method
      skip osc_client osc_address w = (r, w') ->
    threads w' = threads w.
Proof.
  intros model_path audio_dir output_json n_components sr method skip
         osc_client osc_address.
  unfold process_audio_files.
  apply bind_keeps_threads; [apply quiet_keeps_threads; auto with quiet|].
  intros _.
  apply bind_keeps_threads; [apply quiet_keeps_threads; auto with quiet|].
  intros rave.
  apply bind_keeps_threads; [apply quiet_keeps_threads; auto with quiet|].
  intros [|f fs]; [apply quiet_keeps_threads; auto with quiet|].
  apply bind_keeps_threads; [apply quiet_keeps_threads; auto with quiet|].
  intros _.
  apply bind_keeps_threads; [apply quiet_keeps_threads; auto with quiet|].
  intros st.
  apply bind_keeps_threads.
  { apply quiet_keeps_threads. destruct skip; simpl; [auto with quiet|].
    apply quiet_bind; [apply quiet_reduce_stage | auto with quiet]. }
  intros reduced.
  apply bind_keeps_threads; [apply quiet_keeps_threads; auto with quiet|].
  intros p.
  apply bind_keeps_threads.
  { intros w r w'. rewrite write_json_run.
    destruct (open_w p); intros H; inversion H; subst; reflexivity. }
  intros _.
  apply bind_keeps_threads; [apply quiet_keeps_threads; auto with quiet|].
  intros _ w r w' H.
  destruct (notify_run osc_client osc_address p w) as (w2 & Hn & _ & T & _).
  rewrite Hn in H. inversion H; subst. exact T.
Qed.

(** X2. A job that returns a path has written exactly one artifact, at that
    path, and has started no thread; with a client and a non-empty address it
    has sent exactly one message, carrying that same path, and without them
    it has sent nothing. *)
Theorem completed_job_writes_and_notifies_the_returned_path :
  forall (model_path audio_dir : string) (output_json : pyval)
         (n_components sr : nat) (method : pyval) (skip : bool)
         (osc_client : option udp_client) (osc_address : option string)
         (w w' : World) (p : string),
    process_audio_files model_path audio_dir output_json n_components sr method
      skip osc_client osc_address w = (Ok (Some p), w') ->
    (exists art, files w' = (p, art) :: files w) /\
    threads w' = threads w /\
    resolve_output_json output_json model_path method skip = Ok p /\
    (forall c a, osc_client = Some c -> osc_address = Some a -> a <> "" ->
                 osc_sent w' = (a, PStr p) :: osc_sent w) /\
    (osc_client = None \/ osc_address = None \/ osc_address = Some "" ->
     osc_sent w' = osc_sent w).
Proof.
  intros model_path audio_dir output_json n_components sr method skip
         osc_client osc_address w w' p H.
  pose proof (process_audio_files_keeps_threads _ _ _ _ _ _ _ _ _ _ _ _ H)
    as Hthreads.
  apply process_audio_files_Some in H
    as (rave & names & st & reduced & _ & _ & _ & _ & _ & Hpath & Hfiles
        & Hsent).
  split; [eauto|]. split; [exact Hthreads|]. split; [exact Hpath|]. split.
  - intros c a -> -> Ha. simpl in Hsent.
    destruct (String.eqb_spec a ""); [contradiction | exact Hsent].
  - intros [-> | [-> | ->]]; simpl in Hsent.
    + exact Hsent.
    + destruct osc_client; exact Hsent.
    + destruct osc_client; exact Hsent.
Qed.

(** What is known when [process_audio_files] returns [None]. *)
Lemma process_audio_files_None :
  forall (model_path audio_dir : string) (output_json : pyval)
         (n_components sr : nat) (method : pyval) (skip : bool)
         (osc_client : option udp_client) (osc_address : option string)
         (w w' : World),
    process_audio_files model_path audio_dir output_json n_components sr method
      skip osc_client osc_address w = (Ok None, w') ->
    exists rave names,
      torch_jit_load model_path = Ok rave /\
      os_listdir audio_dir = Ok names /\
      filter is_wav names = [] /\
      w' = MkWorld
             (("No audio files found in directory: " ++ audio_dir)%string
                :: ("Loading RAVE model from " ++ model_path ++ "...")%string
                :: console w)
             (files w) (osc_sent w) (threads w).
Proof.
  intros model_path audio_dir output_json n_components sr method skip
         osc_client osc_address w w' H.
  unfold process_audio_files in H.
  apply bind_Ok in H as (u & w1 & Hpr & H).
  rewrite print_run in Hpr. inversion Hpr; subst u w1; clear Hpr.
  apply bind_Ok in H as (rave & w2 & Hl & H).
  apply lift_Ok in Hl as [Hl ->].
  apply bind_Ok in H as (audio_files & w3 & Ha & H).
  apply lift_Ok in Ha as [Ha ->].
  unfold list_audio_files in Ha.
  apply rbind_Ok in Ha as (names & Hn & Ha).
  inversion Ha; subst audio_files; clear Ha.
  exists rave, names. split; [exact Hl|]. split; [exact Hn|].
  destruct (filter is_wav names) as [|f fs] eqn:Ef; simpl in H.
  - split; [reflexivity|].
    apply bind_Ok in H as (u & w4 & Hpr & H).
    rewrite print_run in Hpr. inversion Hpr; subst u w4; clear Hpr.
    apply ret_Ok in H as [_ ->]. reflexivity.
  - exfalso.
    apply bind_Ok in H as (u & w4 & _ & H).
    apply bind_Ok in H as (st & w5 & _ & H).
    apply bind_Ok in H as (reduced & w6 & _ & H).
    apply bind_Ok in H as (path & w7 & _ & H).
    apply bind_Ok in H as (u1 & w8 & _ & H).
    apply bind_Ok in H as (u2 & w9 & _ & H).
    apply bind_Ok in H as (u3 & w10 & _ & H).
    apply ret_Ok in H as [H _]. discriminate.
Qed.

(** X3. [None] is returned only for an empty input: the model loaded, the
    directory was listed, no listed name is an eligible file, and nothing but
    two console lines was produced. *)
Theorem none_is_returned_only_for_empty_input :
  forall (model_path audio_dir : string) (output_json : pyval)
         (n_components sr : nat) (method : pyval) (skip : bool)
         (osc_client : option udp_client) (osc_address : option string)
         (w w' : World),
    process_audio_files model_path audio_dir output_json n_components sr method
      skip osc_client osc_address w = (Ok None, w') ->
    exists rave names,
      torch_jit_load model_path = Ok rave /\
      os_listdir audio_dir = Ok names /\
      filter is_wav names = [] /\
      w' = MkWorld
             (("No audio files found in directory: " ++ audio_dir)%string
                :: ("Loading RAVE model from " ++ model_path ++ "...")%string
                :: console w)
             (files w) (osc_sent w) (threads w).
Proof.
  intros model_path audio_dir output_json n_components sr method skip
         osc_client osc_address w w' H.
  exact (process_audio_files_None _ _ _ _ _ _ _ _ _ _ _ H).
Qed.

(** ** One failing file *)

Lemma bind_print {A} (s : string) (k : unit -> M A) (w : World) :
  bind (print s) k w
  = k tt (MkWorld (s :: console w) (files w) (osc_sent w) (threads w)).
Proof. reflexivity. Qed.

Lemma bind_lift_Ok {A B} (a : A) (k : A -> M B) (w : World) :
  bind (lift (Ok a)) k w = k a w.
Proof. reflexivity. Qed.

Lemma bind_lift_Raise {A B} (e : exn) (k : A -> M B) (w : World) :
  bind (lift (Raise e)) k w = (Raise e, w).
Proof. reflexivity. Qed.

Lemma encode_loop_raise rave sr (audio_files : list string) (f : string)
  (e : exn) :
  In f audio_files -> encode_file rave sr f = Raise e ->
  forall st, exists e', encode_loop rave sr audio_files st = Raise e'.
Proof.
  intros Hin Hf. induction audio_files as [|g rest IH]; [destruct Hin|].
  intros st. simpl.
  destruct (encode_step rave sr st g) as [st1|e1] eqn:Hstep; simpl.
  - destruct Hin as [->|Hin]; [|apply IH; exact Hin].
    unfold encode_step in Hstep. rewrite Hf in Hstep. discriminate.
  - eauto.
Qed.

(** The run of a job up to the encoding loop. *)
Lemma process_audio_files_until_loop :
  forall model_path audio_dir output_json n_components sr method skip
         osc_client osc_address w rave names f fs e,
    torch_jit_load model_path = Ok rave ->
    os_listdir audio_dir = Ok names ->
    map (PyStr.join audio_dir) (filter is_wav names) = f :: fs ->
    encode_loop rave sr (f :: fs) enc_init = Raise e ->
    fst (process_audio_files model_path audio_dir output_json n_components sr
           method skip osc_client osc_address w) = Raise e.
Proof.
  intros model_path audio_dir output_json n_components sr method skip
         osc_client osc_address w rave names f fs e Hload Hlist Hfiles Hloop.
  unfold process_audio_files.
  rewrite bind_print, Hload, bind_lift_Ok.
  unfold list_audio_files. rewrite Hlist. cbn [rbind].
  rewrite bind_lift_Ok, Hfiles, bind_print, Hloop, bind_lift_Raise.
  reflexivity.
Qed.

(** X4. One file that cannot be loaded or encoded aborts the whole job: the
    job raises, whatever the other files are, and nothing is written or
    sent. *)
Theorem one_failing_file_aborts_the_job :
  forall (model_path audio_dir : string) (output_json : pyval)
         (n_components sr : nat) (method : pyval) (skip : bool)
         (osc_client : option udp_client) (osc_address : option string)
         (w : World) (rave : Model) (names : list string) (f : string)
         (e : exn),
    torch_jit_load model_path = Ok rave ->
    os_listdir audio_dir = Ok names ->
    In f (map (PyStr.join audio_dir) (filter is_wav names)) ->
    encode_file rave sr f = Raise e ->
    exists e' w',
      process_audio_files model_path audio_dir output_json n_components sr
        method skip osc_client osc_address w = (Raise e', w') /\
      files w' = files w /\ osc_sent w' = osc_sent w.
Proof.
  intros model_path audio_dir output_json n_components sr method skip
         osc_client osc_address w rave names f e Hload Hlist Hin Hf.
  destruct (map (PyStr.join audio_dir) (filter is_wav names)) as [|g gs] eqn:Hfiles;
    [destruct Hin|].
  destruct (encode_loop_raise rave sr (g :: gs) f e Hin Hf enc_init)
    as [e' Hloop].
  pose proof (process_audio_files_until_loop model_path audio_dir output_json
                n_components sr method skip osc_client osc_address w rave
                names g gs e' Hload Hlist Hfiles Hloop) as Hrun.
  destruct (process_audio_files model_path audio_dir output_json n_components
              sr method skip osc_client osc_address w) as [r w'] eqn:Hp.
  simpl in Hrun. subst r. exists e', w'. split; [reflexivity|].
  destruct (process_audio_files_Raise _ _ _ _ _ _ _ _ _ _ _ _ Hp)
    as (F & O & _).
  auto.
Qed.

End JobOutcomes.

Section DatasetFacts.
Context {N : Num} {E : Env}.

(** ** Order and number of the entries *)

Lemma mean_vector_latent_vector z nd zn :
  mean_vector z nd = Ok zn -> latent_vector_of z = Ok (fst zn).
Proof.
  unfold mean_vector, latent_vector_of. destruct (Np.ndim z =? 1).
  - intros H; inversion H; reflexivity.
  - intros H. apply rbind_Ok in H as (nd' & _ & H).
    apply rbind_Ok in H as (z_mean & Hm & H). inversion H; subst. exact Hm.
Qed.

Lemma encode_step_Ok rave sr st f st' :
  encode_step rave sr st f = Ok st' ->
  exists z v,
    encode_file rave sr f = Ok z /\ latent_vector_of z = Ok v /\
    latent_data st' = Dict.set (file_key f) (tolist v) (latent_data st) /\
    latent_vectors_all st' = latent_vectors_all st ++ [v].
Proof.
  unfold encode_step. intros H.
  apply rbind_Ok in H as (z & Hz & H).
  apply rbind_Ok in H as (zn & Hzn & H).
  inversion H; subst; simpl.
  exists z, (fst zn). repeat split; auto.
  now apply mean_vector_latent_vector in Hzn.
Qed.

Lemma encode_loop_vectors rave sr (audio_files : list string) :
  forall st st',
    encode_loop rave sr audio_files st = Ok st' ->
    exists vs,
      latent_vectors_all st' = latent_vectors_all st ++ vs /\
      Forall2 (fun f v => exists z, encode_file rave sr f = Ok z /\
                                    latent_vector_of z = Ok v)
              audio_files vs.
Proof.
  induction audio_files as [|f rest IH]; simpl; intros st st' H.
  - inversion H; subst. exists []. split; [now rewrite app_nil_r | constructor].
  - apply rbind_Ok in H as (st1 & Hstep & Hloop).
    destruct (encode_step_Ok _ _ _ _ _ Hstep) as (z & v & Hz & Hv & _ & Hlv).
    destruct (IH _ _ Hloop) as (vs & Hvs & Hall).
    exists (v :: vs). split.
    + rewrite Hvs, Hlv, <- app_assoc. reflexivity.
    + constructor; [eauto | exact Hall].
Qed.

Lemma encode_loop_keys_in_order rave sr (audio_files : list string) :
  forall st st',
    encode_loop rave sr audio_files st = Ok st' ->
    NoDup (Dict.keys (latent_data st) ++ map file_key audio_files) ->
    Dict.keys (latent_data st')
    = Dict.keys (latent_data st) ++ map file_key audio_files.
Proof.
  induction audio_files as [|f rest IH]; simpl; intros st st' H Hnd.
  - inversion H; subst. now rewrite app_nil_r.
  - apply rbind_Ok in H as (st1 & Hstep & Hloop).
    destruct (encode_step_Ok _ _ _ _ _ Hstep) as (z & v & _ & _ & Hld & _).
    assert (Hfresh : ~ In (file_key f) (Dict.keys (latent_data st))).
    { intros Hin. apply NoDup_remove_2 in Hnd. apply Hnd.
      apply in_or_app. now left. }
    assert (Hk1 : Dict.keys (latent_data st1)
                  = Dict.keys (latent_data st) ++ [file_key f]).
    { rewrite Hld. now apply keys_set_fresh. }
    rewrite (IH _ _ Hloop); rewrite Hk1, <- app_assoc; simpl; auto.
Qed.

Lemma length_keys_set {V} (k : string) (v : V) (d : dict V) :
  length (Dict.keys (Dict.set k v d)) <= S (length (Dict.keys d)).
Proof.
  destruct (in_dec string_dec k (Dict.keys d)) as [Hin|Hout].
  - rewrite keys_set_present by assumption. lia.
  - rewrite keys_set_fresh by assumption. rewrite length_app. simpl. lia.
Qed.

Lemma encode_loop_keys_length rave sr (audio_files : list string) :
  forall st st',
    encode_loop rave sr audio_files st = Ok st' ->
    length (Dict.keys (latent_data st'))
    <= length (Dict.keys (latent_data st)) + length audio_files.
Proof.
  induction audio_files as [|f rest IH]; simpl; intros st st' H.
  - inversion H; subst. lia.
  - apply rbind_Ok in H as (st1 & Hstep & Hloop).
    destruct (encode_step_Ok _ _ _ _ _ Hstep) as (z & v & _ & _ & Hld & _).
    specialize (IH _ _ Hloop). rewrite Hld in IH.
    pose proof (length_keys_set (file_key f) (tolist v) (latent_data st)).
    lia.
Qed.

Lemma array_rows (lv : list ndarray) (m : ndarray) :
  Np.array lv = Ok m -> lv <> [] -> hd 0 (shape m) = length lv.
Proof.
  unfold Np.array. destruct lv as [|a l]; [congruence|].
  destruct (forallb _ l); [|discriminate].
  intros H _. inversion H; subst. reflexivity.
Qed.

(** X5. The rows of the latent matrix are the files' vectors in listing
    order, one per eligible file, while [data] has one entry per distinct
    identifier: never more entries than files, the identifiers in listing
    order when they are distinct, and as many entries as files only when they
    are distinct. *)
Theorem one_matrix_row_per_file_one_entry_per_identifier :
  forall (model_path audio_dir : string) (output_json : pyval)
         (n_components sr : nat) (method : pyval) (skip : bool)
         (osc_client : option udp_client) (osc_address : option string)
         (w w' : World) (p : string),
    process_audio_files model_path audio_dir output_json n_components sr method
      skip osc_client osc_address w = (Ok (Some p), w') ->
    exists art rave names lv,
      files w' = (p, art) :: files w /\
      torch_jit_load model_path = Ok rave /\
      os_listdir audio_dir = Ok names /\
      Forall2 (fun f v => exists z, encode_file rave sr f = Ok z /\
                                    latent_vector_of z = Ok v)
              (eligible_files audio_dir names) lv /\
      (skip = false ->
       exists latent_matrix fitted,
         Np.array lv = Ok latent_matrix /\
         hd 0 (shape latent_matrix)
         = length (eligible_files audio_dir names) /\
         reducer_for method 2 latent_matrix = Ok fitted) /\
      length (data art) <= length (eligible_files audio_dir names) /\
      (NoDup (map file_key (eligible_files audio_dir names)) ->
       Dict.keys (data art) = map file_key (eligible_files audio_dir names)) /\
      (length (data art) = length (eligible_files audio_dir names) ->
       NoDup (map file_key (eligible_files audio_dir names))).
Proof.
  intros model_path audio_dir output_json n_components sr method skip
         osc_client osc_address w w' p H.
  apply process_audio_files_Some in H
    as (rave & names & st & reduced & Hload & Hlist & Hne & Hloop & Hred & _
        & Hfiles & _).
  fold (eligible_files audio_dir names) in Hloop.
  destruct (encode_loop_vectors _ _ _ _ _ Hloop) as (lv & Hlv & Hall).
  simpl in Hlv.
  eexists; exists rave, names, lv.
  split; [exact Hfiles|]. split; [exact Hload|]. split; [exact Hlist|].
  split; [exact Hall|]. simpl.
  assert (Hlen : length lv = length (eligible_files audio_dir names)).
  { symmetry. eapply Forall2_length; eauto. }
  split; [|split; [|split]].
  - intros ->. destruct Hred as (rd & w1 & w2 & Hrs & _).
    apply reduce_stage_Ok in Hrs as (m & fitted & lr & Hm & Hfit & _).
    rewrite Hlv in Hm. exists m.
    assert (Hf : exists fitted0, reducer_for method 2 m = Ok fitted0).
    { unfold reducer_for.
      destruct Hfit as [(-> & Hf & _) | [(-> & -> & Hf & _) | (-> & -> & Hf & _)]];
        eauto. }
    destruct Hf as [fitted0 Hf]. exists fitted0.
    split; [exact Hm|]. split; [|exact Hf].
    rewrite <- Hlen. apply array_rows; [exact Hm|].
    intros ->. simpl in Hlen. unfold eligible_files in Hlen.
    symmetry in Hlen. apply length_zero_iff_nil, map_eq_nil in Hlen.
    contradiction.
  - pose proof (encode_loop_keys_length _ _ _ _ _ Hloop) as Hle.
    simpl in Hle. unfold Dict.keys in Hle. rewrite length_map in Hle.
    exact Hle.
  - intros Hnd. apply (encode_loop_keys_in_order _ _ _ _ _ Hloop).
    exact Hnd.
  - intros Hsame.
    destruct (encode_loop_keys _ _ _ _ _ Hloop) as [Hnd Hin]; [constructor|].
    apply (NoDup_incl_NoDup Hnd).
    + unfold Dict.keys. rewrite !length_map. lia.
    + intros k Hk. apply Hin in Hk as [[]|Hk]. exact Hk.
Qed.

(** ** The column count and the first file *)

(** X6. [cols] is decided by the first file alone: it is 1 when the first
    squeezed encoding has rank 1 and the length of its first axis otherwise,
    whatever the later files encode to. *)
Theorem cols_is_decided_by_the_first_file :
  forall (model_path audio_dir : string) (output_json : pyval)
         (n_components sr : nat) (method : pyval) (skip : bool)
         (osc_client : option udp_client) (osc_address : option string)
         (w w' : World) (p : string),
    process_audio_files model_path audio_dir output_json n_components sr method
      skip osc_client osc_address w = (Ok (Some p), w') ->
    exists art rave names f rest z,
      files w' = (p, art) :: files w /\
      torch_jit_load model_path = Ok rave /\
      os_listdir audio_dir = Ok names /\
      eligible_files audio_dir names = f :: rest /\
      encode_file rave sr f = Ok z /\
      shape z <> [] /\
      cols art = Some (if Np.ndim z =? 1 then 1 else hd 0 (shape z)).
Proof.
  intros model_path audio_dir output_json n_components sr method skip
         osc_client osc_address w w' p H.
  apply process_audio_files_Some in H
    as (rave & names & st & reduced & Hload & Hlist & Hne & Hloop & _ & _
        & Hfiles & _).
  fold (eligible_files audio_dir names) in Hloop.
  destruct (eligible_files audio_dir names) as [|f rest] eqn:Hel.
  { unfold eligible_files in Hel. apply map_eq_nil in Hel. contradiction. }
  simpl in Hloop. apply rbind_Ok in Hloop as (st1 & Hstep & Hloop).
  unfold encode_step in Hstep.
  apply rbind_Ok in Hstep as (z & Hz & Hstep).
  apply rbind_Ok in Hstep as (zn & Hzn & Hstep).
  inversion Hstep; subst st1; clear Hstep.
  eexists; exists rave, names, f, rest, z.
  split; [exact Hfiles|]. split; [exact Hload|]. split; [exact Hlist|].
  split; [exact Hel|]. split; [exact Hz|]. simpl.
  unfold mean_vector in Hzn. simpl in Hzn.
  destruct (Np.ndim z =? 1) eqn:Erank.
  - inversion Hzn; subst zn. simpl in Hloop. split.
    + intros Hsh. unfold Np.ndim in Erank. rewrite Hsh in Erank. discriminate.
    + apply (encode_loop_keeps_num_dimensions _ _ _ _ _ _ Hloop). reflexivity.
  - destruct (shape z) as [|d0 sh] eqn:Hsh; [discriminate|].
    simpl in Hzn. apply rbind_Ok in Hzn as (z_mean & _ & Hzn).
    inversion Hzn; subst zn. simpl in Hloop. split; [discriminate|].
    apply (encode_loop_keeps_num_dimensions _ _ _ _ _ _ Hloop). reflexivity.
Qed.

(** ** Rows of the reduced matrix *)

Lemma fill_reduced_get_other latent_reduced (k : string) :
  forall keys i reduced rd,
    fill_reduced i keys latent_reduced reduced = Ok rd ->
    ~ In k keys -> Dict.get k rd = Dict.get k reduced.
Proof.
  induction keys as [|k0 rest IH]; simpl; intros i reduced rd H Hk.
  - inversion H; subst. reflexivity.
  - apply rbind_Ok in H as (row & _ & H).
    rewrite (IH _ _ _ H) by tauto.
    apply get_set_other. intros ->. apply Hk. now left.
Qed.

Lemma fill_reduced_row latent_reduced :
  forall keys i reduced rd,
    fill_reduced i keys latent_reduced reduced = Ok rd ->
    NoDup keys ->
    forall j k, nth_error keys j = Some k ->
      exists row, Np.getitem latent_reduced (i + j) = Ok row /\
                  Dict.get k rd = Some (tolist row).
Proof.
  induction keys as [|k0 rest IH]; simpl; intros i reduced rd H Hnd j k Hj.
  - destruct j; discriminate.
  - apply rbind_Ok in H as (row & Hrow & H).
    inversion Hnd as [|? ? Hk0 Hrest]; subst.
    destruct j as [|j]; simpl in Hj.
    + inversion Hj; subst k0. exists row. rewrite Nat.add_0_r.
      split; [exact Hrow|].
      rewrite (fill_reduced_get_other _ _ _ _ _ _ H Hk0).
      apply get_set_same.
    + destruct (IH _ _ _ H Hrest j k Hj) as (row' & Hrow' & Hget).
      exists row'. split; [|exact Hget].
      replace (i + S j) with (S i + j) by lia. exact Hrow'.
Qed.

(** The reduction of a completed job, step by step: the matrix stacked from
    the files' vectors, the reducer the selector chooses, the scaling of the
    t-SNE and UMAP embeddings, and the rows written under the keys of
    [data]. *)
Lemma reduction_of_job :
  forall (model_path audio_dir : string) (output_json : pyval)
         (n_components sr : nat) (method : pyval)
         (osc_client : option udp_client) (osc_address : option string)
         (w w' : World) (p : string),
    process_audio_files model_path audio_dir output_json n_components sr method
      false osc_client osc_address w = (Ok (Some p), w') ->
    exists art rd rave names lv latent_matrix fitted latent_reduced,
      files w' = (p, art) :: files w /\
      reduced_data art = Some rd /\
      torch_jit_load model_path = Ok rave /\
      os_listdir audio_dir = Ok names /\
      Forall2 (fun f v => exists z, encode_file rave sr f = Ok z /\
                                    latent_vector_of z = Ok v)
              (eligible_files audio_dir names) lv /\
      Np.array lv = Ok latent_matrix /\
      reducer_for method 2 latent_matrix = Ok fitted /\
      (if py_eq_str method "tsne" || py_eq_str method "umap"
       then scale_to_5 fitted = Ok latent_reduced
       else latent_reduced = fitted) /\
      fill_reduced 0 (Dict.keys (data art)) latent_reduced [] = Ok rd /\
      NoDup (Dict.keys (data art)) /\
      (NoDup (map file_key (eligible_files audio_dir names)) ->
       Dict.keys (data art) = map file_key (eligible_files audio_dir names)).
Proof.
  intros model_path audio_dir output_json n_components sr method
         osc_client osc_address w w' p H.
  apply process_audio_files_Some in H
    as (rave & names & st & reduced & Hload & Hlist & _ & Hloop & Hred & _
        & Hfiles & _).
  destruct Hred as (rd & w1 & w2 & Hrs & ->).
  apply reduce_stage_Ok in Hrs as (m & fitted & lr & Hm & Hfit & Hfill).
  fold (eligible_files audio_dir names) in Hloop.
  destruct (encode_loop_vectors _ _ _ _ _ Hloop) as (lv & Hlv & Hall).
  simpl in Hlv. rewrite Hlv in Hm.
  destruct (encode_loop_keys _ _ _ _ _ Hloop) as [Hnd _]; [constructor|].
  eexists; exists rd, rave, names, lv, m, fitted, lr.
  split; [exact Hfiles|]. split; [reflexivity|]. split; [exact Hload|].
  split; [exact Hlist|]. split; [exact Hall|]. split; [exact Hm|].
  cbn [data]. unfold reducer_for.
  destruct Hfit as [(-> & Hf & Hs) | [(-> & -> & Hf & Hs) | (-> & -> & Hf & ->)]];
    cbn [orb]; (split; [exact Hf|]); (split; [assumption || reflexivity|]);
    (split; [exact Hfill|]); (split; [exact Hnd|]);
    intros Hdistinct;
    exact (encode_loop_keys_in_order _ _ _ _ _ Hloop Hdistinct).
Qed.

(** X7. Entry [j] of [reduced_data] is row [j] of the reduced matrix, where
    the reduced matrix is what the selected reducer returns, with two
    components, for the matrix stacked from the files' vectors in listing
    order, scaled when the method is "tsne" or "umap": the [j]-th key of
    [data] maps to [latent_reduced[j].tolist()].  When the identifiers of the
    files are distinct, this is the row of the [j]-th file. *)
Theorem reduced_entry_j_is_matrix_row_j :
  forall (model_path audio_dir : string) (output_json : pyval)
         (n_components sr : nat) (method : pyval)
         (osc_client : option udp_client) (osc_address : option string)
         (w w' : World) (p : string),
    process_audio_files model_path audio_dir output_json n_components sr method
      false osc_client osc_address w = (Ok (Some p), w') ->
    exists art rd rave names lv latent_matrix fitted latent_reduced,
      files w' = (p, art) :: files w /\
      reduced_data art = Some rd /\
      torch_jit_load model_path = Ok rave /\
      os_listdir audio_dir = Ok names /\
      Forall2 (fun f v => exists z, encode_file rave sr f = Ok z /\
                                    latent_vector_of z = Ok v)
              (eligible_files audio_dir names) lv /\
      Np.array lv = Ok latent_matrix /\
      reducer_for method 2 latent_matrix = Ok fitted /\
      (if py_eq_str method "tsne" || py_eq_str method "umap"
       then scale_to_5 fitted = Ok latent_reduced
       else latent_reduced = fitted) /\
      (forall j k, nth_error (Dict.keys (data art)) j = Some k ->
         exists row, Np.getitem latent_reduced j = Ok row /\
                     Dict.get k rd = Some (tolist row)) /\
      (NoDup (map file_key (eligible_files audio_dir names)) ->
       forall j f, nth_error (eligible_files audio_dir names) j = Some f ->
         exists row, Np.getitem latent_reduced j = Ok row /\
                     Dict.get (file_key f) rd = Some (tolist row)).
Proof.
  intros model_path audio_dir output_json n_components sr method
         osc_client osc_address w w' p H.
  destruct (reduction_of_job _ _ _ _ _ _ _ _ _ _ _ H)
    as (art & rd & rave & names & lv & m & fitted & lr & Hfiles & Hrd & Hload
        & Hlist & Hall & Hm & Hfit & Hscale & Hfill & Hnd & Hkeys).
  exists art, rd, rave, names, lv, m, fitted, lr.
  split; [exact Hfiles|]. split; [exact Hrd|]. split; [exact Hload|].
  split; [exact Hlist|]. split; [exact Hall|]. split; [exact Hm|].
  split; [exact Hfit|]. split; [exact Hscale|]. split.
  - intros j k Hj.
    exact (fill_reduced_row _ _ _ _ _ Hfill Hnd j k Hj).
  - intros Hdistinct j f Hj.
    apply (fill_reduced_row _ _ _ _ _ Hfill Hnd j).
    rewrite (Hkeys Hdistinct). now apply map_nth_error.
Qed.

End DatasetFacts.

(** ** Scaling of the reduced coordinates *)

(** C3 (as the code has it). In a completed job that did not skip the
    reduction, with [latent_matrix] the matrix stacked from the files'
    vectors and [fitted] what the reducer of the method returns for it with
    two components, entry [j] of [reduced_data] is row [j] of
    [latent_reduced], where
    - for method "tsne" or "umap", with [max_val] the largest magnitude in
      [fitted]: if [max_val == 0], [latent_reduced] is [fitted] unchanged;
      otherwise it has the shape of [fitted] and each of its elements is the
      fitted element multiplied by the one factor [5.0 / max_val];
    - for method "pca", [latent_reduced] is [fitted] unchanged.
    This holds in every arithmetic, the division and the products being
    those of that arithmetic.  In exact arithmetic [max_val] bounds every
    magnitude of [fitted] and is one of them, and after the multiplication
    every magnitude is at most 5 and the largest is 5. *)
Theorem C3_tsne_umap_scaled_by_5_over_max_pca_unscaled :
  (forall (N : Num) (E : @Env N)
          (model_path audio_dir : string) (output_json : pyval)
          (n_components sr : nat) (method : pyval)
          (osc_client : option udp_client) (osc_address : option string)
          (w w' : World) (p : string),
      process_audio_files model_path audio_dir output_json n_components sr
        method false osc_client osc_address w = (Ok (Some p), w') ->
      exists art rd rave names lv latent_matrix fitted latent_reduced,
        files w' = (p, art) :: files w /\
        reduced_data art = Some rd /\
        torch_jit_load model_path = Ok rave /\
        os_listdir audio_dir = Ok names /\
        Forall2 (fun f v => exists z, encode_file rave sr f = Ok z /\
                                      latent_vector_of z = Ok v)
                (eligible_files audio_dir names) lv /\
        Np.array lv = Ok latent_matrix /\
        fill_reduced 0 (Dict.keys (data art)) latent_reduced [] = Ok rd /\
        (forall j k, nth_error (Dict.keys (data art)) j = Some k ->
           exists row, Np.getitem latent_reduced j = Ok row /\
                       Dict.get k rd = Some (tolist row)) /\
        (method = PStr "tsne" ->
         TSNE_fit_transform 2 latent_matrix = Ok fitted) /\
        (method = PStr "umap" ->
         UMAP_fit_transform 2 latent_matrix = Ok fitted) /\
        (method = PStr "tsne" \/ method = PStr "umap" ->
         exists max_val,
           Np.abs_max fitted = Ok max_val /\
           (nis_zero max_val = true -> latent_reduced = fitted) /\
           (nis_zero max_val = false ->
            latent_reduced = Np.mul fitted (ndiv nfive max_val) /\
            shape latent_reduced = shape fitted /\
            flat latent_reduced
            = map (fun x => nmul x (ndiv nfive max_val)) (flat fitted))) /\
        (method = PStr "pca" ->
         PCA_fit_transform 2 latent_matrix = Ok fitted /\
         latent_reduced = fitted)) /\
  (forall (fitted : @ndarray Qnum) (max_val : Q),
      Np.abs_max fitted = Ok max_val -> ~ (max_val == 0)%Q ->
      (forall x, In x (flat fitted) -> (Qabs x <= max_val)%Q) /\
      (exists x, In x (flat fitted) /\ max_val = Qabs x) /\
      scale_to_5 fitted = Ok (Np.mul fitted (5 / max_val)%Q) /\
      (exists m' : Q,
          Np.abs_max (Np.mul fitted (5 / max_val)%Q) = Ok m' /\ (m' == 5)%Q) /\
      (forall y, In y (flat (Np.mul fitted (5 / max_val)%Q)) ->
                 (Qabs y <= 5)%Q) /\
      (exists y, In y (flat (Np.mul fitted (5 / max_val)%Q)) /\
                 (Qabs y == 5)%Q)).
Proof.
  split.
  - intros N E model_path audio_dir output_json n_components sr method
           osc_client osc_address w w' p H.
    destruct (reduction_of_job _ _ _ _ _ _ _ _ _ _ _ H)
      as (art & rd & rave & names & lv & m & fitted & lr & Hfiles & Hrd & Hload
          & Hlist & Hall & Hm & Hfit & Hscale & Hfill & Hnd & _).
    exists art, rd, rave, names, lv, m, fitted, lr.
    split; [exact Hfiles|]. split; [exact Hrd|]. split; [exact Hload|].
    split; [exact Hlist|]. split; [exact Hall|]. split; [exact Hm|].
    split; [exact Hfill|].
    split; [exact (fill_reduced_row _ _ _ _ _ Hfill Hnd)|].
    split; [intros ->; exact Hfit|]. split; [intros ->; exact Hfit|].
    split.
    + intros Hmethod.
      assert (Hs : scale_to_5 fitted = Ok lr)
        by (destruct Hmethod as [-> | ->]; exact Hscale).
      apply scale_to_5_cases in Hs as (max_val & Hmax & Hz & Hnz).
      exists max_val. split; [exact Hmax|]. split; [exact Hz|].
      intros Hn. rewrite (Hnz Hn). repeat split.
    + intros ->. split; [exact Hfit | exact Hscale].
  - intros fitted max_val Hmax Hnz.
    split; [exact (proj1 (abs_max_spec _ _ Hmax))|].
    split; [exact (proj2 (abs_max_spec _ _ Hmax))|].
    split; [|split].
    + unfold scale_to_5. rewrite Hmax. simpl.
      destruct (Qeq_bool max_val 0) eqn:Ez; [|reflexivity].
      apply Qeq_bool_iff in Ez. contradiction.
    + now apply abs_max_after_scaling.
    + now apply magnitudes_after_scaling.
Qed.


(** ** Where the artifact is written *)

Lemma str_length_app (a b : string) :
  String.length (a ++ b) = String.length a + String.length b.
Proof. induction a as [|c a IH]; simpl; [reflexivity | now rewrite IH]. Qed.

Lemma str_app_assoc (a b c : string) :
  ((a ++ b) ++ c)%string = (a ++ (b ++ c))%string.
Proof. induction a as [|x a IH]; simpl; [reflexivity | now rewrite IH]. Qed.

Lemma lower_app (a b : string) :
  PyStr.lower (a ++ b) = (PyStr.lower a ++ PyStr.lower b)%string.
Proof. induction a as [|c a IH]; simpl; [reflexivity | now rewrite IH]. Qed.

Lemma endswith_app (s suf : string) : PyStr.endswith (s ++ suf) suf = true.
Proof.
  unfold PyStr.endswith. rewrite str_length_app.
  destruct (Nat.leb_spec (String.length suf)
              (String.length s + String.length suf)) as [_|Hlt]; [|lia].
  replace (String.length s + String.length suf - String.length suf)
    with (String.length s) by lia.
  rewrite drop_append. apply String.eqb_refl.
Qed.

Lemma isabs_app_json (s : string) :
  PyStr.isabs (s ++ ".json") = PyStr.isabs s.
Proof.
  unfold PyStr.isabs, PyStr.startswith.
  destruct s as [|c s]; [reflexivity|].
  cbn [String.append String.prefix].
  destruct (ascii_dec "/" c); [|reflexivity].
  now destruct s.
Qed.

Lemma contains_before_first_dot (s : string) :
  PyStr.contains "." (PyStr.before_first_dot s) = false.
Proof.
  induction s as [|c s IH]; [reflexivity|].
  cbn [PyStr.before_first_dot].
  destruct (Ascii.eqb_spec c ".") as [->|Hne]; [reflexivity|].
  cbn [PyStr.contains].
  destruct (Ascii.eqb_spec "." c) as [Heq|_]; [congruence | exact IH].
Qed.

Lemma contains_basename (p : string) :
  PyStr.contains "/" (PyStr.basename p) = false.
Proof.
  induction p as [|c p IH]; [reflexivity|].
  cbn [PyStr.basename].
  destruct (PyStr.contains "/" p) eqn:Hc; [exact IH|].
  destruct (Ascii.eqb_spec c "/") as [->|Hne]; [exact Hc|].
  cbn [PyStr.contains].
  destruct (Ascii.eqb_spec "/" c) as [Heq|_]; [congruence | exact Hc].
Qed.

Lemma contains_slash_before_first_dot (s : string) :
  PyStr.contains "/" s = false ->
  PyStr.contains "/" (PyStr.before_first_dot s) = false.
Proof.
  induction s as [|c s IH]; [reflexivity|].
  cbn [PyStr.contains PyStr.before_first_dot].
  destruct (Ascii.eqb_spec "/" c) as [_|Hne]; [discriminate|]. intros Hs.
  destruct (Ascii.eqb_spec c "."); [reflexivity|].
  cbn [PyStr.contains].
  destruct (Ascii.eqb_spec "/" c); [contradiction | auto].
Qed.

Section PathFacts.
Context {N : Num} {E : Env}.

Lemma resolve_output_json_str (s model_path : string) (method : pyval)
  (skip : bool) :
  resolve_output_json (PStr s) model_path method skip
  = Ok (let name := if PyStr.endswith (PyStr.lower s) ".json"
                    then s else (s ++ ".json")%string in
        if PyStr.isabs s then name else os_path_abspath name).
Proof.
  unfold resolve_output_json.
  destruct (PyStr.endswith (PyStr.lower s) ".json"); simpl.
  - destruct (PyStr.isabs s); reflexivity.
  - rewrite isabs_app_json. destruct (PyStr.isabs s); reflexivity.
Qed.

(** X8. A supplied output path is completed with ".json" unless it already
    ends in ".json" in some letter case, so the name always ends in ".json"
    case-insensitively; an absolute path is then used as it is and a
    relative one is handed to [os.path.abspath]. *)
Theorem supplied_output_path_ends_in_json :
  forall (model_path audio_dir s : string)
         (n_components sr : nat) (method : pyval) (skip : bool)
         (osc_client : option udp_client) (osc_address : option string)
         (w w' : World) (p : string),
    process_audio_files model_path audio_dir (PStr s) n_components sr method
      skip osc_client osc_address w = (Ok (Some p), w') ->
    exists name,
      (name = s \/ name = (s ++ ".json")%string) /\
      (name = s <-> PyStr.endswith (PyStr.lower s) ".json" = true) /\
      PyStr.endswith (PyStr.lower name) ".json" = true /\
      PyStr.isabs name = PyStr.isabs s /\
      p = (if PyStr.isabs s then name else os_path_abspath name) /\
      exists art, files w' = (p, art) :: files w.
Proof.
  intros model_path audio_dir s n_components sr method skip
         osc_client osc_address w w' p H.
  apply process_audio_files_Some in H
    as (rave & names & st & reduced & _ & _ & _ & _ & _ & Hpath & Hfiles & _).
  rewrite resolve_output_json_str in Hpath. cbv zeta in Hpath.
  inversion Hpath as [Hp]. clear Hpath. subst p.
  destruct (PyStr.endswith (PyStr.lower s) ".json") eqn:Hends.
  - exists s. repeat split; eauto.
  - exists (s ++ ".json")%string. repeat split; eauto.
    + intros Heq. exfalso.
      assert (Hl : String.length (s ++ ".json") = String.length s)
        by now rewrite Heq.
      rewrite str_length_app in Hl. simpl in Hl. lia.
    + discriminate.
    + rewrite lower_app. apply endswith_app.
    + apply isabs_app_json.
Qed.

(** X9. Without an output path the artifact goes to [os.path.abspath] of a
    default name built from the model file name up to its first dot (a stem
    without dot or slash): "latent_vectors_<stem>.json" when the reduction is
    skipped, whatever the method, and "2D_<method>_latent_mapping_<stem>.json"
    otherwise. *)
Theorem default_output_path :
  forall (model_path audio_dir : string)
         (n_components sr : nat) (method : pyval) (skip : bool)
         (osc_client : option udp_client) (osc_address : option string)
         (w w' : World) (p : string),
    process_audio_files model_path audio_dir PNone n_components sr method
      skip osc_client osc_address w = (Ok (Some p), w') ->
    exists stem,
      stem = PyStr.before_first_dot (PyStr.basename model_path) /\
      PyStr.contains "." stem = false /\
      PyStr.contains "/" stem = false /\
      p = os_path_abspath
            (if skip then ("latent_vectors_" ++ stem ++ ".json")%string
             else ("2D_" ++ py_str method ++ "_latent_mapping_" ++ stem
                     ++ ".json")%string).
Proof.
  intros model_path audio_dir n_components sr method skip
         osc_client osc_address w w' p H.
  apply process_audio_files_Some in H
    as (rave & names & st & reduced & _ & _ & _ & _ & _ & Hpath & _).
  eexists. split; [reflexivity|].
  split; [apply contains_before_first_dot|].
  split; [apply contains_slash_before_first_dot, contains_basename|].
  unfold resolve_output_json in Hpath.
  destruct skip; simpl in Hpath; inversion Hpath; reflexivity.
Qed.

(** X10. An output path that is neither absent nor a string (an OSC
    integer, float, boolean or blob) makes the job unable to complete: it
    never returns a path, writes no file and sends nothing. *)
Theorem non_string_output_path_never_completes :
  forall (model_path audio_dir : string) (output_json : pyval)
         (n_components sr : nat) (method : pyval) (skip : bool)
         (osc_client : option udp_client) (osc_address : option string)
         (w w' : World) (r : result (option string)),
    output_json <> PNone -> (forall s, output_json <> PStr s) ->
    process_audio_files model_path audio_dir output_json n_components sr method
      skip osc_client osc_address w = (r, w') ->
    (forall p, r <> Ok (Some p)) /\
    files w' = files w /\ osc_sent w' = osc_sent w.
Proof.
  intros model_path audio_dir output_json n_components sr method skip
         osc_client osc_address w w' r Hnone Hstr H.
  assert (Hres : exists e, resolve_output_json output_json model_path method
                             skip = Raise e).
  { unfold resolve_output_json.
    destruct output_json; simpl; eauto;
      [congruence | exfalso; eapply Hstr; eauto]. }
  destruct r as [[p|]|e].
  - exfalso. apply process_audio_files_Some in H
      as (rave & names & st & reduced & _ & _ & _ & _ & _ & Hpath & _).
    destruct Hres as [e He]. congruence.
  - apply process_audio_files_None in H as (rave & names & _ & _ & _ & ->).
    simpl. repeat split; auto. discriminate.
  - apply process_audio_files_Raise in H as (F & O & _).
    repeat split; auto. discriminate.
Qed.

End PathFacts.

(** ** The control plane *)

Lemma substring_drop (n : nat) (s : string) :
  (String.substring 0 n s ++ PyStr.drop n s)%string = s.
Proof.
  revert s. induction n as [|n IH]; intros s.
  - destruct s; reflexivity.
  - destruct s as [|c s]; [reflexivity|]. simpl. now rewrite IH.
Qed.

Lemma prefix_split (p s : string) :
  String.prefix p s = true ->
  s = (p ++ PyStr.drop (String.length p) s)%string.
Proof.
  intros H. apply String.prefix_correct in H.
  pose proof (substring_drop (String.length p) s) as Hs.
  rewrite H in Hs. now symmetry.
Qed.

Section ServerFacts.
Context {N : Num} {E : Env}.

#[local] Arguments Np.zeros_1_1_n : simpl never.

(** X11. Path normalisation removes exactly one leading "Macintosh HD:"
    and nothing else: a string that starts with the prefix loses it once, any
    other string is returned unchanged, and a value that is not a string
    raises. *)
Theorem strip_volume_removes_one_leading_prefix :
  (forall s,
      exists s',
        strip_volume (PStr s) = Ok s' /\
        ((PyStr.startswith s "Macintosh HD:" = true /\
          s = ("Macintosh HD:" ++ s')%string) \/
         (PyStr.startswith s "Macintosh HD:" = false /\ s' = s))) /\
  (forall s, strip_volume (PStr ("Macintosh HD:Macintosh HD:" ++ s))
             = Ok ("Macintosh HD:" ++ s)%string) /\
  (forall v, (forall s, v <> PStr s) -> exists e, strip_volume v = Raise e).
Proof.
  split; [|split].
  - intros s. unfold strip_volume.
    destruct (PyStr.startswith s "Macintosh HD:") eqn:Hp.
    + eexists. split; [reflexivity|]. left. split; [reflexivity|].
      rewrite (replace_first_prefix _ _ Hp).
      apply (prefix_split "Macintosh HD:" s Hp).
    + eexists. split; [reflexivity|]. right. auto.
  - intros s.
    change ("Macintosh HD:Macintosh HD:" ++ s)%string
      with ("Macintosh HD:" ++ ("Macintosh HD:" ++ s))%string.
    apply strip_volume_prefixed.
  - intros v Hv. destruct v; simpl; eauto. exfalso. eapply Hv; eauto.
Qed.

(** The three outcomes of [handle_process_request]. *)
Lemma handle_process_request_run (address : string) (args : list pyval)
  (w : World) :
  2 <= length args ->
  handle_process_request address args w
  = match strip_volume (nth 0 args PNone) with
    | Raise e => (Raise e, w)
    | Ok audio_dir =>
        match strip_volume (nth 1 args PNone) with
        | Raise e => (Raise e, w)
        | Ok model_path =>
            (Ok tt,
             MkWorld
               (("Processing audio files in " ++ audio_dir ++ " with model "
                   ++ model_path)%string :: console w)
               (files w) (osc_sent w)
               (ProcessThread
                  (MkJob model_path audio_dir (nth 2 args PNone)
                         (nth 3 args (PStr "pca"))
                         (py_bool (nth 4 args PNone)))
                  :: threads w))
        end
    end.
Proof.
  intros Hlen. unfold handle_process_request.
  destruct (Nat.ltb_spec (length args) 2) as [Hlt|_]; [lia|].
  cbv [bind lift].
  destruct (strip_volume (nth 0 args PNone)) as [audio_dir|e]; [|reflexivity].
  destruct (strip_volume (nth 1 args PNone)) as [model_path|e]; [|reflexivity].
  assert (H2 : (if 2 <? length args then nth 2 args PNone else PNone)
               = nth 2 args PNone).
  { destruct (Nat.ltb_spec 2 (length args)); [reflexivity|].
    symmetry. apply nth_overflow. lia. }
  assert (H3 : (if 3 <? length args then nth 3 args PNone else PStr "pca")
               = nth 3 args (PStr "pca")).
  { destruct (Nat.ltb_spec 3 (length args)).
    - apply nth_indep. lia.
    - symmetry. apply nth_overflow. lia. }
  assert (H4 : (if 4 <? length args then py_bool (nth 4 args PNone) else false)
               = py_bool (nth 4 args PNone)).
  { destruct (Nat.ltb_spec 4 (length args)); [reflexivity|].
    rewrite nth_overflow by lia. reflexivity. }
  rewrite H2, H3, H4. reflexivity.
Qed.

(** X12. A process request whose two paths are strings starts exactly one
    worker and does nothing else but print one line.  The job takes the
    normalised paths, the third argument as output path (absent: None), the
    fourth as method (absent: "pca") and the truth value of the fifth as skip
    flag (absent: false); arguments after the fifth are ignored. *)
Theorem process_request_starts_one_job_with_defaults :
  forall (address : string) (args : list pyval) (w : World)
         (audio_dir model_path : string),
    2 <= length args ->
    strip_volume (nth 0 args PNone) = Ok audio_dir ->
    strip_volume (nth 1 args PNone) = Ok model_path ->
    let job := MkJob model_path audio_dir (nth 2 args PNone)
                     (nth 3 args (PStr "pca")) (py_bool (nth 4 args PNone)) in
    (exists w',
        handle_process_request address args w = (Ok tt, w') /\
        threads w' = ProcessThread job :: threads w /\
        files w' = files w /\ osc_sent w' = osc_sent w) /\
    (length args = 2 -> job = MkJob model_path audio_dir PNone (PStr "pca") false) /\
    (5 <= length args ->
     forall extra w1,
       exists w1',
         handle_process_request address (args ++ extra) w1 = (Ok tt, w1') /\
         threads w1' = ProcessThread job :: threads w1).
Proof.
  intros address args w audio_dir model_path Hlen Ha Hm job.
  split; [|split].
  - rewrite (handle_process_request_run address args w Hlen), Ha, Hm.
    eexists. split; [reflexivity|]. simpl. auto.
  - intros H2. unfold job.
    rewrite (nth_overflow args PNone) by lia.
    rewrite (nth_overflow args (PStr "pca")) by lia.
    rewrite (nth_overflow args PNone) by lia. reflexivity.
  - intros H5 extra w1.
    rewrite (handle_process_request_run address (args ++ extra) w1)
      by (rewrite length_app; lia).
    rewrite !app_nth1 by lia. rewrite Ha, Hm.
    eexists. split; reflexivity.
Qed.

(** X13. A process request whose directory or model path is not a string
    raises inside the handler before anything is printed or started; the
    server reports the exception on the console and is otherwise unchanged. *)
Theorem process_request_with_non_string_path_is_rejected :
  forall (args : list pyval) (w : World) (e : exn),
    2 <= length args ->
    (strip_volume (nth 0 args PNone) = Raise e \/
     (exists audio_dir, strip_volume (nth 0 args PNone) = Ok audio_dir /\
                        strip_volume (nth 1 args PNone) = Raise e)) ->
    handle_process_request "/rave/process" args w = (Raise e, w) /\
    serve_message ("/rave/process", args) w
    = (Ok tt,
       MkWorld (("Exception occurred during processing of request: "
                   ++ exn_msg e)%string :: console w)
               (files w) (osc_sent w) (threads w)).
Proof.
  intros args w e Hlen Hbad.
  assert (Hh : handle_process_request "/rave/process" args w = (Raise e, w)).
  { rewrite (handle_process_request_run _ args w Hlen).
    destruct Hbad as [-> | (audio_dir & -> & ->)]; reflexivity. }
  split; [exact Hh|].
  unfold serve_message, try_except, dispatch. cbn [fst snd].
  change (String.eqb "/rave/process" "/rave/process") with true. cbv iota.
  rewrite Hh. reflexivity.
Qed.

Lemma handle_process_request_cases (address : string) (args : list pyval)
  (w : World) :
  exists r w',
    handle_process_request address args w = (r, w') /\
    files w' = files w /\ osc_sent w' = osc_sent w /\
    ((threads w' = threads w) \/
     (r = Ok tt /\ exists j, threads w' = ProcessThread j :: threads w)) /\
    (forall e, r = Raise e -> w' = w).
Proof.
  destruct (Nat.ltb_spec (length args) 2) as [Hlt|Hge].
  - do 2 eexists. split.
    + unfold handle_process_request.
      destruct (Nat.ltb_spec (length args) 2); [reflexivity | lia].
    + simpl. repeat split; auto. discriminate.
  - rewrite (handle_process_request_run address args w Hge).
    destruct (strip_volume (nth 0 args PNone)) as [audio_dir|e].
    + destruct (strip_volume (nth 1 args PNone)) as [model_path|e].
      * do 2 eexists. split; [reflexivity|]. simpl.
        repeat split; eauto. discriminate.
      * do 2 eexists. split; [reflexivity|]. repeat split; auto.
    + do 2 eexists. split; [reflexivity|]. repeat split; auto.
Qed.

Lemma serve_message_run (msg : string * list pyval) (w : World) :
  exists w',
    serve_message msg w = (Ok tt, w') /\
    files w' = files w /\ osc_sent w' = osc_sent w /\
    (threads w' = threads w \/ exists t, threads w' = t :: threads w).
Proof.
  destruct msg as [address args].
  unfold serve_message, try_except, dispatch. cbn [fst snd].
  destruct (String.eqb address "/rave/process").
  - destruct (handle_process_request_cases address args w)
      as (r & w1 & Hrun & F & O & T & Hraise).
    rewrite Hrun. destruct r as [[]|e].
    + exists w1. repeat split; auto.
      destruct T as [T | (_ & j & T)]; eauto.
    + rewrite (Hraise e eq_refl). eexists. split; [reflexivity|].
      simpl. auto.
  - destruct (String.eqb address "/rave/model/info").
    + destruct args as [|a args]; simpl; eexists; (split; [reflexivity|]);
        simpl; eauto 6.
    + eexists. split; [reflexivity|]. auto.
Qed.

(** X14. The server survives every sequence of messages: [serve] never
    raises, itself writes no file and sends no OSC message, only adds
    threads in front of the existing ones, and starts at most one thread per
    message. *)
Theorem server_survives_every_message :
  forall (msgs : list (string * list pyval)) (w : World),
    exists w' started,
      serve msgs w = (Ok tt, w') /\
      files w' = files w /\ osc_sent w' = osc_sent w /\
      threads w' = started ++ threads w /\
      length started <= length msgs.
Proof.
  induction msgs as [|m rest IH]; intros w.
  - exists w, []. simpl. repeat split; auto.
  - destruct (serve_message_run m w) as (w1 & Hm & F1 & O1 & T1).
    destruct (IH w1) as (w2 & started & Hrest & F2 & O2 & T2 & L2).
    change (serve (m :: rest) w)
      with (bind (serve_message m) (fun _ => serve rest) w).
    unfold bind. rewrite Hm, Hrest.
    destruct T1 as [T1 | [t T1]].
    + exists w2, started. repeat split; try congruence. simpl. lia.
    + exists w2, (started ++ [t]). repeat split; try congruence.
      * rewrite T2, T1, <- app_assoc. reflexivity.
      * rewrite length_app. simpl. lia.
Qed.

(** X15. [get_model_dimensions] answers the same with or without a reply
    channel: it returns the latent width, or [None] after any failure, never
    raises, writes no file and starts no thread; it sends exactly one
    message when it has a client and a non-empty address, and none
    otherwise. *)
Theorem get_model_dimensions_with_any_reply_channel :
  forall (model_path : pyval) (osc_client : option udp_client)
         (osc_address : option string) (w : World),
    exists w',
      get_model_dimensions model_path osc_client osc_address w
      = (Ok (match probe_latent_dim model_path with
             | Ok d => Some d
             | Raise _ => None
             end), w') /\
      files w' = files w /\ threads w' = threads w /\
      (osc_client = None \/ osc_address = None \/ osc_address = Some "" ->
       osc_sent w' = osc_sent w) /\
      (forall c a, osc_client = Some c -> osc_address = Some a -> a <> "" ->
         osc_sent w'
         = (a, PInt (match probe_latent_dim model_path with
                     | Ok d => Z.of_nat d
                     | Raise _ => -1
                     end)) :: osc_sent w).
Proof.
  intros model_path osc_client osc_address w.
  destruct (get_model_dimensions_run model_path osc_client osc_address w)
    as (w' & Hrun & F & T & O).
  exists w'. split; [exact Hrun|]. split; [exact F|]. split; [exact T|].
  split.
  - intros [-> | [-> | ->]]; simpl in O.
    + exact O.
    + destruct osc_client; exact O.
    + destruct osc_client; exact O.
  - intros c a -> -> Ha. simpl in O.
    destruct (String.eqb_spec a ""); [contradiction | exact O].
Qed.

(** X16. A model-info request with at least one argument is answered
    exactly once: the handler starts one worker for the first argument (the
    others are ignored), and that worker sends one message on
    "/rave/model/dimensions", the latent width or -1. *)
Theorem model_info_request_is_answered_once :
  forall (a : pyval) (more : list pyval) (osc_client : udp_client) (w : World),
    exists w1 w2,
      serve_message ("/rave/model/info", a :: more) w = (Ok tt, w1) /\
      threads w1 = ModelInfoThread a :: threads w /\
      osc_sent w1 = osc_sent w /\
      run_thread osc_client (ModelInfoThread a) w1 = (Ok tt, w2) /\
      threads w2 = threads w1 /\ files w2 = files w /\
      osc_sent w2
      = ("/rave/model/dimensions",
         PInt (match probe_latent_dim a with
               | Ok d => Z.of_nat d
               | Raise _ => -1
               end)) :: osc_sent w.
Proof.
  intros a more c w.
  set (w1 := MkWorld (("Received request for model info: " ++ py_str a)%string
                        :: console w)
                     (files w) (osc_sent w) (ModelInfoThread a :: threads w)).
  destruct (get_model_dimensions_run a (Some c)
              (Some "/rave/model/dimensions") w1) as (w2 & Hrun & F & T & O).
  exists w1, w2. split; [reflexivity|]. split; [reflexivity|].
  split; [reflexivity|]. split.
  - unfold run_thread, try_except. unfold bind at 1. rewrite Hrun. reflexivity.
  - simpl in O. auto.
Qed.

(** X17. A worker that runs a job never raises and starts no thread.  It
    leaves either nothing (no file, no message: the job failed or found no
    eligible file) or exactly one artifact together with one message on
    "/rave/processing/done" that carries the path of that artifact. *)
Theorem job_worker_leaves_nothing_or_artifact_and_notification :
  forall (j : Job) (osc_client : udp_client) (w : World),
    exists w',
      run_thread osc_client (ProcessThread j) w = (Ok tt, w') /\
      threads w' = threads w /\
      ((files w' = files w /\ osc_sent w' = osc_sent w) \/
       (exists p art,
           files w' = (p, art) :: files w /\
           osc_sent w' = ("/rave/processing/done", PStr p) :: osc_sent w)).
Proof.
  intros j c w. unfold run_thread, try_except. unfold bind at 1.
  destruct (process_audio_files (job_model_path j) (job_audio_dir j)
              (job_output_json j) 2 48000 (job_method j)
              (job_skip_dim_reduction j) (Some c)
              (Some "/rave/processing/done") w) as [r w1] eqn:Hrun.
  pose proof (process_audio_files_keeps_threads _ _ _ _ _ _ _ _ _ _ _ _ Hrun)
    as T.
  destruct r as [[p|]|e].
  - apply process_audio_files_Some in Hrun
      as (rave & names & st & reduced & _ & _ & _ & _ & _ & _ & Hfiles & Hsent).
    exists w1. split; [reflexivity|]. split; [exact T|]. right.
    simpl in Hsent. eauto.
  - apply process_audio_files_None in Hrun as (rave & names & _ & _ & _ & ->).
    eexists. split; [reflexivity|]. simpl. auto.
  - apply process_audio_files_Raise in Hrun as (F & O & _).
    eexists. split; [reflexivity|]. simpl. auto.
Qed.

End ServerFacts.

(** ** Eligible names and file identifiers *)

Lemma str_length_lower (s : string) :
  String.length (PyStr.lower s) = String.length s.
Proof. induction s as [|c s IH]; simpl; [reflexivity | now rewrite IH]. Qed.

Lemma lower_drop (n : nat) (s : string) :
  PyStr.lower (PyStr.drop n s) = PyStr.drop n (PyStr.lower s).
Proof.
  revert s. induction n as [|n IH]; intros s; [reflexivity|].
  destruct s as [|c s]; [reflexivity | apply IH].
Qed.

Lemma endswith_split (s suf : string) :
  PyStr.endswith s suf = true ->
  s = (String.substring 0 (String.length s - String.length suf) s ++ suf)%string.
Proof.
  unfold PyStr.endswith.
  destruct (String.length suf <=? String.length s); [|discriminate].
  intros H. apply String.eqb_eq in H.
  pose proof (substring_drop (String.length s - String.length suf) s) as Hs.
  rewrite H in Hs. now symmetry.
Qed.

(** X18. A listed name is eligible exactly when it is some stem followed by
    an extension that lower-cases to ".wav": ".wav", ".WAV", ".Wav" and the
    like, and nothing else. *)
Theorem is_wav_iff_extension_lowers_to_wav :
  forall f : string,
    is_wav f = true <->
    exists stem ext, f = (stem ++ ext)%string /\ PyStr.lower ext = ".wav".
Proof.
  intros f. unfold is_wav. split.
  - intros H.
    exists (String.substring 0 (String.length f - 4) f),
           (PyStr.drop (String.length f - 4) f).
    split; [symmetry; apply substring_drop|].
    rewrite lower_drop. unfold PyStr.endswith in H.
    rewrite str_length_lower in H. simpl String.length in H.
    destruct (4 <=? String.length f); [|discriminate].
    now apply String.eqb_eq in H.
  - intros (stem & ext & -> & Hext).
    rewrite lower_app, Hext. apply endswith_app.
Qed.

Lemma contains_app_slash (a b : string) :
  PyStr.contains "/" (a ++ String "/" b) = true.
Proof.
  induction a as [|c a IH]; [reflexivity|].
  cbn [String.append PyStr.contains].
  destruct (Ascii.eqb "/" c); [reflexivity | exact IH].
Qed.

Lemma basename_no_slash (f : string) :
  PyStr.contains "/" f = false -> PyStr.basename f = f.
Proof.
  destruct f as [|c f]; [reflexivity|].
  cbn [PyStr.contains PyStr.basename].
  destruct (Ascii.eqb_spec "/" c) as [|Hne]; [discriminate|].
  intros ->. destruct (Ascii.eqb_spec c "/"); [congruence | reflexivity].
Qed.

Lemma basename_app_slash (a f : string) :
  PyStr.contains "/" f = false ->
  PyStr.basename (a ++ String "/" f) = f.
Proof.
  intros Hf. induction a as [|c a IH].
  - cbn [String.append PyStr.basename]. rewrite Hf. reflexivity.
  - cbn [String.append PyStr.basename].
    rewrite contains_app_slash. exact IH.
Qed.

Lemma startswith_slash_contains (f : string) :
  PyStr.contains "/" f = false -> PyStr.startswith f "/" = false.
Proof.
  destruct f as [|c f]; [reflexivity|].
  unfold PyStr.startswith. cbn [PyStr.contains String.prefix].
  destruct (Ascii.eqb_spec "/" c) as [|Hne]; [discriminate|]. intros _.
  destruct (ascii_dec "/" c); [contradiction | reflexivity].
Qed.

Lemma file_key_ignores_the_directory_aux (audio_dir f : string) :
  PyStr.contains "/" f = false ->
  PyStr.basename (PyStr.join audio_dir f) = f /\
  file_key (PyStr.join audio_dir f) = fst (PyStr.splitext f).
Proof.
  intros Hf.
  assert (Hb : PyStr.basename (PyStr.join audio_dir f) = f).
  { unfold PyStr.join. rewrite (startswith_slash_contains f Hf).
    destruct (String.eqb_spec audio_dir "") as [->|Hne]; simpl orb.
    - simpl. now apply basename_no_slash.
    - destruct (PyStr.endswith audio_dir "/") eqn:Hend.
      + apply endswith_split in Hend.
        set (pre := String.substring 0 _ audio_dir) in Hend.
        rewrite Hend, str_app_assoc.
        cbn [String.append]. now apply basename_app_slash.
      + now apply basename_app_slash. }
  split; [exact Hb|]. unfold file_key. now rewrite Hb.
Qed.

(** X19. The identifier of a file depends on the listed name only, not on
    the directory: for a name without a slash, the base name of the joined
    path is the name itself, whether or not the directory ends in a slash
    or is empty. *)
Theorem file_key_ignores_the_directory :
  forall audio_dir f : string,
    PyStr.contains "/" f = false ->
    PyStr.basename (PyStr.join audio_dir f) = f /\
    file_key (PyStr.join audio_dir f) = fst (PyStr.splitext f).
Proof.
  intros audio_dir f Hf.
  exact (file_key_ignores_the_directory_aux audio_dir f Hf).
Qed.

Lemma lower_ascii_dot (c : ascii) :
  PyStr.lower_ascii c = "."%char -> c = "."%char.
Proof.
  destruct c as [[] [] [] [] [] [] [] []]; vm_compute; intros H;
    try reflexivity; discriminate.
Qed.

Lemma lower_ascii_not_dot (c d : ascii) :
  PyStr.lower_ascii c = d -> d <> "."%char -> d <> "/"%char ->
  c <> "."%char /\ c <> "/"%char.
Proof.
  intros H Hd Hs. split; intros ->; vm_compute in H; congruence.
Qed.

(** An extension that lower-cases to ".wav" is a dot and three characters
    that are neither a dot nor a slash. *)
Lemma wav_extension (ext : string) :
  PyStr.lower ext = ".wav" ->
  exists rest,
    ext = String "." rest /\
    PyStr.contains "." rest = false /\ PyStr.contains "/" rest = false.
Proof.
  destruct ext as [|c0 [|c1 [|c2 [|c3 [|c4 ext]]]]]; simpl; try discriminate.
  intros H. injection H as H0 H1 H2 H3.
  apply lower_ascii_dot in H0. subst c0.
  destruct (lower_ascii_not_dot c1 "w" H1) as [D1 S1]; try discriminate.
  destruct (lower_ascii_not_dot c2 "a" H2) as [D2 S2]; try discriminate.
  destruct (lower_ascii_not_dot c3 "v" H3) as [D3 S3]; try discriminate.
  exists (String c1 (String c2 (String c3 EmptyString))).
  split; [reflexivity|].
  cbn [PyStr.contains].
  destruct (Ascii.eqb_spec "." c1); [congruence|].
  destruct (Ascii.eqb_spec "." c2); [congruence|].
  destruct (Ascii.eqb_spec "." c3); [congruence|].
  destruct (Ascii.eqb_spec "/" c1); [congruence|].
  destruct (Ascii.eqb_spec "/" c2); [congruence|].
  destruct (Ascii.eqb_spec "/" c3); [congruence|].
  auto.
Qed.

Lemma rfind_from_app (c : ascii) (a b : string) :
  forall i last,
    PyStr.rfind_from c (a ++ b) i last
    = PyStr.rfind_from c b (i + Z.of_nat (String.length a))%Z
        (PyStr.rfind_from c a i last).
Proof.
  induction a as [|d a IH]; intros i last.
  - simpl. now rewrite Z.add_0_r.
  - cbn [String.append PyStr.rfind_from String.length]. rewrite IH.
    f_equal. lia.
Qed.

Lemma rfind_from_absent (c : ascii) (s : string) :
  PyStr.contains c s = false ->
  forall i last, PyStr.rfind_from c s i last = last.
Proof.
  induction s as [|d s IH]; intros H i last; [reflexivity|].
  cbn [PyStr.contains] in H. cbn [PyStr.rfind_from].
  destruct (Ascii.eqb c d); [discriminate|]. now apply IH.
Qed.

Lemma contains_app (c : ascii) (a b : string) :
  PyStr.contains c (a ++ b) = orb (PyStr.contains c a) (PyStr.contains c b).
Proof.
  induction a as [|d a IH]; [reflexivity|].
  cbn [String.append PyStr.contains].
  destruct (Ascii.eqb c d); [reflexivity | exact IH].
Qed.

Lemma substring_app_length (a b : string) :
  String.substring 0 (String.length a) (a ++ b) = a.
Proof.
  induction a as [|c a IH]; simpl.
  - now destruct b.
  - now rewrite IH.
Qed.

(** X20. For a name without a slash that is a stem followed by an extension
    lower-casing to ".wav", [os.path.splitext] cuts exactly at that
    extension when the stem has a character other than a dot, so the
    identifier is the stem; when the stem is empty or made of dots only
    (".wav", "..wav") nothing is cut off and the identifier is the whole
    name. *)
Theorem file_key_is_the_stem :
  forall audio_dir stem ext : string,
    PyStr.lower ext = ".wav" ->
    PyStr.contains "/" stem = false ->
    let only_dots :=
      forallb (fun c => Ascii.eqb c ".") (list_ascii_of_string stem) in
    PyStr.splitext (stem ++ ext)
    = (if only_dots then ((stem ++ ext)%string, EmptyString) else (stem, ext)) /\
    file_key (PyStr.join audio_dir (stem ++ ext))
    = (if only_dots then (stem ++ ext)%string else stem).
Proof.
  intros audio_dir stem ext Hext Hstem only_dots.
  destruct (wav_extension ext Hext) as (rest & -> & Hdot & Hslash).
  assert (Hnoslash : PyStr.contains "/" (stem ++ String "." rest) = false).
  { rewrite contains_app, Hstem. cbn [PyStr.contains].
    change (Ascii.eqb "/" ".") with false. exact Hslash. }
  assert (Hsplit : PyStr.splitext (stem ++ String "." rest)
                   = (if only_dots
                      then ((stem ++ String "." rest)%string, EmptyString)
                      else (stem, String "." rest))).
  { unfold PyStr.splitext, PyStr.rfind.
    rewrite (rfind_from_absent "/" _ Hnoslash).
    rewrite rfind_from_app. cbn [PyStr.rfind_from].
    change (Ascii.eqb "." ".") with true. cbv iota.
    rewrite (rfind_from_absent "." rest Hdot). simpl Z.add.
    destruct (Z.ltb_spec (-1) (Z.of_nat (String.length stem))) as [_|]; [|lia].
    unfold PyStr.has_non_dot.
    change (Z.to_nat 0) with 0. rewrite Z.sub_0_r, Nat2Z.id.
    rewrite substring_app_length, drop_append. cbn [andb].
    assert (Hex : existsb (fun c => negb (Ascii.eqb c "."))
                          (list_ascii_of_string stem) = negb only_dots).
    { unfold only_dots. induction (list_ascii_of_string stem) as [|c l IH];
        [reflexivity|].
      simpl. rewrite IH. now destruct (Ascii.eqb c "."). }
    rewrite Hex. destruct only_dots; reflexivity. }
  split; [exact Hsplit|].
  destruct (file_key_ignores_the_directory_aux audio_dir _ Hnoslash) as [_ ->].
  rewrite Hsplit. destruct only_dots; reflexivity.
Qed.

(** ** What the squeeze does to an encoding *)

Section SqueezeFacts.
Context {N : Num}.

Lemma squeeze_batch_1 (z0 : ndarray) (n T : nat) :
  shape z0 = [1; n; T] ->
  Np.squeeze z0
  = NdArray ((if n =? 1 then [] else [n]) ++ (if T =? 1 then [] else [T]))
            (flat z0).
Proof.
  intros Hsh. unfold Np.squeeze. rewrite Hsh. simpl.
  destruct (n =? 1), (T =? 1); reflexivity.
Qed.

(** X21. For an encoder output of shape (1, n, T), [squeeze()] removes every
    axis of length 1, not only the batch axis, and this decides what is
    stored for the file:
    - n and T both different from 1: the [n] temporal means;
    - T = 1 only: the [n] values of the single timestep, as they are;
    - n = 1 only (a model of latent width 1): the [T] timestep values as they
      are, not averaged, and a first file declares one column;
    - n = T = 1: the rank is 0 and the loop body raises. *)
Theorem squeeze_decides_what_is_stored :
  forall (z0 : ndarray) (n T : nat),
    shape z0 = [1; n; T] ->
    (n <> 1 -> T <> 1 -> length (flat z0) = n * T ->
     latent_vector_of (Np.squeeze z0)
     = Ok (NdArray [n]
             (map (fun d => arithmetic_mean (matrix_row (Np.squeeze z0) T d))
                  (seq 0 n)))) /\
    (n <> 1 -> T = 1 ->
     latent_vector_of (Np.squeeze z0) = Ok (NdArray [n] (flat z0))) /\
    (n = 1 -> T <> 1 ->
     latent_vector_of (Np.squeeze z0) = Ok (NdArray [T] (flat z0)) /\
     mean_vector (Np.squeeze z0) None = Ok (NdArray [T] (flat z0), Some 1)) /\
    (n = 1 -> T = 1 ->
     forall nd, exists e, mean_vector (Np.squeeze z0) nd = Raise e).
Proof.
  intros z0 n T Hsh. rewrite (squeeze_batch_1 z0 n T Hsh).
  split; [|split; [|split]].
  - intros Hn HT Hlen.
    destruct (Nat.eqb_spec n 1) as [|_]; [contradiction|].
    destruct (Nat.eqb_spec T 1) as [|_]; [contradiction|].
    unfold latent_vector_of. simpl.
    now apply mean_axis1_matrix.
  - intros Hn ->.
    destruct (Nat.eqb_spec n 1) as [|_]; [contradiction|]. reflexivity.
  - intros -> HT.
    destruct (Nat.eqb_spec T 1) as [|_]; [contradiction|].
    split; reflexivity.
  - intros -> -> nd. unfold mean_vector. simpl.
    destruct nd; simpl; eauto.
Qed.

End SqueezeFacts.

(** * The properties on the demo environments *)

#[local] Existing Instance Qnum.
#[local] Existing Instance Demo.env.

Lemma length_concat_uniform {A B} (f : A -> list B) (n : nat) (l : list A) :
  (forall x, length (f x) = n) ->
  length (concat (map f l)) = length l * n.
Proof.
  intros Hf. induction l as [|x l IH]; simpl; [reflexivity|].
  now rewrite length_app, Hf, IH.
Qed.

Lemma length_chunks {A} (k : nat) :
  forall (n : nat) (l : list A), length (Np.chunks n k l) = n.
Proof.
  induction n as [|n IH]; intros l; simpl; [reflexivity | now rewrite IH].
Qed.

Lemma demo_project_contract : reducer_contract Demo.project.
Proof.
  intros n m r. unfold Demo.project.
  destruct (shape m) as [|rows [|width [|? ?]]]; try discriminate.
  destruct (n <=? width); [|discriminate].
  intros H; inversion H; subst; clear H. exists rows. simpl.
  split; [reflexivity|].
  rewrite (length_concat_uniform _ n), length_chunks; [reflexivity|].
  intros row. unfold Demo.take_padded.
  rewrite length_firstn, length_app, repeat_length. lia.
Qed.

Lemma demo_zero_embedding_contract : reducer_contract Demo.zero_embedding.
Proof.
  intros n m r. unfold Demo.zero_embedding.
  destruct (shape m) as [|rows rest]; [discriminate|].
  intros H; inversion H; subst; clear H. exists rows. simpl.
  now rewrite repeat_length.
Qed.

(** C1, counterexample: with the selector "foo" the job does not fail; it
    completes exactly as with "pca" and writes three PCA coordinates. *)
Lemma C1_unknown_selector_completes_with_pca :
  PStr "foo" <> PStr "pca" /\ PStr "foo" <> PStr "tsne" /\
  PStr "foo" <> PStr "umap" /\
  Demo.run "/audio" (PStr "out") 2 (PStr "foo") false
  = Demo.run "/audio" (PStr "out") 2 (PStr "pca") false /\
  exists w' art rd,
    Demo.run "/audio" (PStr "out") 2 (PStr "foo") false
    = (Ok (Some "/cwd/out.json"), w') /\
    files w' = [("/cwd/out.json", art)] /\
    reduced_data art = Some rd /\ length rd = 3.
Proof.
  split; [discriminate|]. split; [discriminate|]. split; [discriminate|].
  split; [vm_compute; reflexivity|].
  exists (snd (Demo.run "/audio" (PStr "out") 2 (PStr "foo") false)).
  exists (written (Demo.run "/audio" (PStr "out") 2 (PStr "foo") false)).
  exists (reduced_of
            (written (Demo.run "/audio" (PStr "out") 2 (PStr "foo") false))).
  repeat split; vm_compute; reflexivity.
Qed.

(** The selector "foo" on a dataset of two vectors. *)
Lemma C1_other_selectors_run_pca_witness :
  reduce_stage 7 (PStr "foo") Demo.ld0 Demo.lv0 Demo.w0
  = reduce_stage 7 (PStr "pca") Demo.ld0 Demo.lv0 Demo.w0 /\
  forall latent_matrix,
    Np.array Demo.lv0 = Ok latent_matrix ->
    reduce_stage 7 (PStr "foo") Demo.ld0 Demo.lv0 Demo.w0
    = (rbind (PCA_fit_transform 2 latent_matrix)
             (fun r => fill_reduced 0 (Dict.keys Demo.ld0) r []),
       MkWorld ("Performing PCA on latent vectors (2 components)..."
                  :: console Demo.w0) (files Demo.w0) (osc_sent Demo.w0)
               (threads Demo.w0)).
Proof.
  apply (C1_other_selectors_run_pca 7 (PStr "foo") Demo.ld0 Demo.lv0
           Demo.w0); discriminate.
Defined.

(** C2, the failing run: the only file encodes to one timestep of a
    width-3 latent, the squeeze leaves a rank-1 array of length 3, and the
    artifact declares [cols = 1] next to a vector of length 3. *)
Lemma C2_cols_is_1_when_first_encoding_is_rank_1 :
  exists w' art v,
    Demo.run "/short" PNone 2 (PStr "pca") true
    = (Ok (Some "/cwd/latent_vectors_rave.json"), w') /\
    files w' = [("/cwd/latent_vectors_rave.json", art)] /\
    cols art = Some 1 /\
    data art = [("blip", v)] /\
    py_len v = Some 3.
Proof.
  exists (snd (Demo.run "/short" PNone 2 (PStr "pca") true)).
  exists (written (Demo.run "/short" PNone 2 (PStr "pca") true)).
  exists (PyList [PyNum (N := Qnum) 6%Q; PyNum (N := Qnum) 7%Q;
                  PyNum (N := Qnum) 8%Q]).
  repeat split; vm_compute; reflexivity.
Qed.

(** C3, counterexample: the embedding [[19.9375, 1.0], [-0.5, 0.25]] has
    the non-zero maximum 19.9375; after the job has multiplied it by
    [5.0 / 19.9375] the largest magnitude in [reduced_data] is
    5.000000476837158 in float32 and 4.999999999999999 in float64, not
    5.0. *)
Lemma C3_scaled_maximum_is_not_5_in_floating_point :
  (exists w' art rd scaled,
      DemoFloat.run 24 128 = (Ok (Some "/cwd/out.json"), w') /\
      files w' = [("/cwd/out.json", art)] /\
      reduced_data art = Some rd /\
      Np.abs_max (DemoFloat.embedding 24 128)
      = Ok (S754_finite false 10452992 (-19)) /\
      scale_to_5 (DemoFloat.embedding 24 128) = Ok scaled /\
      fill_reduced 0 (Dict.keys (data art)) scaled [] = Ok rd /\
      Np.abs_max scaled = Ok (S754_finite false 10485761 (-21)) /\
      @nfive binary32 = S754_finite false 10485760 (-21) /\
      SFeqb (S754_finite false 10485761 (-21)) (@nfive binary32) = false) /\
  (exists w' art rd scaled,
      DemoFloat.run 53 1024 = (Ok (Some "/cwd/out.json"), w') /\
      files w' = [("/cwd/out.json", art)] /\
      reduced_data art = Some rd /\
      Np.abs_max (DemoFloat.embedding 53 1024)
      = Ok (S754_finite false 5611907348168704 (-48)) /\
      scale_to_5 (DemoFloat.embedding 53 1024) = Ok scaled /\
      fill_reduced 0 (Dict.keys (data art)) scaled [] = Ok rd /\
      Np.abs_max scaled = Ok (S754_finite false 5629499534213119 (-50)) /\
      @nfive binary64 = S754_finite false 5629499534213120 (-50) /\
      SFeqb (S754_finite false 5629499534213119 (-50)) (@nfive binary64)
      = false).
Proof.
  split.
  - exists (snd (DemoFloat.run 24 128)), (written (DemoFloat.run 24 128)),
      (reduced_of (written (DemoFloat.run 24 128))),
      (Np.mul (DemoFloat.embedding 24 128)
         (@ndiv binary32 nfive (S754_finite false 10452992 (-19)))).
    repeat split; vm_compute; reflexivity.
  - exists (snd (DemoFloat.run 53 1024)), (written (DemoFloat.run 53 1024)),
      (reduced_of (written (DemoFloat.run 53 1024))),
      (Np.mul (DemoFloat.embedding 53 1024)
         (@ndiv binary64 nfive (S754_finite false 5611907348168704 (-48)))).
    repeat split; vm_compute; reflexivity.
Qed.

(** Scaling in float32 when [5.0 / max_val] overflows: for the embedding
    [[2^-140, 0], [0, 2^-140]] the maximum is 2^-140, the factor is
    infinite, and the scaled embedding is [[inf, nan], [nan, inf]]. *)
Example scaling_overflows_for_a_tiny_maximum :
  exists scaled,
    scale_to_5 (N := binary32)
      (NdArray [2; 2] [DemoFloat.fl 24 128 1 (-140); S754_zero false;
                       S754_zero false; DemoFloat.fl 24 128 1 (-140)])
    = Ok scaled /\
    Np.abs_max (N := binary32)
      (NdArray [2; 2] [DemoFloat.fl 24 128 1 (-140); S754_zero false;
                       S754_zero false; DemoFloat.fl 24 128 1 (-140)])
    = Ok (DemoFloat.fl 24 128 1 (-140)) /\
    @ndiv binary32 nfive (DemoFloat.fl 24 128 1 (-140)) = S754_infinity false /\
    flat scaled
    = [S754_infinity false; S754_nan; S754_nan; S754_infinity false].
Proof.
  exists (Np.mul (N := binary32)
            (NdArray [2; 2] [DemoFloat.fl 24 128 1 (-140); S754_zero false;
                             S754_zero false; DemoFloat.fl 24 128 1 (-140)])
            (@ndiv binary32 nfive (DemoFloat.fl 24 128 1 (-140)))).
  repeat split; vm_compute; reflexivity.
Qed.

(** A t-SNE job on the demo directory, and the matrix [[3, -4], [1, 2]]
    scaled by 5/4 in exact arithmetic. *)
Lemma C3_witness :
  (exists art rd rave names lv latent_matrix fitted latent_reduced,
      files (snd (Demo.run "/audio" (PStr "out") 7 (PStr "tsne") false))
      = ("/cwd/out.json", art) :: files Demo.w0 /\
      reduced_data art = Some rd /\
      torch_jit_load "/models/rave.ts" = Ok rave /\
      os_listdir "/audio" = Ok names /\
      Forall2 (fun f v => exists z, encode_file rave 48000 f = Ok z /\
                                    latent_vector_of z = Ok v)
              (eligible_files "/audio" names) lv /\
      Np.array lv = Ok latent_matrix /\
      fill_reduced 0 (Dict.keys (data art)) latent_reduced [] = Ok rd /\
      (forall j k, nth_error (Dict.keys (data art)) j = Some k ->
         exists row, Np.getitem latent_reduced j = Ok row /\
                     Dict.get k rd = Some (tolist row)) /\
      (PStr "tsne" = PStr "tsne" ->
       TSNE_fit_transform 2 latent_matrix = Ok fitted) /\
      (PStr "tsne" = PStr "umap" ->
       UMAP_fit_transform 2 latent_matrix = Ok fitted) /\
      (PStr "tsne" = PStr "tsne" \/ PStr "tsne" = PStr "umap" ->
       exists max_val,
         Np.abs_max fitted = Ok max_val /\
         (nis_zero max_val = true -> latent_reduced = fitted) /\
         (nis_zero max_val = false ->
          latent_reduced = Np.mul fitted (ndiv nfive max_val) /\
          shape latent_reduced = shape fitted /\
          flat latent_reduced
          = map (fun x => nmul x (ndiv nfive max_val)) (flat fitted))) /\
      (PStr "tsne" = PStr "pca" ->
       PCA_fit_transform 2 latent_matrix = Ok fitted /\
       latent_reduced = fitted)) /\
  ((forall x, In x (flat (NdArray (N := Qnum) [2; 2] [3; -4; 1; 2]%Q)) ->
               (Qabs x <= 4)%Q) /\
   (exists x, In x (flat (NdArray (N := Qnum) [2; 2] [3; -4; 1; 2]%Q)) /\
              4%Q = Qabs x) /\
   scale_to_5 (NdArray (N := Qnum) [2; 2] [3; -4; 1; 2]%Q)
   = Ok (Np.mul (NdArray (N := Qnum) [2; 2] [3; -4; 1; 2]%Q) (5 / 4)%Q) /\
   (exists m' : Q,
       Np.abs_max (Np.mul (NdArray (N := Qnum) [2; 2] [3; -4; 1; 2]%Q) (5 / 4)%Q)
       = Ok m' /\ (m' == 5)%Q) /\
   (forall y,
       In y (flat (Np.mul (NdArray (N := Qnum) [2; 2] [3; -4; 1; 2]%Q)
                     (5 / 4)%Q)) ->
       (Qabs y <= 5)%Q) /\
   (exists y,
       In y (flat (Np.mul (NdArray (N := Qnum) [2; 2] [3; -4; 1; 2]%Q)
                     (5 / 4)%Q)) /\
       (Qabs y == 5)%Q)).
Proof.
  split.
  - apply (proj1 C3_tsne_umap_scaled_by_5_over_max_pca_unscaled Qnum Demo.env
             "/models/rave.ts" "/audio" (PStr "out") 7 48000 (PStr "tsne")
             (Some Demo.client) (Some "/rave/processing/done") Demo.w0).
    vm_compute. reflexivity.
  - apply (proj2 C3_tsne_umap_scaled_by_5_over_max_pca_unscaled
             (NdArray (N := Qnum) [2; 2] [3; -4; 1; 2]%Q) 4%Q).
    + vm_compute. reflexivity.
    + intros H. vm_compute in H. discriminate.
Defined.

(** The demo directory "/empty" holds "readme.md" and "wav". *)
Lemma C4_witness :
  (forall r w',
      Demo.run "/empty" PNone 2 (PStr "pca") false = (r, w') ->
      (forall p, r <> Ok (Some p)) /\
      (forall rave names,
          torch_jit_load "/models/rave.ts" = Ok rave ->
          os_listdir "/empty" = Ok names -> r = Ok None) /\
      files w' = files Demo.w0 /\ osc_sent w' = osc_sent Demo.w0) /\
  (forall r w',
      run_thread Demo.client
        (ProcessThread (MkJob "/models/rave.ts" "/empty" PNone (PStr "pca")
                              false)) Demo.w0 = (r, w') ->
      files w' = files Demo.w0 /\ osc_sent w' = osc_sent Demo.w0).
Proof.
  apply (C4_no_wav_files_no_artifact_no_notification (E := Demo.env)
           "/models/rave.ts" "/empty" PNone 2 48000 (PStr "pca") false
           Demo.client Demo.w0).
  intros names H. vm_compute in H. inversion H. reflexivity.
Defined.

(** A UMAP job on the demo directory. *)
Lemma C5_witness :
  exists a,
    files (snd (Demo.run "/audio" PNone 2 (PStr "umap") false))
    = ("/cwd/2D_umap_latent_mapping_rave.json", a) :: files Demo.w0 /\
    ((exists rd, reduced_data a = Some rd) <-> false = false) /\
    (forall rd, reduced_data a = Some rd -> Dict.keys rd = Dict.keys (data a)).
Proof.
  apply (C5_reduced_data_iff_not_skipped_same_keys (E := Demo.env)
           "/models/rave.ts" "/audio" PNone 2 48000 (PStr "umap") false
           (Some Demo.client) (Some "/rave/processing/done") Demo.w0).
  vm_compute. reflexivity.
Defined.

(** A PCA job that asks for three components. *)
Lemma C6_witness :
  exists a rd,
    files (snd (Demo.run "/audio" PNone 3 (PStr "pca") false))
    = ("/cwd/2D_pca_latent_mapping_rave.json", a) :: files Demo.w0 /\
    reduced_data a = Some rd /\
    forall k v, In (k, v) rd ->
      py_len v = Some 2 /\ exists x y, v = PyList [PyNum x; PyNum y].
Proof.
  apply (C6_reduced_coordinates_have_length_2 (E := Demo.env)
           "/models/rave.ts" "/audio" PNone 3 48000 (PStr "pca")
           (Some Demo.client) (Some "/rave/processing/done") Demo.w0).
  - exact demo_project_contract.
  - exact demo_zero_embedding_contract.
  - exact demo_project_contract.
  - vm_compute. reflexivity.
Defined.

(** A job on the demo directory, whose three files encode to 3 x 2
    matrices. *)
Example stored_vector_by_rank_after_squeeze_on_demo :
  exists art rave names,
    files (snd (Demo.run "/audio" PNone 2 (PStr "pca") true))
    = ("/cwd/latent_vectors_rave.json", art) :: files Demo.w0 /\
    torch_jit_load "/models/rave.ts" = Ok rave /\
    os_listdir "/audio" = Ok names /\
    forall l1 f l2,
      map (PyStr.join "/audio") (filter is_wav names) = l1 ++ f :: l2 ->
      ~ In (file_key f) (map file_key l2) ->
      exists z,
        encode_file rave 48000 f = Ok z /\
        (Np.ndim z = 1 ->
         Dict.get (file_key f) (data art) = Some (tolist z)) /\
        (forall n T,
            shape z = [n; T] -> length (flat z) = n * T -> 0 < T ->
            Dict.get (file_key f) (data art)
            = Some (PyList
                      (map (fun d => PyNum (arithmetic_mean (matrix_row z T d)))
                           (seq 0 n)))).
Proof.
  apply (stored_vector_by_rank_after_squeeze
           "/models/rave.ts" "/audio" PNone 2 48000 (PStr "pca") true
           (Some Demo.client) (Some "/rave/processing/done") Demo.w0).
  vm_compute. reflexivity.
Qed.

(** C7, the failing run: a model of latent width 1 encodes the only file to
    an array of shape (1, 1, 3) holding 4, 5, 6.  With the batch axis removed
    this is a 1 x 3 matrix (dimensions x timesteps) whose mean across the
    timestep axis is the single number 5, so the latent vector of the file
    is [5].  [squeeze()] removes the latent axis as well, the loop body
    takes its rank-1 branch, and the artifact holds the three timestep
    values 4, 5, 6, unaveraged, as the file's vector. *)
Lemma C7_width_1_encoding_is_stored_unaveraged :
  exists w' art z,
    DemoNarrow.run = (Ok (Some "/cwd/latent_vectors_narrow.json"), w') /\
    files w' = [("/cwd/latent_vectors_narrow.json", art)] /\
    (forall x, rave_encode (Env := DemoNarrow.env) tt x
               = Ok DemoNarrow.encoding) /\
    shape DemoNarrow.encoding = [1; 1; 3] /\
    Np.getitem DemoNarrow.encoding 0 = Ok z /\
    shape z = [1; 3] /\
    matrix_row z 3 0 = [4; 5; 6]%Q /\
    Np.mean_axis1 z = Ok (NdArray [1] [arithmetic_mean (matrix_row z 3 0)]) /\
    (arithmetic_mean (matrix_row z 3 0) == 5)%Q /\
    Np.squeeze DemoNarrow.encoding = NdArray (N := Qnum) [3] [4; 5; 6]%Q /\
    data art = [("tone", PyList [PyNum (N := Qnum) 4%Q; PyNum (N := Qnum) 5%Q;
                                 PyNum (N := Qnum) 6%Q])] /\
    cols art = Some 1.
Proof.
  exists (snd DemoNarrow.run), (written DemoNarrow.run),
    (NdArray (N := Qnum) [1; 3] [4; 5; 6]%Q).
  repeat split; try (intros x); vm_compute; reflexivity.
Qed.

(** The probe on the demo model answers 3; a path that is not a string
    answers -1. *)
Example introspection_answers_3 :
  exists w',
    get_model_dimensions (PStr "Macintosh HD:/models/rave.ts")
      (Some Demo.client) (Some "/rave/model/dimensions") Demo.w0
    = (Ok (Some 3), w') /\
    osc_sent w' = [("/rave/model/dimensions", PInt 3)].
Proof.
  exists (snd (get_model_dimensions (PStr "Macintosh HD:/models/rave.ts")
                 (Some Demo.client) (Some "/rave/model/dimensions") Demo.w0)).
  split; vm_compute; reflexivity.
Qed.

Example introspection_answers_minus_1 :
  exists w',
    get_model_dimensions (PInt 7) (Some Demo.client)
      (Some "/rave/model/dimensions") Demo.w0
    = (Ok None, w') /\
    osc_sent w' = [("/rave/model/dimensions", PInt (-1))].
Proof.
  exists (snd (get_model_dimensions (PInt 7) (Some Demo.client)
                 (Some "/rave/model/dimensions") Demo.w0)).
  split; vm_compute; reflexivity.
Qed.

(** The demo model, whose probe encoding has shape (1, 3, 2), and a model
    file that does not exist. *)
Lemma C8_witness :
  (exists w',
      get_model_dimensions (PStr "Macintosh HD:/models/rave.ts")
        (Some Demo.client) (Some "/rave/model/dimensions") Demo.w0
      = (Ok (Some 3), w') /\
      osc_sent w' = ("/rave/model/dimensions", PInt (Z.of_nat 3))
                      :: osc_sent Demo.w0) /\
  (exists w',
      get_model_dimensions (PStr "/models/none.ts")
        (Some Demo.client) (Some "/rave/model/dimensions") Demo.w0
      = (Ok None, w') /\
      osc_sent w' = ("/rave/model/dimensions", PInt (-1)) :: osc_sent Demo.w0).
Proof.
  split.
  - apply (proj1 (C8_introspection_failure_is_reported_as_minus_1
                    (E := Demo.env)
                    (PStr "Macintosh HD:/models/rave.ts") Demo.client Demo.w0)
             "/models/rave.ts" tt
             (NdArray (N := Qnum) [1; 3; 2] [0; 0; 0; 0; 0; 0]%Q) 1 3 [2]).
    + reflexivity.
    + reflexivity.
    + vm_compute. reflexivity.
    + reflexivity.
  - apply (proj1 (proj2 (C8_introspection_failure_is_reported_as_minus_1
                           (E := Demo.env)
                           (PStr "/models/none.ts") Demo.client Demo.w0))).
    right. left. exists "/models/none.ts", Demo.not_found.
    split; reflexivity.
Defined.

(** A message with the directory only. *)
Lemma C9_witness :
  handle_process_request "/rave/process" [PStr "/audio"] Demo.w0
  = (Ok tt, MkWorld (not_enough_arguments "/rave/process" :: console Demo.w0)
                    (files Demo.w0) (osc_sent Demo.w0) (threads Demo.w0)) /\
  forall rest,
    serve (("/rave/process", [PStr "/audio"]) :: rest) Demo.w0
    = serve rest (MkWorld (not_enough_arguments "/rave/process"
                             :: console Demo.w0)
                          (files Demo.w0) (osc_sent Demo.w0) (threads Demo.w0)).
Proof.
  apply (C9_short_process_message_is_logged_and_dropped
           "/rave/process" [PStr "/audio"] Demo.w0).
  simpl. lia.
Defined.

(** A short message followed by a complete one: the second is dispatched. *)
Example listener_serves_the_next_request :
  exists w',
    serve [("/rave/process", [PStr "/audio"]);
           ("/rave/process", [PStr "/audio"; PStr "/models/rave.ts"])] Demo.w0
    = (Ok tt, w') /\
    threads w' = [ProcessThread (MkJob "/models/rave.ts" "/audio" PNone
                                       (PStr "pca") false)].
Proof.
  exists (snd (serve [("/rave/process", [PStr "/audio"]);
                      ("/rave/process", [PStr "/audio"; PStr "/models/rave.ts"])]
                 Demo.w0)).
  split; vm_compute; reflexivity.
Qed.


(** The string "false" as fifth argument: the job skips the reduction. *)
Example string_false_skips_reduction :
  exists w' art,
    run_thread Demo.client
      (ProcessThread (MkJob "/models/rave.ts" "/audio" PNone (PStr "tsne")
                            (py_bool (PStr "false")))) Demo.w0
    = (Ok tt, w') /\
    files w' = [("/cwd/latent_vectors_rave.json", art)] /\
    reduced_data art = None.
Proof.
  exists (snd (run_thread Demo.client
                 (ProcessThread (MkJob "/models/rave.ts" "/audio" PNone
                                       (PStr "tsne") (py_bool (PStr "false"))))
                 Demo.w0)).
  exists (written (Ok None,
                   snd (run_thread Demo.client
                          (ProcessThread
                             (MkJob "/models/rave.ts" "/audio" PNone
                                    (PStr "tsne") (py_bool (PStr "false"))))
                          Demo.w0))).
  repeat split; vm_compute; reflexivity.
Qed.

(** * The further properties on the demo environments *)

(** A model path that does not exist. *)
Lemma failed_job_leaves_nothing_behind_witness :
  files (snd (process_audio_files "/models/none.ts" "/audio" PNone 2 48000
                (PStr "pca") false (Some Demo.client)
                (Some "/rave/processing/done") Demo.w0))
  = files Demo.w0 /\
  osc_sent (snd (process_audio_files "/models/none.ts" "/audio" PNone 2 48000
                   (PStr "pca") false (Some Demo.client)
                   (Some "/rave/processing/done") Demo.w0))
  = osc_sent Demo.w0 /\
  threads (snd (process_audio_files "/models/none.ts" "/audio" PNone 2 48000
                  (PStr "pca") false (Some Demo.client)
                  (Some "/rave/processing/done") Demo.w0))
  = threads Demo.w0.
Proof.
  apply (failed_job_leaves_nothing_behind "/models/none.ts" "/audio" PNone 2
           48000 (PStr "pca") false (Some Demo.client)
           (Some "/rave/processing/done") Demo.w0 _ Demo.not_found).
  vm_compute. reflexivity.
Defined.

(** A PCA job on the demo directory. *)
Lemma completed_job_writes_and_notifies_the_returned_path_witness :
  (exists art,
      files (snd (Demo.run "/audio" PNone 2 (PStr "pca") false))
      = ("/cwd/2D_pca_latent_mapping_rave.json", art) :: files Demo.w0) /\
  threads (snd (Demo.run "/audio" PNone 2 (PStr "pca") false))
  = threads Demo.w0 /\
  resolve_output_json PNone "/models/rave.ts" (PStr "pca") false
  = Ok "/cwd/2D_pca_latent_mapping_rave.json" /\
  (forall c a,
      Some Demo.client = Some c -> Some "/rave/processing/done" = Some a ->
      a <> "" ->
      osc_sent (snd (Demo.run "/audio" PNone 2 (PStr "pca") false))
      = (a, PStr "/cwd/2D_pca_latent_mapping_rave.json") :: osc_sent Demo.w0) /\
  (Some Demo.client = None \/ Some "/rave/processing/done" = None \/
   Some "/rave/processing/done" = Some "" ->
   osc_sent (snd (Demo.run "/audio" PNone 2 (PStr "pca") false))
   = osc_sent Demo.w0).
Proof.
  apply (completed_job_writes_and_notifies_the_returned_path
           "/models/rave.ts" "/audio" PNone 2 48000 (PStr "pca") false
           (Some Demo.client) (Some "/rave/processing/done") Demo.w0).
  vm_compute. reflexivity.
Defined.

(** The demo directory "/empty". *)
Lemma none_is_returned_only_for_empty_input_witness :
  exists rave names,
    torch_jit_load "/models/rave.ts" = Ok rave /\
    os_listdir "/empty" = Ok names /\
    filter is_wav names = [] /\
    snd (Demo.run "/empty" PNone 2 (PStr "pca") false)
    = MkWorld
        (("No audio files found in directory: " ++ "/empty")%string
           :: ("Loading RAVE model from " ++ "/models/rave.ts" ++ "...")%string
           :: console Demo.w0)
        (files Demo.w0) (osc_sent Demo.w0) (threads Demo.w0).
Proof.
  apply (none_is_returned_only_for_empty_input
           "/models/rave.ts" "/empty" PNone 2 48000 (PStr "pca") false
           (Some Demo.client) (Some "/rave/processing/done") Demo.w0).
  vm_compute. reflexivity.
Defined.

(** Three files, the second of which cannot be decoded. *)
Lemma one_failing_file_aborts_the_job_witness :
  exists e' w',
    process_audio_files (E := DemoBroken.env) "/models/rave.ts" "/in" PNone 2
      48000 (PStr "pca") false None None Demo.w0 = (Raise e', w') /\
    files w' = files Demo.w0 /\ osc_sent w' = osc_sent Demo.w0.
Proof.
  apply (one_failing_file_aborts_the_job (E := DemoBroken.env)
           "/models/rave.ts" "/in" PNone 2 48000 (PStr "pca") false None None
           Demo.w0 tt ["a.wav"; "bad.wav"; "c.wav"] "/in/bad.wav"
           DemoBroken.cannot_decode).
  - reflexivity.
  - reflexivity.
  - vm_compute. auto.
  - vm_compute. reflexivity.
Defined.

(** A t-SNE job on the three files of the demo directory. *)
Lemma one_matrix_row_per_file_one_entry_per_identifier_witness :
  exists art rave names lv,
    files (snd (Demo.run "/audio" (PStr "out") 2 (PStr "tsne") false))
    = ("/cwd/out.json", art) :: files Demo.w0 /\
    torch_jit_load "/models/rave.ts" = Ok rave /\
    os_listdir "/audio" = Ok names /\
    Forall2 (fun f v => exists z, encode_file rave 48000 f = Ok z /\
                                  latent_vector_of z = Ok v)
            (eligible_files "/audio" names) lv /\
    (false = false ->
     exists latent_matrix fitted,
       Np.array lv = Ok latent_matrix /\
       hd 0 (shape latent_matrix) = length (eligible_files "/audio" names) /\
       reducer_for (PStr "tsne") 2 latent_matrix = Ok fitted) /\
    length (data art) <= length (eligible_files "/audio" names) /\
    (NoDup (map file_key (eligible_files "/audio" names)) ->
     Dict.keys (data art) = map file_key (eligible_files "/audio" names)) /\
    (length (data art) = length (eligible_files "/audio" names) ->
     NoDup (map file_key (eligible_files "/audio" names))).
Proof.
  apply (one_matrix_row_per_file_one_entry_per_identifier
           "/models/rave.ts" "/audio" (PStr "out") 2 48000 (PStr "tsne") false
           (Some Demo.client) (Some "/rave/processing/done") Demo.w0).
  vm_compute. reflexivity.
Defined.

(** The first file of the demo directory encodes to a 3 x 2 matrix. *)
Lemma cols_is_decided_by_the_first_file_witness :
  exists art rave names f rest z,
    files (snd (Demo.run "/audio" (PStr "out") 2 (PStr "pca") true))
    = ("/cwd/out.json", art) :: files Demo.w0 /\
    torch_jit_load "/models/rave.ts" = Ok rave /\
    os_listdir "/audio" = Ok names /\
    eligible_files "/audio" names = f :: rest /\
    encode_file rave 48000 f = Ok z /\
    shape z <> [] /\
    cols art = Some (if Np.ndim z =? 1 then 1 else hd 0 (shape z)).
Proof.
  apply (cols_is_decided_by_the_first_file
           "/models/rave.ts" "/audio" (PStr "out") 2 48000 (PStr "pca") true
           (Some Demo.client) (Some "/rave/processing/done") Demo.w0).
  vm_compute. reflexivity.
Defined.

(** A t-SNE job on the demo directory. *)
Lemma reduced_entry_j_is_matrix_row_j_witness :
  exists art rd rave names lv latent_matrix fitted latent_reduced,
    files (snd (Demo.run "/audio" (PStr "out") 2 (PStr "tsne") false))
    = ("/cwd/out.json", art) :: files Demo.w0 /\
    reduced_data art = Some rd /\
    torch_jit_load "/models/rave.ts" = Ok rave /\
    os_listdir "/audio" = Ok names /\
    Forall2 (fun f v => exists z, encode_file rave 48000 f = Ok z /\
                                  latent_vector_of z = Ok v)
            (eligible_files "/audio" names) lv /\
    Np.array lv = Ok latent_matrix /\
    reducer_for (PStr "tsne") 2 latent_matrix = Ok fitted /\
    (if py_eq_str (PStr "tsne") "tsne" || py_eq_str (PStr "tsne") "umap"
     then scale_to_5 fitted = Ok latent_reduced
     else latent_reduced = fitted) /\
    (forall j k, nth_error (Dict.keys (data art)) j = Some k ->
       exists row, Np.getitem latent_reduced j = Ok row /\
                   Dict.get k rd = Some (tolist row)) /\
    (NoDup (map file_key (eligible_files "/audio" names)) ->
     forall j f, nth_error (eligible_files "/audio" names) j = Some f ->
       exists row, Np.getitem latent_reduced j = Ok row /\
                   Dict.get (file_key f) rd = Some (tolist row)).
Proof.
  apply (reduced_entry_j_is_matrix_row_j
           "/models/rave.ts" "/audio" (PStr "out") 2 48000 (PStr "tsne")
           (Some Demo.client) (Some "/rave/processing/done") Demo.w0).
  vm_compute. reflexivity.
Defined.

(** The relative output path "out". *)
Lemma supplied_output_path_ends_in_json_witness :
  exists name,
    (name = "out" \/ name = ("out" ++ ".json")%string) /\
    (name = "out" <-> PyStr.endswith (PyStr.lower "out") ".json" = true) /\
    PyStr.endswith (PyStr.lower name) ".json" = true /\
    PyStr.isabs name = PyStr.isabs "out" /\
    "/cwd/out.json" = (if PyStr.isabs "out" then name
                       else os_path_abspath name) /\
    exists art,
      files (snd (Demo.run "/audio" (PStr "out") 2 (PStr "pca") true))
      = ("/cwd/out.json", art) :: files Demo.w0.
Proof.
  apply (supplied_output_path_ends_in_json
           "/models/rave.ts" "/audio" "out" 2 48000 (PStr "pca") true
           (Some Demo.client) (Some "/rave/processing/done") Demo.w0).
  vm_compute. reflexivity.
Defined.

(** No output path, method "umap", model file "rave.ts". *)
Lemma default_output_path_witness :
  exists stem,
    stem = PyStr.before_first_dot (PyStr.basename "/models/rave.ts") /\
    PyStr.contains "." stem = false /\
    PyStr.contains "/" stem = false /\
    "/cwd/2D_umap_latent_mapping_rave.json"
    = os_path_abspath
        (if false then ("latent_vectors_" ++ stem ++ ".json")%string
         else ("2D_" ++ py_str (PStr "umap") ++ "_latent_mapping_" ++ stem
                 ++ ".json")%string).
Proof.
  apply (default_output_path
           "/models/rave.ts" "/audio" 2 48000 (PStr "umap") false
           (Some Demo.client) (Some "/rave/processing/done") Demo.w0
           (snd (Demo.run "/audio" PNone 2 (PStr "umap") false))).
  vm_compute. reflexivity.
Defined.

(** The integer 3 as output path. *)
Lemma non_string_output_path_never_completes_witness :
  (forall p, fst (Demo.run "/audio" (PInt 3) 2 (PStr "pca") false)
             <> Ok (Some p)) /\
  files (snd (Demo.run "/audio" (PInt 3) 2 (PStr "pca") false))
  = files Demo.w0 /\
  osc_sent (snd (Demo.run "/audio" (PInt 3) 2 (PStr "pca") false))
  = osc_sent Demo.w0.
Proof.
  apply (non_string_output_path_never_completes
           "/models/rave.ts" "/audio" (PInt 3) 2 48000 (PStr "pca") false
           (Some Demo.client) (Some "/rave/processing/done") Demo.w0).
  - discriminate.
  - discriminate.
  - vm_compute. reflexivity.
Defined.

(** The integer 7 in place of a path. *)
Lemma strip_volume_removes_one_leading_prefix_witness :
  exists e, strip_volume (PInt 7) = Raise e.
Proof.
  apply (proj2 (proj2 strip_volume_removes_one_leading_prefix) (PInt 7)).
  discriminate.
Defined.

(** A request with the two paths only. *)
Lemma process_request_starts_one_job_with_defaults_witness :
  (exists w',
      handle_process_request "/rave/process"
        [PStr "Macintosh HD:/audio"; PStr "/models/rave.ts"] Demo.w0
      = (Ok tt, w') /\
      threads w'
      = ProcessThread
          (MkJob "/models/rave.ts" "/audio"
                 (nth 2 [PStr "Macintosh HD:/audio"; PStr "/models/rave.ts"]
                      PNone)
                 (nth 3 [PStr "Macintosh HD:/audio"; PStr "/models/rave.ts"]
                      (PStr "pca"))
                 (py_bool
                    (nth 4 [PStr "Macintosh HD:/audio"; PStr "/models/rave.ts"]
                         PNone)))
          :: threads Demo.w0 /\
      files w' = files Demo.w0 /\ osc_sent w' = osc_sent Demo.w0) /\
  (length [PStr "Macintosh HD:/audio"; PStr "/models/rave.ts"] = 2 ->
   MkJob "/models/rave.ts" "/audio"
         (nth 2 [PStr "Macintosh HD:/audio"; PStr "/models/rave.ts"] PNone)
         (nth 3 [PStr "Macintosh HD:/audio"; PStr "/models/rave.ts"]
              (PStr "pca"))
         (py_bool
            (nth 4 [PStr "Macintosh HD:/audio"; PStr "/models/rave.ts"] PNone))
   = MkJob "/models/rave.ts" "/audio" PNone (PStr "pca") false) /\
  (5 <= length [PStr "Macintosh HD:/audio"; PStr "/models/rave.ts"] ->
   forall extra w1,
     exists w1',
       handle_process_request "/rave/process"
         ([PStr "Macintosh HD:/audio"; PStr "/models/rave.ts"] ++ extra) w1
       = (Ok tt, w1') /\
       threads w1'
       = ProcessThread
           (MkJob "/models/rave.ts" "/audio"
                  (nth 2 [PStr "Macintosh HD:/audio"; PStr "/models/rave.ts"]
                       PNone)
                  (nth 3 [PStr "Macintosh HD:/audio"; PStr "/models/rave.ts"]
                       (PStr "pca"))
                  (py_bool
                     (nth 4
                        [PStr "Macintosh HD:/audio"; PStr "/models/rave.ts"]
                        PNone)))
           :: threads w1).
Proof.
  apply (process_request_starts_one_job_with_defaults (N := Qnum)
           "/rave/process"
           [PStr "Macintosh HD:/audio"; PStr "/models/rave.ts"] Demo.w0
           "/audio" "/models/rave.ts").
  - simpl. lia.
  - reflexivity.
  - reflexivity.
Defined.

(** A request whose directory is the integer 1. *)
Lemma process_request_with_non_string_path_is_rejected_witness :
  handle_process_request "/rave/process" [PInt 1; PStr "/models/rave.ts"]
    Demo.w0
  = (Raise (Exn AttributeError "object has no attribute 'startswith'"),
     Demo.w0) /\
  serve_message ("/rave/process", [PInt 1; PStr "/models/rave.ts"]) Demo.w0
  = (Ok tt,
     MkWorld (("Exception occurred during processing of request: "
                 ++ exn_msg (Exn AttributeError
                                 "object has no attribute 'startswith'"))%string
                :: console Demo.w0)
             (files Demo.w0) (osc_sent Demo.w0) (threads Demo.w0)).
Proof.
  apply (process_request_with_non_string_path_is_rejected
           [PInt 1; PStr "/models/rave.ts"] Demo.w0).
  - simpl. lia.
  - left. reflexivity.
Defined.

(** The listed name "Snare.WAV" in the directory "/audio". *)
Lemma file_key_ignores_the_directory_witness :
  PyStr.basename (PyStr.join "/audio" "Snare.WAV") = "Snare.WAV" /\
  file_key (PyStr.join "/audio" "Snare.WAV")
  = fst (PyStr.splitext "Snare.WAV").
Proof.
  apply (file_key_ignores_the_directory "/audio" "Snare.WAV").
  reflexivity.
Defined.

(** The name "kick.01.WAV". *)
Lemma file_key_is_the_stem_witness :
  PyStr.splitext ("kick.01" ++ ".WAV")
  = (if forallb (fun c => Ascii.eqb c ".") (list_ascii_of_string "kick.01")
     then (("kick.01" ++ ".WAV")%string, EmptyString)
     else ("kick.01", ".WAV")) /\
  file_key (PyStr.join "/audio" ("kick.01" ++ ".WAV"))
  = (if forallb (fun c => Ascii.eqb c ".") (list_ascii_of_string "kick.01")
     then ("kick.01" ++ ".WAV")%string else "kick.01").
Proof.
  apply (file_key_is_the_stem "/audio" "kick.01" ".WAV"); reflexivity.
Defined.

(** An encoding of a model of latent width 1 with three timesteps. *)
Lemma squeeze_decides_what_is_stored_witness :
  latent_vector_of (Np.squeeze (NdArray (N := Qnum) [1; 1; 3] [4; 5; 6]%Q))
  = Ok (NdArray [3] [4; 5; 6]%Q) /\
  mean_vector (Np.squeeze (NdArray (N := Qnum) [1; 1; 3] [4; 5; 6]%Q)) None
  = Ok (NdArray [3] [4; 5; 6]%Q, Some 1).
Proof.
  apply (proj1 (proj2 (proj2
           (squeeze_decides_what_is_stored
              (NdArray (N := Qnum) [1; 1; 3] [4; 5; 6]%Q) 1 3 eq_refl))));
    [reflexivity | discriminate].
Defined.
